(** * Ship of Fools: a shallow embedding of the social-dynamics engine

    The repository holds three implementations of the same simulation:
    - [ship_of_fools.py]: the single-file simulation ([Need], [Character],
      [Alliance], [Ship]);
    - [character.py], [social_system.py], [event_system.py]: the
      graph-based variant (networkx relationship graph, event catalog);
    - [src/models], [src/systems]: the package variant ([Group],
      [LeadershipSystem]).

    Python numbers, [int] and [float] alike, are embedded as exact
    rationals [Q]: the comparisons, the clamps and the decimal constants
    of the sources are exact there, and the rounding of binary floating
    point is not modelled.  [max] and [min] keep Python's rule that the
    first argument wins unless the second is strictly better.
    Dictionaries whose iteration order is observable are association
    lists in insertion order; a [Set] is a [gset].  Exceptions are values
    of [exn], carried by [outcome]; [print] and [logging] are recorded in
    the state the methods act on, except in the modules that say they
    leave them out.  The [random] module is an oracle: the sequences of
    its results are parameters, and what it guarantees of them is a
    hypothesis where a property needs it. *)

From Stdlib Require Import String List ZArith QArith Qabs Lqa Lia Bool.
From stdpp Require Import base gmap strings list.
Import ListNotations.

Open Scope Q_scope.

(** ** Python primitives shared by the three variants *)

Module Py.

(** Exception classes.  [NotFoundError] is not a Python built-in and is
    raised nowhere in the sources; it is the name the specification uses
    for a reference to an unknown agent. *)
Inductive exn : Type :=
| AttributeError
| KeyError
| TypeError
| ValueError
| NotFoundError.

(** How a call ends: it returns a value or an exception propagates. *)
Inductive outcome (A : Type) : Type :=
| Returned (a : A)
| Raised (e : exn).

Arguments Returned {A} a.
Arguments Raised {A} e.

#[global] Instance outcome_ret : MRet outcome := fun A a => Returned a.

#[global] Instance outcome_bind : MBind outcome := fun A B k m =>
  match m with
  | Returned a => k a
  | Raised e => Raised e
  end.

(** [a < b] on numbers, as a boolean. *)
Definition Qltb (a b : Q) : bool := negb (Qle_bool b a).

(** [max(a, b)]: [b] only when [b > a]. *)
Definition py_max (a b : Q) : Q := if Qltb a b then b else a.

(** [min(a, b)]: [b] only when [b < a]. *)
Definition py_min (a b : Q) : Q := if Qltb b a then b else a.

(** [max(items, key=key)]: the running best is replaced only by an item
    of strictly greater key, so the first of the greatest items is
    returned; [ValueError] on an empty sequence. *)
Definition max_by {A : Type} (key : A -> Q) (items : list A) : outcome A :=
  match items with
  | [] => Raised ValueError
  | x :: rest =>
      Returned (fold_left (fun best y => if Qltb (key best) (key y) then y else best) rest x)
  end.

(** [s.endswith(suffix)] *)
Definition endswith (s suffix : string) : bool :=
  (String.length suffix <=? String.length s)%nat &&
  String.eqb (substring (String.length s - String.length suffix)
                        (String.length suffix) s) suffix.

(** [s.replace(old, new)] for a non-empty [old]: occurrences are replaced
    left to right without overlap.  [skip] counts the characters of a
    match that are still to be dropped. *)
Fixpoint replace_from (old new : string) (skip : nat) (s : string) : string :=
  match s with
  | EmptyString => EmptyString
  | String c s' =>
      match skip with
      | S k => replace_from old new k s'
      | O =>
          if String.prefix old s
          then (new ++ replace_from old new (String.length old - 1) s')%string
          else String c (replace_from old new O s')
      end
  end.

Definition replace (s old new : string) : string := replace_from old new O s.

(** ** Dictionaries in insertion order *)

Section Dict.
Context {V : Type}.

Fixpoint dict_get (k : string) (d : list (string * V)) : option V :=
  match d with
  | [] => None
  | (k', v) :: d' => if String.eqb k k' then Some v else dict_get k d'
  end.

(** [k in d] *)
Definition dict_mem (k : string) (d : list (string * V)) : bool :=
  match dict_get k d with Some _ => true | None => false end.

(** [d[k] = v]: an existing key keeps its place. *)
Fixpoint dict_set (k : string) (v : V) (d : list (string * V)) : list (string * V) :=
  match d with
  | [] => [(k, v)]
  | (k', v') :: d' =>
      if String.eqb k k' then (k', v) :: d'
      else (k', v') :: dict_set k v d'
  end.

(** In-place change of the value stored under [k]. *)
Fixpoint dict_alter (f : V -> V) (k : string) (d : list (string * V))
  : list (string * V) :=
  match d with
  | [] => []
  | (k', v) :: d' =>
      if String.eqb k k' then (k', f v) :: d'
      else (k', v) :: dict_alter f k d'
  end.

(** [d.get(k, default)] *)
Definition dict_get_default (k : string) (default : V) (d : list (string * V)) : V :=
  match dict_get k d with Some v => v | None => default end.

End Dict.

(** ** Dictionaries keyed by objects

    A [dict] whose keys are instances of a class goes through the class's
    [__hash__] and [__eq__].  Objects are named by their position [nat] in
    a heap [list A]; an entry keeps the key object, its hash and the
    value.  Storing under a key that is the same object as, or hashes
    alike and compares equal to, the key of an entry replaces that entry's
    value; otherwise a new entry is appended. *)

Section ObjDict.
Context {A V : Type}.
Variable hash_of : A -> outcome Z.
Variable eq_of : A -> A -> bool.
Variable heap : list A.

Definition same_key (r : nat) (h : Z) (entry : nat * Z * V) : bool :=
  let '(r', h', _) := entry in
  (h =? h')%Z &&
  ((r =? r')%nat ||
   match heap !! r, heap !! r' with
   | Some a, Some a' => eq_of a' a
   | _, _ => false
   end).

Fixpoint objdict_store (r : nat) (h : Z) (v : V) (d : list (nat * Z * V))
  : list (nat * Z * V) :=
  match d with
  | [] => [(r, h, v)]
  | entry :: d' =>
      if same_key r h entry then (fst (fst entry), snd (fst entry), v) :: d'
      else entry :: objdict_store r h v d'
  end.

(** [d[key] = v] *)
Definition objdict_set (r : nat) (v : V) (d : list (nat * Z * V))
  : outcome (list (nat * Z * V)) :=
  match heap !! r with
  | Some a => h ← hash_of a; mret (objdict_store r h v d)
  | None => mret d
  end.

(** [d.get(key)] *)
Definition objdict_get (r : nat) (d : list (nat * Z * V)) : outcome (option V) :=
  match heap !! r with
  | Some a =>
      h ← hash_of a;
      mret (match List.find (same_key r h) d with
            | Some entry => Some (snd entry)
            | None => None
            end)
  | None => mret None
  end.

(** The keys, in insertion order. *)
Definition objdict_keys (d : list (nat * Z * V)) : list nat := map (fun e => fst (fst e)) d.

End ObjDict.

End Py.

Import Py.

(** ** ship_of_fools.py *)

Module ship_of_fools.

Inductive Ideology : Type :=
| AUTHORITARIAN | REFORMIST | REVOLUTIONARY | CONSERVATIVE | LIBERAL | ANARCHIST.

Inductive GroupIdentity : Type :=
| AUTHORITY | WORKERS | WOMEN | LGBTQ | RELIGIOUS | INDIGENOUS | MERCHANTS.

Definition Ideology_eqb (a b : Ideology) : bool :=
  match a, b with
  | AUTHORITARIAN, AUTHORITARIAN | REFORMIST, REFORMIST
  | REVOLUTIONARY, REVOLUTIONARY | CONSERVATIVE, CONSERVATIVE
  | LIBERAL, LIBERAL | ANARCHIST, ANARCHIST => true
  | _, _ => false
  end.

#[global] Instance ship_GroupIdentity_eq_dec : EqDecision GroupIdentity.
Proof. solve_decision. Defined.

Definition ship_GroupIdentity_index (g : GroupIdentity) : nat :=
  match g with
  | AUTHORITY => 0 | WORKERS => 1 | WOMEN => 2 | LGBTQ => 3
  | RELIGIOUS => 4 | INDIGENOUS => 5 | MERCHANTS => 6
  end.

Definition ship_GroupIdentity_of_index (n : nat) : GroupIdentity :=
  match n with
  | 0 => AUTHORITY | 1 => WORKERS | 2 => WOMEN | 3 => LGBTQ
  | 4 => RELIGIOUS | 5 => INDIGENOUS | _ => MERCHANTS
  end%nat.

#[global] Instance ship_GroupIdentity_countable : Countable GroupIdentity.
Proof.
  refine (inj_countable' ship_GroupIdentity_index ship_GroupIdentity_of_index _).
  intros g. destruct g; reflexivity.
Defined.

Record Memory : Type := {
  mem_day : Z;
  mem_event : string;
  mem_interpretation : string;
  mem_emotional_impact : Q;
  mem_witnesses : list Z
}.

Record Need : Type := {
  need_name : string;
  value : Q;
  critical_threshold : Q
}.

(** [Need.is_critical] *)
Definition is_critical (n : Need) : bool := Qltb (value n) (critical_threshold n).

Record Character : Type := {
  id : Z;
  name : string;
  role : string;
  groups : gset GroupIdentity;
  ideology : Ideology;
  needs : list (string * Need);
  stress : Q;
  trust_in_captain : Q;
  memories : list Memory;
  char_alliances : gset Z;
  speaking_ability : Q;
  influence : Q
}.
(* [char_alliances] is the attribute [Character.alliances]; the name
   [alliances] is kept for [Ship.alliances] below. *)

Definition set_needs (c : Character) (d : list (string * Need)) : Character :=
  {| id := id c; name := name c; role := role c; groups := groups c;
     ideology := ideology c; needs := d; stress := stress c;
     trust_in_captain := trust_in_captain c; memories := memories c;
     char_alliances := char_alliances c; speaking_ability := speaking_ability c;
     influence := influence c |}.

(** The two statements of the loop body of [update_needs]:
    [value += change] and [value = min(100, max(0, value))]. *)
Definition bump_need (change : Q) (n : Need) : Need :=
  let v := value n + change in
  {| need_name := need_name n;
     value := py_min 100 (py_max 0 v);
     critical_threshold := critical_threshold n |}.

(** [Character.update_needs]: one pass over [changes.items()]. *)
Fixpoint update_needs (c : Character) (changes : list (string * Q)) : Character :=
  match changes with
  | [] => c
  | (need_name, change) :: rest =>
      if dict_mem need_name (needs c)
      then update_needs (set_needs c (dict_alter (bump_need change) need_name (needs c))) rest
      else update_needs c rest
  end.

(** [Character.get_critical_needs] *)
Definition get_critical_needs (c : Character) : list string :=
  map fst (List.filter (fun kv => is_critical (snd kv)) (needs c)).

Definition add_ally (other : Z) (c : Character) : Character :=
  {| id := id c; name := name c; role := role c; groups := groups c;
     ideology := ideology c; needs := needs c; stress := stress c;
     trust_in_captain := trust_in_captain c; memories := memories c;
     char_alliances := {[other]} ∪ char_alliances c;
     speaking_ability := speaking_ability c; influence := influence c |}.

(** [mutineer.stress += 15; mutineer.influence -= 10] *)
Definition penalise (c : Character) : Character :=
  {| id := id c; name := name c; role := role c; groups := groups c;
     ideology := ideology c; needs := needs c; stress := stress c + 15;
     trust_in_captain := trust_in_captain c; memories := memories c;
     char_alliances := char_alliances c;
     speaking_ability := speaking_ability c; influence := influence c - 10 |}.

Record Alliance : Type := {
  members : gset Z;
  purpose : string;
  strength : Q;
  created_day : Z;
  broken : bool
}.

(** [Alliance.__init__], with [strength] left at its default. *)
Definition new_Alliance (ms : gset Z) (p : string) : Alliance :=
  {| members := ms; purpose := p; strength := 50; created_day := 0; broken := false |}.

(** [new_alliance.created_day = self.day] *)
Definition set_created_day (a : Alliance) (d : Z) : Alliance :=
  {| members := members a; purpose := purpose a; strength := strength a;
     created_day := d; broken := broken a |}.

(** [Alliance.add_member] *)
Definition add_member (a : Alliance) (char_id : Z) : Alliance :=
  {| members := {[char_id]} ∪ members a; purpose := purpose a;
     strength := strength a + 5; created_day := created_day a;
     broken := broken a |}.

(** [Alliance.remove_member] *)
Definition remove_member (a : Alliance) (char_id : Z) : Alliance :=
  let ms := members a ∖ {[char_id]} in
  {| members := ms; purpose := purpose a;
     strength := strength a - 10; created_day := created_day a;
     broken := if (size ms <? 2)%nat then true else broken a |}.

(** Lines written by [print], by the statement that writes them. *)
Inductive Printed : Type :=
| JoinedExistingAlliance (name1 name2 : string)
| NewAlliancePrinted (name1 name2 purpose : string)
| AllianceBrokeApart (purpose : string)
| MutinyAttempt
| Mutineers (names : list string)
| MutinySucceeds
| NewLeader (leader : string)
| ShipTurnsSouth
| MutinyFails
| ProfessorObjects.

(** The attributes of [Ship] that the alliance and mutiny methods read or
    write, and [printed], the lines sent to standard output so far.
    [self.characters] holds the [Character] objects themselves: position
    [i] of the list is the identity of the i-th object, and a method
    argument that is a [Character] of the ship is passed as its position. *)
Record Ship : Type := {
  day : Z;
  temperature : Q;
  heading : Q;
  danger_level : Q;
  captain_authority : Q;
  social_cohesion : Q;
  philosophical_tension : Q;
  characters : list Character;
  alliances : list Alliance;
  printed : list Printed
}.

Definition set_characters (s : Ship) (cs : list Character) : Ship :=
  {| day := day s; temperature := temperature s; heading := heading s;
     danger_level := danger_level s; captain_authority := captain_authority s;
     social_cohesion := social_cohesion s;
     philosophical_tension := philosophical_tension s;
     characters := cs; alliances := alliances s; printed := printed s |}.

Definition set_alliances (s : Ship) (al : list Alliance) : Ship :=
  {| day := day s; temperature := temperature s; heading := heading s;
     danger_level := danger_level s; captain_authority := captain_authority s;
     social_cohesion := social_cohesion s;
     philosophical_tension := philosophical_tension s;
     characters := characters s; alliances := al; printed := printed s |}.

Definition set_captain_authority (s : Ship) (a : Q) : Ship :=
  {| day := day s; temperature := temperature s; heading := heading s;
     danger_level := danger_level s; captain_authority := a;
     social_cohesion := social_cohesion s;
     philosophical_tension := philosophical_tension s;
     characters := characters s; alliances := alliances s; printed := printed s |}.

Definition set_heading (s : Ship) (h : Q) : Ship :=
  {| day := day s; temperature := temperature s; heading := h;
     danger_level := danger_level s; captain_authority := captain_authority s;
     social_cohesion := social_cohesion s;
     philosophical_tension := philosophical_tension s;
     characters := characters s; alliances := alliances s; printed := printed s |}.

Definition print (s : Ship) (line : Printed) : Ship :=
  {| day := day s; temperature := temperature s; heading := heading s;
     danger_level := danger_level s; captain_authority := captain_authority s;
     social_cohesion := social_cohesion s;
     philosophical_tension := philosophical_tension s;
     characters := characters s; alliances := alliances s;
     printed := printed s ++ [line] |}.

(** The loop of [_form_alliance] over [self.alliances]: the first alliance
    that holds either id receives both ids and the loop returns;
    [None] when the loop runs to its end. *)
Fixpoint join_existing (id1 id2 : Z) (al : list Alliance) : option (list Alliance) :=
  match al with
  | [] => None
  | alliance :: rest =>
      if bool_decide (id1 ∈ members alliance) || bool_decide (id2 ∈ members alliance)
      then Some (add_member (add_member alliance id1) id2 :: rest)
      else match join_existing id1 id2 rest with
           | Some rest' => Some (alliance :: rest')
           | None => None
           end
  end.

(** [Ship._form_alliance].  [char1] and [char2] are the characters at
    positions [r1] and [r2]; [choice] is the word drawn by
    [random.choice(['ideology', 'identity', 'grievances'])]. *)
Definition _form_alliance (s : Ship) (r1 r2 : nat) (choice : string) : Ship :=
  match characters s !! r1, characters s !! r2 with
  | Some char1, Some char2 =>
      let s1 := set_characters s (alter (add_ally (id char2)) r1 (characters s)) in
      let s2 := set_characters s1 (alter (add_ally (id char1)) r2 (characters s1)) in
      match join_existing (id char1) (id char2) (alliances s2) with
      | Some al =>
          print (set_alliances s2 al) (JoinedExistingAlliance (name char1) (name char2))
      | None =>
          let purpose := ("Shared " ++ choice)%string in
          let new_alliance :=
            set_created_day (new_Alliance {[id char1; id char2]} purpose) (day s2) in
          print (set_alliances s2 (alliances s2 ++ [new_alliance]))
                (NewAlliancePrinted (name char1) (name char2) purpose)
      end
  | _, _ => s
  end.

(** The module-level generator of [random]: [draws] is the sequence of
    values [random.random()] will return, [cursor] the next one. *)
Record Rng : Type := { draws : nat -> Q; cursor : nat }.

Definition random (g : Rng) : Q * Rng :=
  (draws g (cursor g), {| draws := draws g; cursor := S (cursor g) |}).

(** [random.uniform(a, b)] is [a + (b - a) * random()]. *)
Definition uniform (a b : Q) (g : Rng) : Q * Rng :=
  let (x, g') := random g in (a + (b - a) * x, g').

Definition set_strength (a : Alliance) (x : Q) : Alliance :=
  {| members := members a; purpose := purpose a; strength := x;
     created_day := created_day a; broken := broken a |}.

Definition set_broken (a : Alliance) : Alliance :=
  {| members := members a; purpose := purpose a; strength := strength a;
     created_day := created_day a; broken := true |}.

(** The loop body of [_update_alliances] for one alliance. *)
Definition update_alliance (a : Alliance) (g : Rng) : Alliance * list Printed * Rng :=
  if broken a then (a, [], g)
  else
    let (r, g1) := random g in
    if Qltb r (1 # 10) then
      let (u, g2) := uniform (-5) 5 g1 in
      let a1 := set_strength a (strength a + u) in
      if Qltb (strength a1) 20
      then (set_broken a1, [AllianceBrokeApart (purpose a1)], g2)
      else (a1, [], g2)
    else (a, [], g1).

Fixpoint update_alliance_list (al : list Alliance) (g : Rng)
  : list Alliance * list Printed * Rng :=
  match al with
  | [] => ([], [], g)
  | a :: rest =>
      let '(a', out, g1) := update_alliance a g in
      let '(rest', out', g2) := update_alliance_list rest g1 in
      (a' :: rest', out ++ out', g2)
  end.

(** [Ship._update_alliances] *)
Definition _update_alliances (s : Ship) (g : Rng) : Ship * Rng :=
  let '(al, out, g') := update_alliance_list (alliances s) g in
  ({| day := day s; temperature := temperature s; heading := heading s;
      danger_level := danger_level s; captain_authority := captain_authority s;
      social_cohesion := social_cohesion s;
      philosophical_tension := philosophical_tension s;
      characters := characters s; alliances := al;
      printed := printed s ++ out |}, g').

(** [c.ideology in [Ideology.REVOLUTIONARY, Ideology.ANARCHIST]] *)
Definition radical (c : Character) : bool :=
  existsb (Ideology_eqb (ideology c)) [REVOLUTIONARY; ANARCHIST].

Definition is_captain (c : Character) : bool := String.eqb (role c) "captain".

(** [Ship._check_mutiny_conditions] *)
Definition _check_mutiny_conditions (s : Ship) : bool :=
  if Qltb 40 (captain_authority s) then false
  else
    let revolutionary_count :=
      length (List.filter (fun c => radical c && Qltb 70 (stress c)) (characters s)) in
    (3 <=? revolutionary_count)%nat && Qltb 60 (danger_level s).

(** The members of the list [mutineers] of [_attempt_mutiny]. *)
Definition is_mutineer (c : Character) : bool := radical c && negb (is_captain c).

Definition mutineers (s : Ship) : list Character := List.filter is_mutineer (characters s).

(** The characters counted by [support_count]. *)
Definition is_supporter (c : Character) : bool :=
  Qltb (trust_in_captain c) 30 && negb (is_captain c).

Definition support_count (s : Ship) : nat := length (List.filter is_supporter (characters s)).

(** [Ship._attempt_mutiny].  The failure branch walks [mutineers], whose
    items are the objects of [self.characters] that pass the filter, so
    the penalty lands on exactly those positions of [characters]. *)
Definition _attempt_mutiny (s : Ship) : Ship * outcome unit :=
  let ms := mutineers s in
  let s := print (print s MutinyAttempt) (Mutineers (map name ms)) in
  let support_count := support_count s in
  if Qltb (inject_Z (Z.of_nat (length (characters s))) / 2)
          (inject_Z (Z.of_nat support_count))
  then
    let s := set_captain_authority (print s MutinySucceeds) 0 in
    match max_by influence ms with
    | Raised e => (s, Raised e)
    | Returned new_leader =>
        let s := print (print s (NewLeader (name new_leader))) ShipTurnsSouth in
        (set_heading s 180, Returned tt)
    end
  else
    let s := print (print s MutinyFails) ProfessorObjects in
    (set_characters s
       (map (fun c => if is_mutineer c then penalise c else c) (characters s)),
     Returned tt).

(** *** Predicates and states used in the properties *)

(** [x] belongs to no alliance of the registry. *)
Definition unallied (x : Z) (al : list Alliance) : Prop :=
  Forall (fun X => x ∉ members X) al.

(** The agent of the scenario: one need, hunger, at 10 with threshold 30. *)
Definition agent_x : Character :=
  {| id := 1; name := "X"; role := "passenger"; groups := {[WOMEN]};
     ideology := LIBERAL;
     needs := [("hunger", {| need_name := "hunger"; value := 10;
                             critical_threshold := 30 |})]%string;
     stress := 50; trust_in_captain := 70; memories := [];
     char_alliances := ∅; speaking_ability := 50; influence := 50 |}.

(** A crew member with no needs and the default gauges. *)
Definition sailor (i : Z) (nm : string) : Character :=
  {| id := i; name := nm; role := "worker"; groups := {[WORKERS]};
     ideology := REFORMIST; needs := []; stress := 50; trust_in_captain := 70;
     memories := []; char_alliances := ∅; speaking_ability := 50;
     influence := 50 |}.

Definition ship_with (cs : list Character) (al : list Alliance) : Ship :=
  {| day := 3; temperature := 15; heading := 0; danger_level := 0;
     captain_authority := 100; social_cohesion := 70;
     philosophical_tension := 30; characters := cs; alliances := al;
     printed := [] |}.

Definition three_sailors : list Character :=
  [sailor 1 "Ann"; sailor 2 "Bo"; sailor 3 "Cy"].

(** Sailors 1 and 2 are in one alliance, sailor 3 is in none. *)
Definition pact : Alliance :=
  {| members := {[1%Z; 2%Z]}; purpose := "Shared identity"; strength := 50;
     created_day := 3; broken := false |}.

(** An alliance of sailors 1 and 2 whose strength fell to 15 and which
    [_update_alliances] flagged broken. *)
Definition broken_pact : Alliance :=
  {| members := {[1%Z; 2%Z]}; purpose := "Shared identity"; strength := 15;
     created_day := 3; broken := true |}.

(** A generator whose every draw is 0: each tick perturbs, by -5. *)
Definition low_draws : Rng := {| draws := fun _ => 0; cursor := 0 |}.

(** [n] calls of [_update_alliances] in a row. *)
Fixpoint ticks (n : nat) (s : Ship) (g : Rng) : Ship * Rng :=
  match n with
  | O => (s, g)
  | S n' => let (s', g') := _update_alliances s g in ticks n' s' g'
  end.

(** The lines a call printed: what [printed] gained from [s] to [s']. *)
Definition printed_by (s s' : Ship) : list Printed :=
  drop (length (printed s)) (printed s').

(** The attempt took the branch that prints "MUTINY SUCCEEDS!". *)
Definition mutiny_succeeded (s : Ship) : Prop :=
  In MutinySucceeds (printed_by s (fst (_attempt_mutiny s))).

(** [support_count > len(self.characters) / 2]: the supporters outnumber
    half of everyone aboard, the captain included. *)
Definition majority_of_all (s : Ship) : Prop :=
  (length (characters s) < 2 * support_count s)%nat.

(** The supporters outnumber half of the characters other than the
    captain. *)
Definition majority_of_non_incumbents (s : Ship) : Prop :=
  (length (List.filter (fun c => negb (is_captain c)) (characters s))
   < 2 * support_count s)%nat.

Definition crew (i : Z) (nm rl : string) (ideo : Ideology) (trust : Q) : Character :=
  {| id := i; name := nm; role := rl; groups := {[WORKERS]}; ideology := ideo;
     needs := []; stress := 75; trust_in_captain := trust; memories := [];
     char_alliances := ∅; speaking_ability := 50; influence := 40 |}.

(** A captain and three others, two of whom distrust the captain. *)
Definition split_crew : list Character :=
  [crew 1 "Captain" "captain" AUTHORITARIAN 70;
   crew 2 "Professor" "intellectual" REVOLUTIONARY 10;
   crew 3 "Steward" "worker" ANARCHIST 10;
   crew 4 "Sailor" "worker" REFORMIST 70].

(** A captain and two others, both of whom distrust the captain. *)
Definition hostile_crew : list Character :=
  [crew 1 "Captain" "captain" AUTHORITARIAN 70;
   crew 2 "Professor" "intellectual" REVOLUTIONARY 10;
   crew 3 "Steward" "worker" ANARCHIST 10].

End ship_of_fools.

(** ** src/models/*.py and src/systems/leadership_system.py *)

Module leadership_system.

(** [src/models/enums.py] *)
Inductive Ideology : Type :=
| AUTHORITARIAN | REFORMIST | REVOLUTIONARY | CONSERVATIVE | LIBERAL | ANARCHIST.

Inductive GroupIdentity : Type :=
| AUTHORITY | WORKERS | WOMEN | LGBTQ | RELIGIOUS | INDIGENOUS | MERCHANTS.

#[global] Instance Ideology_eq_dec : EqDecision Ideology.
Proof. solve_decision. Defined.

#[global] Instance GroupIdentity_eq_dec : EqDecision GroupIdentity.
Proof. solve_decision. Defined.

Definition GroupIdentity_index (g : GroupIdentity) : nat :=
  match g with
  | AUTHORITY => 0 | WORKERS => 1 | WOMEN => 2 | LGBTQ => 3
  | RELIGIOUS => 4 | INDIGENOUS => 5 | MERCHANTS => 6
  end.

Definition GroupIdentity_of_index (n : nat) : GroupIdentity :=
  match n with
  | 0 => AUTHORITY | 1 => WORKERS | 2 => WOMEN | 3 => LGBTQ
  | 4 => RELIGIOUS | 5 => INDIGENOUS | _ => MERCHANTS
  end%nat.

#[global] Instance GroupIdentity_countable : Countable GroupIdentity.
Proof.
  refine (inj_countable' GroupIdentity_index GroupIdentity_of_index _).
  intros g. destruct g; reflexivity.
Defined.

(** [src/models/memory.py] *)
Record Memory : Type := {
  mem_day : Z;
  mem_event : string;
  mem_interpretation : string;
  mem_emotional_impact : Q;
  mem_witnesses : list Z;
  mem_believed_responsible : gset Z
}.

(** [src/models/character.py] *)
Record Need : Type := {
  need_name : string;
  value : Q;
  critical_threshold : Q
}.

Record Character : Type := {
  id : Z;
  name : string;
  role : string;
  groups : gset GroupIdentity;
  ideology : Ideology;
  needs : list (string * Need);
  stress : Q;
  trust_in_captain : Q;
  memories : list Memory;
  alliances : gset Z;
  speaking_ability : Q;
  influence : Q;
  is_spokesperson : bool
}.

Definition set_role (new_role : string) (c : Character) : Character :=
  {| id := id c; name := name c; role := new_role; groups := groups c;
     ideology := ideology c; needs := needs c; stress := stress c;
     trust_in_captain := trust_in_captain c; memories := memories c;
     alliances := alliances c; speaking_ability := speaking_ability c;
     influence := influence c; is_spokesperson := is_spokesperson c |}.

(** The [__eq__] that [@dataclass] generates: the tuples of fields are
    compared, numbers by value, sets and dicts by content. *)
Definition Need_eq (a b : Need) : bool :=
  String.eqb (need_name a) (need_name b) && Qeq_bool (value a) (value b)
  && Qeq_bool (critical_threshold a) (critical_threshold b).

Definition Memory_eq (a b : Memory) : bool :=
  (mem_day a =? mem_day b)%Z && String.eqb (mem_event a) (mem_event b)
  && String.eqb (mem_interpretation a) (mem_interpretation b)
  && Qeq_bool (mem_emotional_impact a) (mem_emotional_impact b)
  && bool_decide (mem_witnesses a = mem_witnesses b)
  && bool_decide (mem_believed_responsible a = mem_believed_responsible b).

Fixpoint list_eq {A : Type} (eq : A -> A -> bool) (l1 l2 : list A) : bool :=
  match l1, l2 with
  | [], [] => true
  | x :: l1', y :: l2' => eq x y && list_eq eq l1' l2'
  | _, _ => false
  end.

Definition needs_eq (d1 d2 : list (string * Need)) : bool :=
  (length d1 =? length d2)%nat &&
  forallb (fun kv => match dict_get (fst kv) d2 with
                     | Some n => Need_eq (snd kv) n
                     | None => false
                     end) d1.

Definition Character_eq (a b : Character) : bool :=
  (id a =? id b)%Z && String.eqb (name a) (name b) && String.eqb (role a) (role b)
  && bool_decide (groups a = groups b) && bool_decide (ideology a = ideology b)
  && needs_eq (needs a) (needs b) && Qeq_bool (stress a) (stress b)
  && Qeq_bool (trust_in_captain a) (trust_in_captain b)
  && list_eq Memory_eq (memories a) (memories b)
  && bool_decide (alliances a = alliances b)
  && Qeq_bool (speaking_ability a) (speaking_ability b)
  && Qeq_bool (influence a) (influence b)
  && Bool.eqb (is_spokesperson a) (is_spokesperson b).

(** [Character] is declared with a bare [@dataclass]: [eq] defaults to
    true and [frozen] to false, and for that combination the decorator
    sets [__hash__] to [None].  Hashing an instance raises [TypeError]. *)
Definition Character_hash (c : Character) : outcome Z := Raised TypeError.

(** [src/models/group.py]: [members] maps a character id to the object,
    [spokesperson] is [None] or an object. *)
Record Group : Type := {
  identity : GroupIdentity;
  members : list (Z * nat);
  spokesperson : option nat
}.

Inductive Printed : Type :=
| AuthorityIsWeak
| NoSpokespersons
| NoCandidatesHaveInfluence
| HasBeenDeposed (old_captain : string)
| NewCaptain (new_leader : string)
| NoSingleLeader.

(** [LeadershipSystem].  [characters] is [self.characters], a list of the
    [Character] objects; an object is named by its position in that list,
    in [spokesperson], in [members] and in [captain].  [printed] collects
    the lines sent to standard output. *)
Record LeadershipSystem : Type := {
  characters : list Character;
  groups_of : list Group;
  captain : option nat;
  printed : list Printed
}.
(* [groups_of] is the attribute [LeadershipSystem.groups]. *)

Definition print (s : LeadershipSystem) (lines : list Printed) : LeadershipSystem :=
  {| characters := characters s; groups_of := groups_of s; captain := captain s;
     printed := printed s ++ lines |}.

(** [LeadershipSystem.get_captain] *)
Fixpoint find_captain (pos : nat) (cs : list Character) : option nat :=
  match cs with
  | [] => None
  | c :: rest => if String.eqb (role c) "captain" then Some pos else find_captain (S pos) rest
  end.

Definition get_captain (cs : list Character) : option nat := find_captain 0 cs.

(** [LeadershipSystem.__init__] *)
Definition LeadershipSystem_init (cs : list Character) (gs : list Group) : LeadershipSystem :=
  {| characters := cs; groups_of := gs; captain := get_captain cs; printed := [] |}.

(** [LeadershipSystem.update_captain_authority] *)
Definition update_captain_authority (s : LeadershipSystem) (change : Q) : LeadershipSystem :=
  match captain s with
  | Some rc =>
      {| characters :=
           alter (fun c =>
                    {| id := id c; name := name c; role := role c; groups := groups c;
                       ideology := ideology c; needs := needs c; stress := stress c;
                       trust_in_captain := trust_in_captain c + change;
                       memories := memories c; alliances := alliances c;
                       speaking_ability := speaking_ability c;
                       influence := influence c;
                       is_spokesperson := is_spokesperson c |})
                 rc (characters s);
         groups_of := groups_of s; captain := captain s; printed := printed s |}
  | None => s
  end.

(** [[g.spokesperson for g in self.groups
      if g.spokesperson and g.spokesperson.id != self.captain.id]] *)
Definition candidates_of (cs : list Character) (gs : list Group) (cap : Character) : list nat :=
  flat_map (fun g =>
    match spokesperson g with
    | Some r =>
        match cs !! r with
        | Some sp => if negb (id sp =? id cap)%Z then [r] else []
        | None => []
        end
    | None => []
    end) gs.

Section Leadership.
(** [__hash__] and [__eq__] of the class whose instances key
    [power_scores]. *)
Variable hash_of : Character -> outcome Z.
Variable eq_of : Character -> Character -> bool.

(** [{char: char.influence for char in candidates}] *)
Fixpoint build_power_scores (cs : list Character) (candidates : list nat)
  (d : list (nat * Z * Q)) : outcome (list (nat * Z * Q)) :=
  match candidates with
  | [] => mret d
  | r :: rest =>
      match cs !! r with
      | Some char =>
          d' ← objdict_set hash_of eq_of cs r (influence char) d;
          build_power_scores cs rest d'
      | None => build_power_scores cs rest d
      end
  end.

(** The keys of [power_scores] paired with [power_scores.get(key)], as
    [max] computes them.  Every key is found again by [get]. *)
Fixpoint keyed_scores (cs : list Character) (d : list (nat * Z * Q)) (keys : list nat)
  : outcome (list (nat * Q)) :=
  match keys with
  | [] => mret []
  | r :: rest =>
      v ← objdict_get hash_of eq_of cs r d;
      match v with
      | Some q => tl ← keyed_scores cs d rest; mret ((r, q) :: tl)
      | None => Raised TypeError
      end
  end.

(** [LeadershipSystem.check_for_leadership_change] *)
Definition check_for_leadership_change_with (s : LeadershipSystem)
  : LeadershipSystem * outcome unit :=
  match captain s with
  | None => (s, Returned tt)
  | Some rc =>
      match characters s !! rc with
      | None => (s, Returned tt)
      | Some cap =>
          if Qltb (trust_in_captain cap) 40 then
            let s := print s [AuthorityIsWeak] in
            let candidates := candidates_of (characters s) (groups_of s) cap in
            match candidates with
            | [] => (print s [NoSpokespersons], Returned tt)
            | _ :: _ =>
                match build_power_scores (characters s) candidates [] with
                | Raised e => (s, Raised e)
                | Returned [] => (print s [NoCandidatesHaveInfluence], Returned tt)
                | Returned power_scores =>
                    match keyed_scores (characters s) power_scores
                            (objdict_keys power_scores) with
                    | Raised e => (s, Raised e)
                    | Returned scored =>
                        (* max(power_scores, key=power_scores.get) *)
                        match max_by snd scored with
                        | Raised e => (s, Raised e)
                        | Returned (rn, _) =>
                            match characters s !! rn with
                            | None => (s, Returned tt)
                            | Some new_leader =>
                                if Qltb (influence cap + trust_in_captain cap)
                                        (influence new_leader)
                                then
                                  let s := print s [HasBeenDeposed (name cap)] in
                                  let cs1 := alter (set_role "deposed") rc (characters s) in
                                  let cs2 := alter (set_role "captain") rn cs1 in
                                  ({| characters := cs2; groups_of := groups_of s;
                                      captain := Some rn;
                                      printed := printed s ++ [NewCaptain (name new_leader)] |},
                                   Returned tt)
                                else (print s [NoSingleLeader], Returned tt)
                            end
                        end
                    end
                end
            end
          else (s, Returned tt)
      end
  end.

End Leadership.

(** The method as it runs on the class of [src/models/character.py]. *)
Definition check_for_leadership_change (s : LeadershipSystem)
  : LeadershipSystem * outcome unit :=
  check_for_leadership_change_with Character_hash Character_eq s.

(** *** Predicates and states used in the properties *)

(** The call left the crew, the groups and the captaincy as they were. *)
Definition same_crew (s s' : LeadershipSystem) : Prop :=
  characters s' = characters s /\ captain s' = captain s /\ groups_of s' = groups_of s.

(** Every challenger of [s] has more stress or less influence in [s']. *)
Definition challengers_penalised (s s' : LeadershipSystem) (cap : Character) : Prop :=
  forall (r : nat) (c c' : Character),
    In r (candidates_of (characters s) (groups_of s) cap) ->
    characters s !! r = Some c ->
    characters s' !! r = Some c' ->
    stress c < stress c' \/ influence c' < influence c.

Definition person (i : Z) (nm rl : string) (trust infl : Q) : Character :=
  {| id := i; name := nm; role := rl; groups := {[WORKERS]}; ideology := LIBERAL;
     needs := []; stress := 50; trust_in_captain := trust; memories := [];
     alliances := ∅; speaking_ability := 50; influence := infl;
     is_spokesperson := false |}.

(** The captain of the scenario: authority 35, influence 50. *)
Definition weak_captain : Character := person 1 "Captain" "captain" 35 50.

(** A captain at 35 facing one spokesperson of influence [infl], the
    elected voice of the workers. *)
Definition contest (infl : Q) : LeadershipSystem :=
  LeadershipSystem_init
    [weak_captain; person 2 "Spokesperson" "spokesperson" 70 infl]
    [ {| identity := WORKERS; members := [(2%Z, 1%nat)]; spokesperson := Some 1%nat |} ].

(** A key class that can be hashed: by the character's id. *)
Definition hash_by_id (c : Character) : outcome Z := Returned (id c).

End leadership_system.

(** ** character.py *)

Module character.

Inductive Gender : Type := MALE | FEMALE | NON_BINARY.

Inductive Ideology : Type :=
| LIBERAL | CONSERVATIVE | COMMUNIST | ANARCHIST | Ideology_NONE.

Inductive BeliefSystem : Type :=
| ATHEISM | THEISM | SPIRITUALITY | AGNOSTICISM | BeliefSystem_NONE.

Inductive SocialClass : Type := LOW | MIDDLE | HIGH.

Inductive PsychologicalState : Type :=
| NORMAL | ANGRY | DEPRESSED | COOPERATIVE | PARANOID.

Inductive HiddenAgenda : Type :=
| SEEK_POWER | FIND_LOVE | SURVIVE | CREATE_CHAOS | HiddenAgenda_NONE.

Inductive BigFive : Type :=
| OPENNESS | CONSCIENTIOUSNESS | EXTRAVERSION | AGREEABLENESS | NEUROTICISM.

Definition PsychologicalState_eqb (a b : PsychologicalState) : bool :=
  match a, b with
  | NORMAL, NORMAL | ANGRY, ANGRY | DEPRESSED, DEPRESSED
  | COOPERATIVE, COOPERATIVE | PARANOID, PARANOID => true
  | _, _ => false
  end.

(** The members of the enum, by name. *)
Definition PsychologicalState_members : list (string * PsychologicalState) :=
  [("NORMAL", NORMAL); ("ANGRY", ANGRY); ("DEPRESSED", DEPRESSED);
   ("COOPERATIVE", COOPERATIVE); ("PARANOID", PARANOID)]%string.

(** The expression [PsychologicalState.<member>]: a name that is not a
    member of the enum raises [AttributeError]. *)
Definition PsychologicalState_member (member : string) : outcome PsychologicalState :=
  match dict_get member PsychologicalState_members with
  | Some m => Returned m
  | None => Raised AttributeError
  end.

Definition BigFive_eqb (a b : BigFive) : bool :=
  match a, b with
  | OPENNESS, OPENNESS | CONSCIENTIOUSNESS, CONSCIENTIOUSNESS
  | EXTRAVERSION, EXTRAVERSION | AGREEABLENESS, AGREEABLENESS
  | NEUROTICISM, NEUROTICISM => true
  | _, _ => false
  end.

(** [big_five_traits[trait]]: [KeyError] when the trait has no entry. *)
Fixpoint trait (traits : list (BigFive * Q)) (t : BigFive) : outcome Q :=
  match traits with
  | [] => Raised KeyError
  | (t', x) :: rest => if BigFive_eqb t t' then Returned x else trait rest t
  end.

(** An entry appended by [perceive_event]. *)
Record Perception : Type := {
  event_id : option string;
  perceived_reality : option string;
  personal_bias_applied : bool
}.

(** An instance of [Character].  The fields up to [health] are the
    attributes assigned by [__init__].  [extra_attrs] holds the numeric
    attributes that [setattr] has attached to the instance under other
    names; [__init__] attaches none. *)
Record Character : Type := {
  name : string;
  gender : Gender;
  age : Q;
  social_class : SocialClass;
  ethnic_origin : string;
  sexual_orientation : string;
  ideology : Ideology;
  belief_system : BeliefSystem;
  resistance_to_change : list (string * Q);
  big_five_traits : list (BigFive * Q);
  needs : list (string * Q);
  emotions : list (string * Q);
  psychological_state : PsychologicalState;
  trauma_points : Q;
  psychological_resilience : Q;
  hidden_agenda : HiddenAgenda;
  backstory : list string;
  memory : list Perception;
  health : Q;
  extra_attrs : list (string * Q)
}.

(** [Character.__init__]; [resilience] is the value drawn by
    [random.uniform(0.1, 1.0)]. *)
Definition Character_init (name : string) (gender : Gender) (age : Q)
  (social_class : SocialClass) (ethnic_origin sexual_orientation : string)
  (ideology : Ideology) (belief_system : BeliefSystem)
  (big_five_traits : list (BigFive * Q)) (hidden_agenda : HiddenAgenda)
  (backstory : list string) (resilience : Q) : Character :=
  {| name := name; gender := gender; age := age; social_class := social_class;
     ethnic_origin := ethnic_origin; sexual_orientation := sexual_orientation;
     ideology := ideology; belief_system := belief_system;
     resistance_to_change := [("ideology", 1 # 2); ("belief", 8 # 10); ("prejudice", 2 # 10)]%string;
     big_five_traits := big_five_traits;
     needs := [("physiological", 1); ("social", 1); ("psychological", 1)]%string;
     emotions := [("anger", 0); ("hope", 0); ("fear", 0); ("happiness", 0)]%string;
     psychological_state := NORMAL;
     trauma_points := 0;
     psychological_resilience := resilience;
     hidden_agenda := hidden_agenda;
     backstory := backstory;
     memory := [];
     health := 1;
     extra_attrs := [] |}.

(** What [getattr] hands back: a number, or an object that is not a
    number (a string, a dict, a list, an enum member, a bound method). *)
Inductive attr_value : Type :=
| Number (q : Q)
| Object.

(** The attributes of an instance that hold numbers. *)
Definition numeric_field (c : Character) (attr : string) : option Q :=
  if String.eqb attr "age" then Some (age c)
  else if String.eqb attr "trauma_points" then Some (trauma_points c)
  else if String.eqb attr "psychological_resilience" then Some (psychological_resilience c)
  else if String.eqb attr "health" then Some (health c)
  else None.

(** The other attributes assigned by [__init__]. *)
Definition object_fields : list string :=
  ["name"; "gender"; "social_class"; "ethnic_origin"; "sexual_orientation";
   "ideology"; "belief_system"; "resistance_to_change"; "big_five_traits";
   "needs"; "emotions"; "psychological_state"; "hidden_agenda"; "backstory";
   "memory"]%string.

(** The methods of the class. *)
Definition methods : list string :=
  ["update_needs"; "_update_psychological_state"; "_calculate_influence";
   "make_decision"; "interact_with"; "change_ideology"; "perceive_event";
   "get_memories"]%string.

(** The attributes every instance of a class inherits from [object]
    (CPython 3.12). *)
Definition inherited : list string :=
  ["__class__"; "__delattr__"; "__dict__"; "__dir__"; "__doc__"; "__eq__";
   "__format__"; "__ge__"; "__getattribute__"; "__getstate__"; "__gt__";
   "__hash__"; "__init__"; "__init_subclass__"; "__le__"; "__lt__";
   "__module__"; "__ne__"; "__new__"; "__reduce__"; "__reduce_ex__";
   "__repr__"; "__setattr__"; "__sizeof__"; "__str__"; "__subclasshook__";
   "__weakref__"]%string.

(** [getattr(char, attr)] *)
Definition getattr (c : Character) (attr : string) : outcome attr_value :=
  match numeric_field c attr with
  | Some q => Returned (Number q)
  | None =>
      match dict_get attr (extra_attrs c) with
      | Some q => Returned (Number q)
      | None =>
          if existsb (String.eqb attr) (object_fields ++ methods ++ inherited)
          then Returned Object
          else Raised AttributeError
      end
  end.

(** [setattr(char, attr, v)] for a number [v].  A numeric field is
    overwritten; any other name becomes (or stays) an attribute of the
    instance, kept in [extra_attrs]. *)
Definition setattr (c : Character) (attr : string) (v : Q) : Character :=
  let upd (a h t r : Q) (x : list (string * Q)) :=
    {| name := name c; gender := gender c; age := a;
       social_class := social_class c; ethnic_origin := ethnic_origin c;
       sexual_orientation := sexual_orientation c; ideology := ideology c;
       belief_system := belief_system c;
       resistance_to_change := resistance_to_change c;
       big_five_traits := big_five_traits c; needs := needs c;
       emotions := emotions c; psychological_state := psychological_state c;
       trauma_points := t; psychological_resilience := r;
       hidden_agenda := hidden_agenda c; backstory := backstory c;
       memory := memory c; health := h; extra_attrs := x |} in
  if String.eqb attr "age"
  then upd v (health c) (trauma_points c) (psychological_resilience c) (extra_attrs c)
  else if String.eqb attr "trauma_points"
  then upd (age c) (health c) v (psychological_resilience c) (extra_attrs c)
  else if String.eqb attr "psychological_resilience"
  then upd (age c) (health c) (trauma_points c) v (extra_attrs c)
  else if String.eqb attr "health"
  then upd (age c) v (trauma_points c) (psychological_resilience c) (extra_attrs c)
  else upd (age c) (health c) (trauma_points c) (psychological_resilience c)
           (dict_set attr v (extra_attrs c)).

End character.

(** ** social_system.py *)

Module social_system.
Import character.

Inductive RelationshipType : Type :=
| FRIENDSHIP | CONFLICT | ROMANTIC | NEUTRAL | ALLIANCE.

Definition RelationshipType_value (t : RelationshipType) : string :=
  match t with
  | FRIENDSHIP => "friendship"
  | CONFLICT => "conflict"
  | ROMANTIC => "romantic"
  | NEUTRAL => "neutral"
  | ALLIANCE => "alliance"
  end.

Definition RelationshipType_eqb (a b : RelationshipType) : bool :=
  match a, b with
  | FRIENDSHIP, FRIENDSHIP | CONFLICT, CONFLICT | ROMANTIC, ROMANTIC
  | NEUTRAL, NEUTRAL | ALLIANCE, ALLIANCE => true
  | _, _ => false
  end.

(** *** The part of [networkx.Graph] the module uses

    Nodes are kept in insertion order with their [character] attribute.
    An undirected edge is stored once, with its attribute dict
    ([weight], [rel_type]); [(u, v)] and [(v, u)] name the same edge. *)

Record EdgeData : Type := { weight : Q; rel_type : RelationshipType }.

Record Graph : Type := {
  nodes : list (string * Character);
  edges : list (string * string * EdgeData)
}.

Definition joins (u v : string) (e : string * string * EdgeData) : bool :=
  let '(a, b, _) := e in
  (String.eqb u a && String.eqb v b) || (String.eqb u b && String.eqb v a).

(** [name in G] *)
Definition has_node (g : Graph) (n : string) : bool := dict_mem n (nodes g).

(** [G[u][v]], when the edge exists. *)
Definition edge_data (g : Graph) (u v : string) : option EdgeData :=
  match List.find (joins u v) (edges g) with
  | Some e => Some (snd e)
  | None => None
  end.

(** [G.has_edge(u, v)] *)
Definition has_edge (g : Graph) (u v : string) : bool :=
  match edge_data g u v with Some _ => true | None => false end.

Fixpoint alter_edge (f : EdgeData -> EdgeData) (u v : string)
  (es : list (string * string * EdgeData)) : list (string * string * EdgeData) :=
  match es with
  | [] => []
  | e :: rest =>
      if joins u v e then (fst e, f (snd e)) :: rest
      else e :: alter_edge f u v rest
  end.

(** [G.add_node(n, character=c)] for a name that is not yet a node. *)
Definition add_node (g : Graph) (n : string) (c : Character) : Graph :=
  {| nodes := nodes g ++ [(n, c)]; edges := edges g |}.

(** [G.add_edge(u, v, weight=w, rel_type=t)] between two nodes: the
    attributes of an existing edge are overwritten, otherwise the edge is
    new.  (The one call of [add_edge] sits behind a test that both names
    are nodes, so it never has to create a node.) *)
Definition add_edge (g : Graph) (u v : string) (d : EdgeData) : Graph :=
  {| nodes := nodes g;
     edges := if has_edge g u v then alter_edge (fun _ => d) u v (edges g)
              else edges g ++ [(u, v, d)] |}.

(** [G.remove_edges_from(pairs)]; a pair without an edge is skipped. *)
Definition remove_edge (es : list (string * string * EdgeData)) (uv : string * string)
  : list (string * string * EdgeData) :=
  List.filter (fun e => negb (joins (fst uv) (snd uv) e)) es.

Definition remove_edges_from (g : Graph) (pairs : list (string * string)) : Graph :=
  {| nodes := nodes g; edges := fold_left remove_edge pairs (edges g) |}.

(** [G.neighbors(n)] *)
Definition neighbors (g : Graph) (n : string) : list string :=
  flat_map (fun e : string * string * EdgeData =>
              let '(a, b, _) := e in
              if String.eqb a n then [b]
              else if String.eqb b n then [a] else []) (edges g).

(** [G.degree(n)]: the number of neighbours, a self-loop counting twice. *)
Definition degree (g : Graph) (n : string) : nat :=
  (length (neighbors g n) + (if existsb (String.eqb n) (neighbors g n) then 1 else 0))%nat.

(** *** SocialSystem *)

Inductive LogLevel : Type := INFO | WARNING | ERROR.

(** The state the methods act on: the attribute [social_graph], and
    [log], the levels of the records emitted through [logging] so far. *)
Record SocialSystem : Type := {
  social_graph : Graph;
  log : list LogLevel
}.

(** [SocialSystem.__init__] *)
Definition SocialSystem_init : SocialSystem :=
  {| social_graph := {| nodes := []; edges := [] |}; log := [INFO] |}.

Definition logging (lvl : LogLevel) (s : SocialSystem) : SocialSystem :=
  {| social_graph := social_graph s; log := log s ++ [lvl] |}.

Definition set_graph (s : SocialSystem) (g : Graph) : SocialSystem :=
  {| social_graph := g; log := log s |}.

(** [SocialSystem.add_character] *)
Definition add_character (s : SocialSystem) (c : Character) : SocialSystem * outcome unit :=
  if has_node (social_graph s) (name c)
  then (logging WARNING s, Returned tt)
  else (logging INFO (set_graph s (add_node (social_graph s) (name c) c)), Returned tt).

(** [SocialSystem.add_relationship] *)
Definition add_relationship (s : SocialSystem) (character1 character2 : Character)
  (initial_strength : Q) (rel_type : RelationshipType) : SocialSystem * outcome unit :=
  if negb (has_node (social_graph s) (name character1))
     || negb (has_node (social_graph s) (name character2))
  then (logging ERROR s, Returned tt)
  else
    (logging INFO
       (set_graph s (add_edge (social_graph s) (name character1) (name character2)
                              {| weight := initial_strength; rel_type := rel_type |})),
     Returned tt).

(** [SocialSystem.update_relationship] *)
Definition update_relationship (s : SocialSystem) (character1 character2 : Character)
  (interaction_type : string) : SocialSystem * outcome unit :=
  let '(change, rel_type_change) :=
    if String.eqb interaction_type "cooperation" then (2 # 10, Some FRIENDSHIP)
    else if String.eqb interaction_type "conflict" then (- (3 # 10), Some CONFLICT)
    else (0, None) in
  let g := social_graph s in
  let u := name character1 in
  let v := name character2 in
  match edge_data g u v with
  | Some d =>
      let current_strength := weight d in
      let new_strength := py_max 0 (py_min 1 (current_strength + change)) in
      let es1 :=
        alter_edge (fun d => {| weight := new_strength; rel_type := rel_type d |})
                   u v (edges g) in
      let current_rel_type := rel_type d in
      match rel_type_change with
      | Some t =>
          if RelationshipType_eqb current_rel_type NEUTRAL
          then
            let es2 :=
              alter_edge (fun d => {| weight := weight d; rel_type := t |}) u v es1 in
            (logging INFO (logging INFO (set_graph s {| nodes := nodes g; edges := es2 |})),
             Returned tt)
          else (logging INFO (set_graph s {| nodes := nodes g; edges := es1 |}), Returned tt)
      | None => (logging INFO (set_graph s {| nodes := nodes g; edges := es1 |}), Returned tt)
      end
  | None =>
      add_relationship (logging WARNING s) character1 character2
        (py_max 0 (py_min 1 change))
        (match rel_type_change with Some t => t | None => NEUTRAL end)
  end.

(** The first loop of [decay_relationships]: every weight is lowered and
    floored at zero. *)
Definition decay_edge (decay_rate : Q) (e : string * string * EdgeData)
  : string * string * EdgeData :=
  let '(u, v, data) := e in
  let current_strength := weight data in
  let new_strength := py_max 0 (current_strength - decay_rate) in
  (u, v, {| weight := new_strength; rel_type := rel_type data |}).

(** The pairs the loop appends to [edges_to_remove]. *)
Definition edges_to_remove (es : list (string * string * EdgeData)) : list (string * string) :=
  flat_map (fun e : string * string * EdgeData =>
              let '(u, v, data) := e in
              if Qeq_bool (weight data) 0 then [(u, v)] else []) es.

(** [SocialSystem.decay_relationships] *)
Definition decay_relationships (s : SocialSystem) (decay_rate : Q)
  : SocialSystem * outcome unit :=
  let g := social_graph s in
  let decayed := map (decay_edge decay_rate) (edges g) in
  let doomed := edges_to_remove decayed in
  let g' := remove_edges_from {| nodes := nodes g; edges := decayed |} doomed in
  ({| social_graph := g';
      log := log s ++ [INFO] ++ map (fun _ => INFO) doomed |},
   Returned tt).

(** One value of the dict returned by [get_relationships]. *)
Record Relationship : Type := { strength : Q; type : string }.

(** The dict comprehension of [get_relationships]. *)
Fixpoint relationships_of (g : Graph) (n : string) (nbrs : list string)
  (acc : list (string * Relationship)) : outcome (list (string * Relationship)) :=
  match nbrs with
  | [] => Returned acc
  | neighbor :: rest =>
      match edge_data g n neighbor with
      | Some d =>
          relationships_of g n rest
            (dict_set neighbor
               {| strength := weight d; type := RelationshipType_value (rel_type d) |} acc)
      | None => Raised KeyError
      end
  end.

(** [SocialSystem.get_relationships] *)
Definition get_relationships (s : SocialSystem) (character_name : string)
  : SocialSystem * outcome (list (string * Relationship)) :=
  if negb (has_node (social_graph s) character_name)
  then (logging WARNING s, Returned [])
  else (s, relationships_of (social_graph s) character_name
             (neighbors (social_graph s) character_name) []).

(** The loop of [get_most_influential_character] that fills
    [influencers]. *)
Fixpoint influence_scores (g : Graph) (ns : list (string * Character))
  (influencers : list (string * Q)) : outcome (list (string * Q)) :=
  match ns with
  | [] => Returned influencers
  | (node, char) :: rest =>
      let centrality := degree g node in
      charisma_score ← trait (big_five_traits char) EXTRAVERSION;
      let influence_score := inject_Z (Z.of_nat centrality) + charisma_score in
      influence_scores g rest (dict_set node influence_score influencers)
  end.

(** [SocialSystem.get_most_influential_character] *)
Definition get_most_influential_character (s : SocialSystem)
  : SocialSystem * outcome (option Character) :=
  let g := social_graph s in
  match nodes g with
  | [] => (logging WARNING s, Returned None)
  | _ :: _ =>
      match influence_scores g (nodes g) [] with
      | Raised e => (s, Raised e)
      | Returned influencers =>
          (* max(influencers, key=influencers.get) *)
          match max_by snd influencers with
          | Raised e => (s, Raised e)
          | Returned (leader_name, _) =>
              match dict_get leader_name (nodes g) with
              | Some leader => (logging INFO s, Returned (Some leader))
              | None => (s, Raised KeyError)
              end
          end
      end
  end.

(** *** Predicates and states used in the properties *)

(** Every edge has its strength in [0,1]. *)
Definition strengths_in_unit (g : Graph) : Prop :=
  Forall (fun e : string * string * EdgeData => 0 <= weight (snd e) <= 1) (edges g).

(** No edge of the graph has strength zero. *)
Definition no_zero_edge (g : Graph) : Prop :=
  Forall (fun e : string * string * EdgeData => ~ weight (snd e) == 0) (edges g).

(** Node names are the keys of a dict: no name occurs twice. *)
Definition distinct_nodes (g : Graph) : Prop := NoDup (map fst (nodes g)).

(** Every character of the graph has an extraversion trait. *)
Definition extraverts (g : Graph) : Prop :=
  Forall (fun nc : string * Character =>
            exists x, trait (big_five_traits (snd nc)) EXTRAVERSION = Returned x)
         (nodes g).

(** [degree + extraversion], the score [get_most_influential_character]
    gives a node. *)
Definition influence_score (g : Graph) (nc : string * Character) : Q :=
  inject_Z (Z.of_nat (degree g (fst nc))) +
  match trait (big_five_traits (snd nc)) EXTRAVERSION with
  | Returned x => x
  | Raised _ => 0
  end.

(** The entry [influencers[node]]. *)
Definition scored (g : Graph) (nc : string * Character) : string * Q :=
  (fst nc, influence_score g nc).

(** The value [get_relationships] builds from an edge. *)
Definition relationship_of (d : EdgeData) : Relationship :=
  {| strength := weight d; type := RelationshipType_value (rel_type d) |}.

Definition traits (extraversion : Q) : list (BigFive * Q) :=
  [(OPENNESS, 1 # 2); (CONSCIENTIOUSNESS, 1 # 2); (EXTRAVERSION, extraversion);
   (AGREEABLENESS, 1 # 2); (NEUROTICISM, 1 # 2)].

Definition make (nm : string) (extraversion : Q) : Character :=
  Character_init nm FEMALE 30 MIDDLE "placeholder" "placeholder" LIBERAL ATHEISM
    (traits extraversion) HiddenAgenda_NONE [] (1 # 2).

Definition ann : Character := make "Ann" (3 # 10).
Definition bob : Character := make "Bob" (6 # 10).
Definition cat : Character := make "Cat" (6 # 10).

(** Ann, Bob and Cat are in the graph, in this order, without an edge:
    Bob and Cat tie on the greatest score. *)
Definition three_nodes : SocialSystem :=
  fst (add_character (fst (add_character (fst (add_character SocialSystem_init ann)) bob)) cat).

(** Ann and Bob are in the graph and have never interacted. *)
Definition two_strangers : SocialSystem :=
  fst (add_character (fst (add_character SocialSystem_init ann)) bob).

(** Ann and Bob share a neutral edge of strength 1/2. *)
Definition two_acquaintances : SocialSystem :=
  fst (add_relationship two_strangers ann bob (1 # 2) NEUTRAL).

(** The number of edge ends at [n]: an edge between [n] and another
    node has one, a self-loop at [n] has two. *)
Definition ends_at (g : Graph) (n : string) : nat :=
  (length (List.filter (fun e : string * string * EdgeData => String.eqb (fst (fst e)) n)
                       (edges g)) +
   length (List.filter (fun e : string * string * EdgeData => String.eqb (snd (fst e)) n)
                       (edges g)))%nat.

(** The dict [big_five_traits] of [c] holds [x] under EXTRAVERSION. *)
Definition extraversion_is (c : Character) (x : Q) : Prop :=
  exists before after : list (BigFive * Q),
    big_five_traits c = before ++ (EXTRAVERSION, x) :: after /\
    Forall (fun kv : BigFive * Q => fst kv <> EXTRAVERSION) before.

(** The dict [big_five_traits] of [c] has no key EXTRAVERSION. *)
Definition no_extraversion (c : Character) : Prop :=
  Forall (fun kv : BigFive * Q => fst kv <> EXTRAVERSION) (big_five_traits c).

(** Ann has a relationship with herself, Bob and Cat have one with each
    other: Ann's degree is 2, Bob's and Cat's are 1. *)
Definition self_absorbed : SocialSystem :=
  fst (add_relationship (fst (add_relationship three_nodes ann ann (1 # 2) NEUTRAL))
                        bob cat (1 # 2) NEUTRAL).

(** Dee was given a dict of traits without EXTRAVERSION. *)
Definition dee : Character :=
  Character_init "Dee" FEMALE 30 MIDDLE "placeholder" "placeholder" LIBERAL ATHEISM
    [(OPENNESS, 1 # 2); (AGREEABLENESS, 1 # 2)] HiddenAgenda_NONE [] (1 # 2).

Definition dee_alone : SocialSystem := fst (add_character SocialSystem_init dee).

(** Ann and Bob are in conflict, at strength 0.2. *)
Definition two_rivals : SocialSystem :=
  fst (add_relationship two_strangers ann bob (2 # 10) CONFLICT).

End social_system.

(** ** event_system.py *)

Module event_system.
Import character.

Inductive EventType : Type :=
| NATURAL_DISASTER | MAN_MADE_EVENT | PHILOSOPHICAL_DILEMMA | TECHNICAL_FAILURE.

Record Event : Type := {
  name : string;
  description : string;
  event_type : EventType;
  impact : list (string * Q);
  weight : Q;
  severity : Q
}.

(** [Event.__init__]: [severity] starts at 1.0. *)
Definition Event_init (name description : string) (event_type : EventType)
  (impact : list (string * Q)) (weight : Q) : Event :=
  {| name := name; description := description; event_type := event_type;
     impact := impact; weight := weight; severity := 1 |}.

(** [event.severity = x], as [trigger_random_event] does at trigger time. *)
Definition set_severity (e : Event) (x : Q) : Event :=
  {| name := name e; description := description e; event_type := event_type e;
     impact := impact e; weight := weight e; severity := x |}.

(** [EventSystem._create_predefined_events] *)
Definition _create_predefined_events : list Event :=
  [ Event_init "Food Shortage"
      "Food supplies on the ship are running out faster than expected. Tensions are rising among people."
      NATURAL_DISASTER
      [("hunger_increase", 5 # 10); ("cooperation_decrease", 2 # 10);
       ("conflict_increase", 3 # 10)]%string
      3;
    Event_init "Silent Rebellion"
      "A group of characters secretly begins to sabotage, believing the leadership is not fair."
      MAN_MADE_EVENT
      [("trust_decrease", 4 # 10); ("rebellion_chance_increase", 5 # 10)]%string
      1;
    Event_init "Technological Breakdown"
      "A serious malfunction has occurred in the reactor providing power to the ship. Volunteers are needed for repairs."
      TECHNICAL_FAILURE
      [("stress_increase", 3 # 10); ("cooperation_chance_increase", 4 # 10)]%string
      2;
    Event_init "Philosophical Dilemma"
      "Only one more person can board the ship. Should this last person be allowed on board, or should community morals take precedence?"
      PHILOSOPHICAL_DILEMMA
      [("moral_distress_increase", 6 # 10); ("cooperation_decrease", 1 # 10)]%string
      (1 # 2) ]%string.

(** [apply_event_impact] is embedded without its [logging] calls and
    without the dict [changes], which is only logged. *)

(** A step on one character: the character as the step leaves it, and
    how the step ended. *)
Definition step : Type := Character * outcome unit.

Definition and_then (r : step) (k : Character -> step) : step :=
  match r with
  | (c, Returned _) => k c
  | (c, Raised e) => (c, Raised e)
  end.

(** [setattr(char, attr, max(0.0, min(1.0, getattr(char, attr) + delta)))]:
    the read raises [AttributeError] for a missing attribute, the
    addition raises [TypeError] for one that is not a number. *)
Definition adjust (attr : string) (delta : Q) (c : Character) : step :=
  match getattr c attr with
  | Raised e => (c, Raised e)
  | Returned Object => (c, Raised TypeError)
  | Returned (Number current_value) =>
      let new_value := py_max 0 (py_min 1 (current_value + delta)) in
      (setattr c attr new_value, Returned tt)
  end.

(** The loop over [event.impact.items()]. *)
Fixpoint direct_impacts (effects : list (string * Q)) (severity : Q) (c : Character) : step :=
  match effects with
  | [] => (c, Returned tt)
  | (effect, value) :: rest =>
      if endswith effect "_increase" then
        let attr_name := replace effect "_increase" "" in
        let delta := value * severity in
        and_then (adjust attr_name delta c) (direct_impacts rest severity)
      else if endswith effect "_decrease" then
        let attr_name := replace effect "_decrease" "" in
        let delta := value * severity in
        and_then (adjust attr_name (- delta) c) (direct_impacts rest severity)
      else direct_impacts rest severity c
  end.

(** [char.psychological_state == PsychologicalState.<member>]: the right
    operand is looked up in the enum, which raises [AttributeError] for a
    name that is not a member. *)
Definition state_is (member : string) (c : Character) : outcome bool :=
  m ← PsychologicalState_member member;
  mret (PsychologicalState_eqb (psychological_state c) m).

(** The [if]/[elif] chain on the psychological state. *)
Definition state_impacts (event : Event) (c : Character) : step :=
  let get := fun key => dict_get_default key 0 (impact event) in
  match state_is "ANXIOUS" c with
  | Raised e => (c, Raised e)
  | Returned true =>
      and_then
        (adjust "cooperation_chance" (- (get "cooperation_decrease"%string * severity event)) c)
        (adjust "rebellion_chance" (get "rebellion_chance_increase"%string * severity event))
  | Returned false =>
  match state_is "CALM" c with
  | Raised e => (c, Raised e)
  | Returned true =>
      and_then
        (adjust "cooperation_chance"
           (get "cooperation_chance_increase"%string * severity event * (1 # 2)) c)
        (adjust "rebellion_chance"
           (- (get "rebellion_chance_increase"%string * severity event * (1 # 2))))
  | Returned false =>
  match state_is "DEPRESSED" c with
  | Raised e => (c, Raised e)
  | Returned true =>
      and_then
        (adjust "cooperation_chance"
           (- (get "cooperation_decrease"%string * severity event * (3 # 2))) c)
        (adjust "rebellion_chance"
           (get "rebellion_chance_increase"%string * severity event * (3 # 2)))
  | Returned false =>
  match state_is "AGGRESSIVE" c with
  | Raised e => (c, Raised e)
  | Returned true =>
      adjust "rebellion_chance"
        (get "rebellion_chance_increase"%string * severity event * 2) c
  | Returned false => (c, Returned tt)
  end end end end.

(** The body of the loop over [characters]. *)
Definition impact_on (event : Event) (c : Character) : step :=
  and_then (direct_impacts (impact event) (severity event) c) (state_impacts event).

(** [EventSystem.apply_event_impact]: the characters as the call leaves
    them, and how it ended.  An exception stops the loop; characters
    already handled keep their changes. *)
Fixpoint apply_event_impact (characters : list Character) (event : Event)
  : list Character * outcome unit :=
  match characters with
  | [] => ([], Returned tt)
  | char :: rest =>
      match impact_on event char with
      | (char', Raised e) => (char' :: rest, Raised e)
      | (char', Returned _) =>
          let (rest', r) := apply_event_impact rest event in
          (char' :: rest', r)
      end
  end.

(** *** Predicates and states used in the properties *)

Definition ann_plain : Character :=
  Character_init "Ann" FEMALE 30 MIDDLE "placeholder" "placeholder" LIBERAL ATHEISM
    [(OPENNESS, 1 # 2); (CONSCIENTIOUSNESS, 1 # 2); (EXTRAVERSION, 3 # 10);
     (AGREEABLENESS, 1 # 2); (NEUROTICISM, 1 # 2)] HiddenAgenda_NONE [] (1 # 2).

(** An instance whose attributes are those assigned by [__init__]. *)
Definition plain (c : Character) : Prop := extra_attrs c = [].

(** The attribute an impact key addresses, as the loop derives it. *)
Definition attr_name_of (effect : string) : string :=
  if endswith effect "_increase" then replace effect "_increase" ""
  else replace effect "_decrease" "".

End event_system.

(** ** ship_of_fools.py, the rest of the day

    The methods of [Character], [Alliance] and [Ship] that the day loop
    runs besides alliance formation and mutiny.  [print] calls of these
    methods write to the console only and are left out. *)

Module ship_voyage.
Import ship_of_fools.

Definition set_stress (c : Character) (x : Q) : Character :=
  {| id := id c; name := name c; role := role c; groups := groups c;
     ideology := ideology c; needs := needs c; stress := x;
     trust_in_captain := trust_in_captain c; memories := memories c;
     char_alliances := char_alliances c;
     speaking_ability := speaking_ability c; influence := influence c |}.

Definition set_influence (c : Character) (x : Q) : Character :=
  {| id := id c; name := name c; role := role c; groups := groups c;
     ideology := ideology c; needs := needs c; stress := stress c;
     trust_in_captain := trust_in_captain c; memories := memories c;
     char_alliances := char_alliances c;
     speaking_ability := speaking_ability c; influence := x |}.

(** [Character.add_memory] *)
Definition add_memory (c : Character) (day : Z) (event interpretation : string)
  (emotional_impact : Q) (witnesses : list Z) : Character :=
  let memory :=
    {| mem_day := day; mem_event := event; mem_interpretation := interpretation;
       mem_emotional_impact := emotional_impact; mem_witnesses := witnesses |} in
  let stress1 := stress c + emotional_impact * (1 # 2) in
  {| id := id c; name := name c; role := role c; groups := groups c;
     ideology := ideology c; needs := needs c;
     stress := py_min 100 (py_max 0 stress1);
     trust_in_captain := trust_in_captain c;
     memories := memories c ++ [memory];
     char_alliances := char_alliances c;
     speaking_ability := speaking_ability c; influence := influence c |}.

(** [sum(xs)]: the additions run left to right from 0. *)
Definition py_sum (xs : list Q) : Q := fold_left Qplus xs 0.

(** [Character.calculate_satisfaction] *)
Definition calculate_satisfaction (c : Character) : Q :=
  match needs c with
  | [] => 50
  | _ :: _ =>
      py_sum (map (fun kv => value (snd kv)) (needs c))
      / inject_Z (Z.of_nat (length (needs c)))
  end.

(** [Ship.calculate_danger] *)
Definition calculate_danger (s : Ship) : Ship :=
  let danger := (360 - heading s) / 360 * 100 in
  {| day := day s; temperature := 15 - (danger / 100) * 20; heading := heading s;
     danger_level := danger; captain_authority := captain_authority s;
     social_cohesion := social_cohesion s;
     philosophical_tension := philosophical_tension s;
     characters := characters s; alliances := alliances s; printed := printed s |}.

(** The first two statements of [simulate_day] after the header:
    [self.heading = max(0, self.heading - 2)] and [self.calculate_danger()]. *)
Definition sail_north (s : Ship) : Ship :=
  calculate_danger (set_heading s (py_max 0 (heading s - 2))).

(** The loop body of [_apply_environmental_effects] for one character. *)
Definition environmental_effect (danger_level : Q) (char : Character) : Character :=
  let c1 :=
    if dict_mem "warmth" (needs char)
    then update_needs char [("warmth"%string, - (danger_level / 20))] else char in
  let c2 :=
    if dict_mem "safety" (needs c1)
    then update_needs c1 [("safety"%string, - (danger_level / 30))] else c1 in
  set_stress c2 (stress c2 + danger_level / 40).

(** [Ship._apply_environmental_effects] *)
Definition _apply_environmental_effects (s : Ship) : Ship :=
  set_characters s (map (environmental_effect (danger_level s)) (characters s)).

(** [Event] of ship_of_fools.py. *)
Record Event : Type := {
  ev_day : Z;
  ev_type : string;
  ev_description : string;
  affected_groups : gset GroupIdentity;
  impact : list (string * Q)
}.

(** [Ship._create_incident] at day [d]. *)
Definition _create_incident (d : Z) (incident_type : string) : Event :=
  if String.eqb incident_type "theft" then
    {| ev_day := d; ev_type := "theft";
       ev_description := "Someone stole food from the kitchen";
       affected_groups := {[WORKERS; AUTHORITY]};
       impact := [("trust", -5); ("tension", 10)]%string |}
  else if String.eqb incident_type "fight" then
    {| ev_day := d; ev_type := "fight";
       ev_description := "A fight broke out between crew members";
       affected_groups := {[WORKERS]};
       impact := [("cohesion", -8); ("stress", 5)]%string |}
  else if String.eqb incident_type "dog_abuse" then
    {| ev_day := d; ev_type := "dog_abuse";
       ev_description := "The dog was kicked by an officer";
       affected_groups := {[RELIGIOUS; AUTHORITY]};
       impact := [("morality", -10); ("tension", 8)]%string |}
  else
    {| ev_day := d; ev_type := "accident";
       ev_description := "A worker was injured on deck";
       affected_groups := {[WORKERS]};
       impact := [("safety", -10); ("stress", 8)]%string |}.

(** [Ship._create_scarcity_event] at day [d]. *)
Definition _create_scarcity_event (d : Z) : Event :=
  {| ev_day := d; ev_type := "scarcity";
     ev_description := "Blankets are running out due to extreme cold";
     affected_groups := {[WOMEN; WORKERS]};
     impact := [("warmth", -15); ("tension", 12)]%string |}.

(** [Ship._generate_interpretation]: the text depends on the ideology
    alone; every ideology has an entry, so the default of [get] is never
    used. *)
Definition _generate_interpretation (char : Character) (event : Event) : string :=
  match ideology char with
  | AUTHORITARIAN => "This disrupts order. Authority must be maintained."
  | REVOLUTIONARY => "This is systemic oppression. We must resist!"
  | LIBERAL => "This violates individual rights. We need reform."
  | CONSERVATIVE => "This shows moral decay. Return to tradition."
  | REFORMIST => "This shows we need gradual improvements."
  | ANARCHIST => "This proves all hierarchy is corrupt."
  end.

(** [any(g in event.affected_groups for g in char.groups)] *)
Definition affected (event : Event) (char : Character) : bool :=
  negb (bool_decide (groups char ∩ affected_groups event = ∅)).

(** [[c.id for c in self.characters if random.random() < 0.6]] *)
Fixpoint draw_witnesses (cs : list Character) (g : Rng) : list Z * Rng :=
  match cs with
  | [] => ([], g)
  | c :: rest =>
      let (r, g1) := random g in
      let (ws, g2) := draw_witnesses rest g1 in
      ((if Qltb r (6 # 10) then id c :: ws else ws), g2)
  end.

(** The loop of [_process_event].  [done] holds the characters already
    visited, as the loop left them; the witnesses are drawn among all
    characters of the ship. *)
Fixpoint process_loop (d : Z) (event : Event) (done todo : list Character) (g : Rng)
  : list Character * Rng :=
  match todo with
  | [] => (done, g)
  | char :: rest =>
      if affected event char then
        let interpretation := _generate_interpretation char event in
        let (witnesses, g1) := draw_witnesses (done ++ todo) g in
        let char' :=
          add_memory char d (ev_description event) interpretation
            (Qabs (py_sum (map snd (impact event)))) witnesses in
        process_loop d event (done ++ [char']) rest g1
      else process_loop d event (done ++ [char]) rest g
  end.

(** The ship together with [self.events], the history of events. *)
Record Voyage : Type := { ship : Ship; events : list Event }.

(** [Ship._process_event] *)
Definition _process_event (v : Voyage) (event : Event) (g : Rng) : Voyage * Rng :=
  let (cs, g') := process_loop (day (ship v)) event [] (characters (ship v)) g in
  ({| ship := set_characters (ship v) cs; events := events v ++ [event] |}, g').

(** The source of [random.choice]: [below n] is the index it draws for a
    sequence of length [n]. *)
Record Chooser : Type := { below : nat -> nat }.

(** The index is in range, as [random.choice] guarantees. *)
Definition in_range (ch : Chooser) : Prop :=
  forall n : nat, (0 < n)%nat -> (below ch n < n)%nat.

(** The test of [_find_potential_ally] on one [other]. *)
Definition potential_ally (char other : Character) : bool :=
  if negb (id other =? id char)%Z && negb (bool_decide (id other ∈ char_alliances char))
  then
    if Ideology_eqb (ideology char) (ideology other) then true
    else if negb (bool_decide (groups char ∩ groups other = ∅)) then true
    else false
  else false.

(** The positions of the characters collected in [candidates]. *)
Fixpoint candidates_from (pos : nat) (char : Character) (cs : list Character) : list nat :=
  match cs with
  | [] => []
  | other :: rest =>
      if potential_ally char other
      then pos :: candidates_from (S pos) char rest
      else candidates_from (S pos) char rest
  end.

(** [Ship._find_potential_ally] for the character at position [r]. *)
Definition _find_potential_ally (s : Ship) (r : nat) (ch : Chooser) : option nat :=
  match characters s !! r with
  | Some char =>
      let candidates := candidates_from 0 char (characters s) in
      match candidates with
      | [] => None
      | _ :: _ => candidates !! below ch (length candidates)
      end
  | None => None
  end.

(** [Ship._check_protest_conditions].  [None] stands for the
    [ZeroDivisionError] of the division by [len(self.characters)]. *)
Definition _check_protest_conditions (s : Ship) : option bool :=
  let critical_needs_count :=
    length (List.filter
              (fun char => match get_critical_needs char with
                           | [] => false
                           | _ :: _ => negb (is_captain char)
                           end) (characters s)) in
  match characters s with
  | [] => None
  | _ :: _ =>
      let avg_stress :=
        py_sum (map stress (characters s))
        / inject_Z (Z.of_nat (length (characters s))) in
      Some ((3 <=? critical_needs_count)%nat && Qltb 60 avg_stress)
  end.

(** *** Predicates and states used in the properties *)

(** What [_process_event] does to one character. *)
Definition remembers (d : Z) (event : Event) (ids : list Z) (c c' : Character) : Prop :=
  if affected event c
  then exists witnesses,
         c' = add_memory c d (ev_description event) (_generate_interpretation c event)
                (Qabs (py_sum (map snd (impact event)))) witnesses /\
         (forall w, In w witnesses -> In w ids)
  else c' = c.

(** Every value of [random.random()] lies in [0,1). *)
Definition unit_draws (g : Rng) : Prop :=
  forall n : nat, 0 <= draws g n /\ draws g n < 1.

(** What some ticks of [_update_alliances] can have done to one alliance:
    the strength moved by at most [bound], the members, the purpose and
    the day of creation stayed, a broken alliance is untouched and a
    live one is only flagged when its strength is under 20. *)
Definition drifted (bound : Q) (a a' : Alliance) : Prop :=
  members a' = members a /\ purpose a' = purpose a /\
  created_day a' = created_day a /\
  - bound <= strength a' - strength a <= bound /\
  (broken a = true -> a' = a) /\
  (broken a' = true -> broken a = true \/ strength a' < 20).

(** Every draw is one half. *)
Definition even_draws : Rng := {| draws := fun _ => 1 # 2; cursor := 0 |}.

(** Always the first item. *)
Definition first_pick : Chooser := {| below := fun _ => 0%nat |}.

Definition cold_passenger : Character :=
  {| id := 5; name := "Woman Passenger"; role := "passenger"; groups := {[WOMEN]};
     ideology := LIBERAL;
     needs := [("warmth", {| need_name := "warmth"; value := 30; critical_threshold := 30 |});
               ("equality", {| need_name := "equality"; value := 40; critical_threshold := 30 |});
               ("safety", {| need_name := "safety"; value := 60; critical_threshold := 30 |})]%string;
     stress := 65; trust_in_captain := 70; memories := []; char_alliances := ∅;
     speaking_ability := 60; influence := 45 |}.

End ship_voyage.

(** ** ship_of_fools.py, the day loop

    As in the module before, the [print] calls of the methods modelled
    here are left out.  Names are taken as ASCII text. *)

Module ship_days.
Import ship_of_fools ship_voyage.

(** *** The [random] module

    [rng] gives the values of [random.random()], and through them those
    of [random.uniform].  Every call of [random.choice], [random.sample]
    or [random.randint] takes the next [turn] and reads its result
    there: [choices k] for a choice, [samples k n m] for the positions
    of a sample of size [m] from a population of size [n], [randints k]
    for [randint(1, 3)]. *)
Record Luck : Type := {
  rng : Rng;
  choices : nat -> Chooser;
  samples : nat -> nat -> nat -> list nat;
  randints : nat -> Z;
  turn : nat
}.

Definition with_rng (l : Luck) (g : Rng) : Luck :=
  {| rng := g; choices := choices l; samples := samples l;
     randints := randints l; turn := turn l |}.

Definition next_turn (l : Luck) : Luck :=
  {| rng := rng l; choices := choices l; samples := samples l;
     randints := randints l; turn := S (turn l) |}.

(** [random.random()] *)
Definition rand (l : Luck) : Q * Luck :=
  let (x, g) := random (rng l) in (x, with_rng l g).

(** [random.uniform(a, b)] *)
Definition rand_uniform (a b : Q) (l : Luck) : Q * Luck :=
  let (x, g) := uniform a b (rng l) in (x, with_rng l g).

(** [random.choice(seq)]: the index drawn for a sequence of length [n]. *)
Definition choice (n : nat) (l : Luck) : nat * Luck :=
  (below (choices l (turn l)) n, next_turn l).

(** [random.sample(population, m)]: the positions drawn. *)
Definition sample (n m : nat) (l : Luck) : list nat * Luck :=
  (samples l (turn l) n m, next_turn l).

(** [random.randint(1, 3)] *)
Definition randint (l : Luck) : Z * Luck := (randints l (turn l), next_turn l).

(** What the [random] module guarantees. *)
Definition fair (l : Luck) : Prop :=
  unit_draws (rng l) /\
  (forall k, in_range (choices l k)) /\
  (forall k n m, (m <= n)%nat ->
     length (samples l k n m) = m /\ List.NoDup (samples l k n m) /\
     Forall (fun i => (i < n)%nat) (samples l k n m)) /\
  (forall k, (1 <= randints l k <= 3)%Z).

(** *** Philosophical discussions *)

Definition set_philosophical_tension (s : Ship) (x : Q) : Ship :=
  {| day := day s; temperature := temperature s; heading := heading s;
     danger_level := danger_level s;
     captain_authority := captain_authority s;
     social_cohesion := social_cohesion s; philosophical_tension := x;
     characters := characters s; alliances := alliances s;
     printed := printed s |}.

Definition set_day (s : Ship) (d : Z) : Ship :=
  {| day := d; temperature := temperature s; heading := heading s;
     danger_level := danger_level s;
     captain_authority := captain_authority s;
     social_cohesion := social_cohesion s;
     philosophical_tension := philosophical_tension s;
     characters := characters s; alliances := alliances s;
     printed := printed s |}.

(** The positions, from [pos] on, of the characters that pass [p]. *)
Fixpoint positions_of (p : Character -> bool) (pos : nat) (cs : list Character)
  : list nat :=
  match cs with
  | [] => []
  | c :: rest =>
      if p c then pos :: positions_of p (S pos) rest
      else positions_of p (S pos) rest
  end.

(** The loop [for speaker in speakers: speaker.influence += 2]. *)
Definition hear (speakers : list nat) (cs : list Character) : list Character :=
  fold_left (fun heap r => alter (fun c => set_influence c (influence c + 2)) r heap)
            speakers cs.

(** [Ship._philosophical_discussion].  [random.sample] raises
    [ValueError] for a sample larger than the population. *)
Definition _philosophical_discussion (s : Ship) (l : Luck)
  : Ship * Luck * outcome unit :=
  let (_, l1) := choice 3 l in
  let pool := positions_of (fun c => Qltb 40 (speaking_ability c)) 0 (characters s) in
  let m := Nat.min 3 (length (characters s)) in
  if (length pool <? m)%nat then (s, l1, Raised ValueError)
  else
    let (drawn, l2) := sample (length pool) m l1 in
    let speakers := omap (fun i => pool !! i) drawn in
    let (u, l3) := rand_uniform 5 15 l2 in
    (set_philosophical_tension (set_characters s (hear speakers (characters s)))
                               (philosophical_tension s + u),
     l3, Returned tt).

(** *** Protests *)

(** [c.role != "captain" and c.get_critical_needs()] *)
Definition is_protester (c : Character) : bool :=
  negb (is_captain c) &&
  match get_critical_needs c with [] => false | _ :: _ => true end.

(** The set [demands] after the loop over the protesters. *)
Definition demands_of (protesters : list Character) : gset string :=
  ⋃ map (fun p => list_to_set (get_critical_needs p)) protesters.

(** [Ship._captain_makes_concessions]; the items of [list(demands)] come
    in some order, and the sample picks positions of it. *)
Definition _captain_makes_concessions (demands : gset string) (l : Luck)
  : outcome (list string) * Luck :=
  let (ri, l1) := randint l in
  let concession_count := Z.min (Z.of_nat (size demands)) ri in
  if (concession_count <? 0)%Z then (Raised ValueError, l1)
  else
    let (drawn, l2) := sample (size demands) (Z.to_nat concession_count) l1 in
    (Returned (omap (fun i => elements demands !! i) drawn), l2).

(** The body of the loop over the protesters. *)
Definition grant (concessions : list string) (protester : Character) : Character :=
  let p1 :=
    fold_left (fun p concession =>
                 if dict_mem concession (needs p)
                 then update_needs p [(concession, 10)] else p)
              concessions protester in
  set_stress p1 (stress p1 - 5).

(** [s.lower()] on ASCII text. *)
Definition lower_ascii (a : Ascii.ascii) : Ascii.ascii :=
  let n := Ascii.nat_of_ascii a in
  if ((65 <=? n) && (n <=? 90))%nat then Ascii.ascii_of_nat (n + 32) else a.

Fixpoint lower (s : string) : string :=
  match s with
  | EmptyString => EmptyString
  | String a rest => String (lower_ascii a) (lower rest)
  end.

(** [sub in s] *)
Fixpoint contains (sub s : string) : bool :=
  String.prefix sub s ||
  match s with
  | EmptyString => false
  | String _ rest => contains sub rest
  end.

Definition is_steward (c : Character) : bool := contains "steward" (lower (name c)).

(** [Character.recall_event] *)
Definition recall_event (c : Character) (event_keyword : string) : list Memory :=
  List.filter (fun m => contains (lower event_keyword) (lower (mem_event m)))
              (memories c).

(** [steward.stress += 10; steward.influence -= 5] *)
Definition scold (c : Character) : Character :=
  set_influence (set_stress c (stress c + 10)) (influence c - 5).

(** [next((i for i, c in enumerate(cs) if p(c)), None)] *)
Definition first_position (p : Character -> bool) (cs : list Character) : option nat :=
  head (positions_of p 0 cs).

(** [Ship._organize_protest] *)
Definition _organize_protest (s : Ship) (l : Luck) : Ship * Luck * outcome unit :=
  let protesters := List.filter is_protester (characters s) in
  match protesters with
  | [] => (s, l, Returned tt)
  | _ :: _ =>
      let demands := demands_of protesters in
      match _captain_makes_concessions demands l with
      | (Raised e, l1) => (s, l1, Raised e)
      | (Returned concessions, l1) =>
          let s1 :=
            match concessions with
            | [] => s
            | _ :: _ =>
                set_characters
                  (set_captain_authority s (captain_authority s - 5))
                  (map (fun c => if is_protester c then grant concessions c else c)
                       (characters s))
            end in
          let cs2 :=
            match first_position is_steward (characters s1) with
            | Some r => alter scold r (characters s1)
            | None => characters s1
            end in
          (set_characters s1 cs2, l1, Returned tt)
      end
  end.

(** *** The day *)

(** [Ship._generate_daily_events] *)
Definition _generate_daily_events (v : Voyage) (l : Luck) : Voyage * Luck :=
  let (x, l1) := rand l in
  let '(events1, l2) :=
    if Qltb x (2 # 10) then
      let (i, l') := choice 4 l1 in
      let incident_type :=
        nth i ["theft"; "fight"; "accident"; "dog_abuse"]%string "theft"%string in
      ([_create_incident (day (ship v)) incident_type], l')
    else ([], l1) in
  let '(events2, l3) :=
    if Qltb (temperature (ship v)) 5 then
      let (y, l') := rand l2 in
      (if Qltb y (4 # 10)
       then events1 ++ [_create_scarcity_event (day (ship v))] else events1, l')
    else (events1, l2) in
  fold_left (fun (st : Voyage * Luck) event =>
               let (v', g') := _process_event (fst st) event (rng (snd st)) in
               (v', with_rng (snd st) g'))
            events2 (v, l3).

(** Whether [_form_alliance] reaches its [random.choice]: no alliance
    holds either id. *)
Definition founds_alliance (s : Ship) (r1 r2 : nat) : bool :=
  match characters s !! r1, characters s !! r2 with
  | Some char1, Some char2 =>
      match join_existing (id char1) (id char2) (alliances s) with
      | Some _ => false
      | None => true
      end
  | _, _ => false
  end.

(** [Ship._form_alliance] with its draw: the word of the purpose is
    drawn only for a new alliance. *)
Definition form_alliance (s : Ship) (r1 r2 : nat) (l : Luck) : Ship * Luck :=
  if founds_alliance s r1 r2 then
    let (i, l1) := choice 3 l in
    (_form_alliance s r1 r2
       (nth i ["ideology"; "identity"; "grievances"]%string "ideology"%string), l1)
  else (_form_alliance s r1 r2 "ideology", l).

(** [random.choice(candidates) if candidates else None] draws only from
    a list that is not empty. *)
Definition find_potential_ally (s : Ship) (r : nat) (l : Luck) : option nat * Luck :=
  match characters s !! r with
  | Some char =>
      match candidates_from 0 char (characters s) with
      | [] => (None, l)
      | _ :: _ => (_find_potential_ally s r (choices l (turn l)), next_turn l)
      end
  | None => (None, l)
  end.

(** The loop of [_character_interactions] over the characters at [refs]. *)
Fixpoint interactions (refs : list nat) (s : Ship) (l : Luck) : Ship * Luck :=
  match refs with
  | [] => (s, l)
  | r :: rest =>
      let (x, l1) := rand l in
      if Qltb x (15 # 100) then
        let (potential_ally, l2) := find_potential_ally s r l1 in
        match potential_ally with
        | Some r2 =>
            let (s', l3) := form_alliance s r r2 l2 in
            interactions rest s' l3
        | None => interactions rest s l2
        end
      else interactions rest s l1
  end.

(** [Ship._character_interactions] *)
Definition _character_interactions (s : Ship) (l : Luck) : Ship * Luck :=
  interactions (seq 0 (length (characters s))) s l.

Inductive error : Type :=
| ZeroDivisionError
| PythonError (e : exn).

(** How [simulate_day] ends: it returns True, it returns False, or it
    raises. *)
Inductive Status : Type :=
| Continues
| Sank
| Crashed (e : error).

Definition with_ship (v : Voyage) (s : Ship) : Voyage :=
  {| ship := s; events := events v |}.

(** [Ship.simulate_day].  [_ship_sinks] only prints; its division by the
    number of characters comes after [_check_protest_conditions] has
    made the same division. *)
Definition simulate_day (v : Voyage) (l : Luck) : Voyage * Luck * Status :=
  let s1 := _apply_environmental_effects (sail_north (ship v)) in
  let (v2, l2) := _generate_daily_events (with_ship v s1) l in
  let (s3, l3) := _character_interactions (ship v2) l2 in
  let (s4, g4) := _update_alliances s3 (rng l3) in
  let l4 := with_rng l3 g4 in
  let (x, l5) := rand l4 in
  let '(s5, l6, discussed) :=
    if Qltb x (3 # 10) then _philosophical_discussion s4 l5
    else (s4, l5, Returned tt) in
  match discussed with
  | Raised e => (with_ship v2 s5, l6, Crashed (PythonError e))
  | Returned _ =>
      match _check_protest_conditions s5 with
      | None => (with_ship v2 s5, l6, Crashed ZeroDivisionError)
      | Some protest =>
          let '(s6, l7, protested) :=
            if protest then _organize_protest s5 l6 else (s5, l6, Returned tt) in
          match protested with
          | Raised e => (with_ship v2 s6, l7, Crashed (PythonError e))
          | Returned _ =>
              let (s7, mutinied) :=
                if _check_mutiny_conditions s6 then _attempt_mutiny s6
                else (s6, Returned tt) in
              match mutinied with
              | Raised e => (with_ship v2 s7, l7, Crashed (PythonError e))
              | Returned _ =>
                  if Qltb 90 (danger_level s7) then
                    let (y, l8) := rand l7 in
                    if Qltb y (3 # 10) then (with_ship v2 s7, l8, Sank)
                    else (with_ship v2 (set_day s7 (day s7 + 1)), l8, Continues)
                  else (with_ship v2 (set_day s7 (day s7 + 1)), l7, Continues)
              end
          end
      end
  end.

(** The loop of [main]: at most [n] days, stopped when the ship sinks.
    Between two days [main] calls [print_status] and [input], which
    change nothing of the ship. *)
Fixpoint sail (n : nat) (v : Voyage) (l : Luck) : Voyage * Luck * Status :=
  match n with
  | O => (v, l, Continues)
  | S n' =>
      match simulate_day v l with
      | (v', l', Continues) => sail n' v' l'
      | stopped => stopped
      end
  end.

(** [Ship.__init__] *)
Definition Ship_init : Ship :=
  {| day := 1; temperature := 15; heading := 0; danger_level := 0;
     captain_authority := 100; social_cohesion := 70; philosophical_tension := 30;
     characters := []; alliances := []; printed := [] |}.

Definition default_need (nm : string) (v : Q) : Need :=
  {| need_name := nm; value := v; critical_threshold := 30 |}.

(** [Ship.create_default_characters] *)
Definition default_characters : list Character :=
  [
    {| id := 1; name := "Captain"; role := "captain"; groups := {[AUTHORITY]};
       ideology := AUTHORITARIAN;
       needs := [("power", default_need "power" 90); ("respect", default_need "respect" 80)]%string;
       stress := 20; trust_in_captain := 70; memories := []; char_alliances := ∅;
       speaking_ability := 80; influence := 90 |};
    {| id := 2; name := "Third Officer"; role := "officer"; groups := {[AUTHORITY]};
       ideology := LIBERAL;
       needs := [("power", default_need "power" 70); ("manipulation", default_need "manipulation" 80)]%string;
       stress := 15; trust_in_captain := 70; memories := []; char_alliances := ∅;
       speaking_ability := 85; influence := 70 |};
    {| id := 3; name := "English Sailor"; role := "worker"; groups := {[WORKERS]};
       ideology := REFORMIST;
       needs := [("wage", default_need "wage" 40); ("safety", default_need "safety" 50); ("warmth", default_need "warmth" 45)]%string;
       stress := 60; trust_in_captain := 70; memories := []; char_alliances := ∅;
       speaking_ability := 50; influence := 40 |};
    {| id := 4; name := "Mexican Sailor"; role := "worker"; groups := {[WORKERS; INDIGENOUS]};
       ideology := REVOLUTIONARY;
       needs := [("wage", default_need "wage" 25); ("equality", default_need "equality" 20); ("language_rights", default_need "language_rights" 30)]%string;
       stress := 70; trust_in_captain := 70; memories := []; char_alliances := ∅;
       speaking_ability := 45; influence := 35 |};
    {| id := 5; name := "Woman Passenger"; role := "passenger"; groups := {[WOMEN]};
       ideology := LIBERAL;
       needs := [("warmth", default_need "warmth" 30); ("equality", default_need "equality" 40); ("safety", default_need "safety" 60)]%string;
       stress := 65; trust_in_captain := 70; memories := []; char_alliances := ∅;
       speaking_ability := 60; influence := 45 |};
    {| id := 6; name := "Native Sailor"; role := "worker"; groups := {[INDIGENOUS; WORKERS]};
       ideology := REVOLUTIONARY;
       needs := [("reparations", default_need "reparations" 10); ("autonomy", default_need "autonomy" 20); ("wage", default_need "wage" 35)]%string;
       stress := 75; trust_in_captain := 70; memories := []; char_alliances := ∅;
       speaking_ability := 40; influence := 30 |};
    {| id := 7; name := "Boatswain (Lostromo)"; role := "worker"; groups := {[LGBTQ; WORKERS]};
       ideology := LIBERAL;
       needs := [("dignity", default_need "dignity" 40); ("acceptance", default_need "acceptance" 35); ("wage", default_need "wage" 45)]%string;
       stress := 68; trust_in_captain := 70; memories := []; char_alliances := ∅;
       speaking_ability := 55; influence := 38 |};
    {| id := 8; name := "Animal Rights Activist"; role := "passenger"; groups := {[RELIGIOUS]};
       ideology := LIBERAL;
       needs := [("animal_welfare", default_need "animal_welfare" 25); ("morality", default_need "morality" 50)]%string;
       stress := 72; trust_in_captain := 70; memories := []; char_alliances := ∅;
       speaking_ability := 65; influence := 25 |};
    {| id := 9; name := "Professor"; role := "intellectual"; groups := {[AUTHORITY]};
       ideology := REVOLUTIONARY;
       needs := [("justice", default_need "justice" 30); ("revolution", default_need "revolution" 40)]%string;
       stress := 55; trust_in_captain := 70; memories := []; char_alliances := ∅;
       speaking_ability := 90; influence := 60 |};
    {| id := 10; name := "Steward"; role := "worker"; groups := {[WORKERS]};
       ideology := ANARCHIST;
       needs := [("survival", default_need "survival" 70); ("truth", default_need "truth" 60)]%string;
       stress := 80; trust_in_captain := 70; memories := []; char_alliances := ∅;
       speaking_ability := 70; influence := 20 |} ].

Definition create_default_characters (s : Ship) : Ship :=
  set_characters s (characters s ++ default_characters).

(** The ship [main] sails. *)
Definition default_voyage : Voyage :=
  {| ship := create_default_characters Ship_init; events := [] |}.

(** *** Predicates used in the properties *)

(** What no method changes of a character. *)
Definition same_person (c c' : Character) : Prop :=
  id c' = id c /\ name c' = name c /\ role c' = role c /\ groups c' = groups c /\
  ideology c' = ideology c /\ trust_in_captain c' = trust_in_captain c /\
  speaking_ability c' = speaking_ability c.

(** A step that leaves the course, the day and the persons as they are
    and does not add to the captain's authority. *)
Definition calm (s s' : Ship) : Prop :=
  Forall2 same_person (characters s) (characters s') /\
  heading s' = heading s /\ danger_level s' = danger_level s /\
  temperature s' = temperature s /\ day s' = day s /\
  captain_authority s' <= captain_authority s.

(** The two draw from the same sequences. *)
Definition same_source (l l' : Luck) : Prop :=
  draws (rng l') = draws (rng l) /\ choices l' = choices l /\
  samples l' = samples l /\ randints l' = randints l.

(** Enough characters can speak for a discussion to be held. *)
Definition enough_speakers (cs : list Character) : Prop :=
  (Nat.min 3 (length cs)
   <= length (List.filter (fun c => Qltb 40 (speaking_ability c)) cs))%nat.

(** Nobody but the captain distrusts the captain. *)
Definition loyal (cs : list Character) : Prop :=
  Forall (fun c => is_supporter c = false) cs.

(** Luck whose every draw is a half, every choice the first item, every
    sample the first positions and every [randint] a one. *)
Definition plain_luck : Luck :=
  {| rng := even_draws; choices := fun _ => first_pick;
     samples := fun _ _ m => seq 0 m; randints := fun _ => 1%Z; turn := 0 |}.

End ship_days.

(** ** social_system.py, sequences of calls *)

Module social_runs.
Import character social_system.

(** One call of a method of [SocialSystem], with its arguments. *)
Inductive Call : Type :=
| AddCharacter (c : Character)
| AddRelationship (c1 c2 : Character) (initial_strength : Q) (t : RelationshipType)
| UpdateRelationship (c1 c2 : Character) (interaction_type : string)
| DecayRelationships (decay_rate : Q)
| GetRelationships (character_name : string)
| GetMostInfluentialCharacter.

(** The system after the call. *)
Definition call (s : SocialSystem) (m : Call) : SocialSystem :=
  match m with
  | AddCharacter c => fst (add_character s c)
  | AddRelationship c1 c2 w t => fst (add_relationship s c1 c2 w t)
  | UpdateRelationship c1 c2 it => fst (update_relationship s c1 c2 it)
  | DecayRelationships rate => fst (decay_relationships s rate)
  | GetRelationships n => fst (get_relationships s n)
  | GetMostInfluentialCharacter => fst (get_most_influential_character s)
  end.

Definition calls (s : SocialSystem) (ms : list Call) : SocialSystem :=
  fold_left call ms s.

(** No two edges of the list join the same pair of names. *)
Fixpoint one_edge_per_pair (es : list (string * string * EdgeData)) : Prop :=
  match es with
  | [] => True
  | e :: rest =>
      (forall e', In e' rest -> joins (fst (fst e)) (snd (fst e)) e' = false) /\
      one_edge_per_pair rest
  end.

(** Both ends of every edge are nodes. *)
Definition ends_are_nodes (g : Graph) : Prop :=
  Forall (fun e : string * string * EdgeData =>
            has_node g (fst (fst e)) = true /\ has_node g (snd (fst e)) = true)
         (edges g).

(** Every node is filed under the name of its character. *)
Definition named_nodes (g : Graph) : Prop :=
  Forall (fun nc : string * Character => fst nc = name (snd nc)) (nodes g).

Definition well_formed (g : Graph) : Prop :=
  distinct_nodes g /\ named_nodes g /\ ends_are_nodes g /\ one_edge_per_pair (edges g).

(** Ann and Bob are friends, at strength 0.8. *)
Definition two_friends : SocialSystem :=
  fst (add_relationship two_strangers ann bob (8 # 10) FRIENDSHIP).

End social_runs.

(** ** character.py, the methods of [Character]

    The [logging] calls of these methods write to the log only and are
    left out.  An object is a position in a list of characters, so that
    [interact_with] sees one object when [self] is [other_character]. *)

Module character_life.
Import character.

Definition with_needs (c : Character) (x : list (string * Q)) : Character :=
  {| name := name c; gender := gender c; age := age c;
     social_class := social_class c; ethnic_origin := ethnic_origin c;
     sexual_orientation := sexual_orientation c; ideology := ideology c;
     belief_system := belief_system c;
     resistance_to_change := resistance_to_change c;
     big_five_traits := big_five_traits c; needs := x;
     emotions := emotions c; psychological_state := psychological_state c;
     trauma_points := trauma_points c;
     psychological_resilience := psychological_resilience c;
     hidden_agenda := hidden_agenda c; backstory := backstory c;
     memory := memory c; health := health c;
     extra_attrs := extra_attrs c |}.

Definition with_emotions (c : Character) (x : list (string * Q)) : Character :=
  {| name := name c; gender := gender c; age := age c;
     social_class := social_class c; ethnic_origin := ethnic_origin c;
     sexual_orientation := sexual_orientation c; ideology := ideology c;
     belief_system := belief_system c;
     resistance_to_change := resistance_to_change c;
     big_five_traits := big_five_traits c; needs := needs c;
     emotions := x; psychological_state := psychological_state c;
     trauma_points := trauma_points c;
     psychological_resilience := psychological_resilience c;
     hidden_agenda := hidden_agenda c; backstory := backstory c;
     memory := memory c; health := health c;
     extra_attrs := extra_attrs c |}.

Definition with_psychological_state (c : Character) (x : PsychologicalState) : Character :=
  {| name := name c; gender := gender c; age := age c;
     social_class := social_class c; ethnic_origin := ethnic_origin c;
     sexual_orientation := sexual_orientation c; ideology := ideology c;
     belief_system := belief_system c;
     resistance_to_change := resistance_to_change c;
     big_five_traits := big_five_traits c; needs := needs c;
     emotions := emotions c; psychological_state := x;
     trauma_points := trauma_points c;
     psychological_resilience := psychological_resilience c;
     hidden_agenda := hidden_agenda c; backstory := backstory c;
     memory := memory c; health := health c;
     extra_attrs := extra_attrs c |}.

Definition with_memory (c : Character) (x : list Perception) : Character :=
  {| name := name c; gender := gender c; age := age c;
     social_class := social_class c; ethnic_origin := ethnic_origin c;
     sexual_orientation := sexual_orientation c; ideology := ideology c;
     belief_system := belief_system c;
     resistance_to_change := resistance_to_change c;
     big_five_traits := big_five_traits c; needs := needs c;
     emotions := emotions c; psychological_state := psychological_state c;
     trauma_points := trauma_points c;
     psychological_resilience := psychological_resilience c;
     hidden_agenda := hidden_agenda c; backstory := backstory c;
     memory := x; health := health c; extra_attrs := extra_attrs c |}.

(** [d[k]] on a dict of numbers. *)
Definition item (k : string) (d : list (string * Q)) : outcome Q :=
  match dict_get k d with
  | Some v => Returned v
  | None => Raised KeyError
  end.

(** The state the tests of [_update_psychological_state] select; [and]
    looks its right operand up only when the left one holds. *)
Definition next_state (c : Character) : outcome PsychologicalState :=
  if Qltb (8 # 10) (trauma_points c) then mret PARANOID
  else
    anger ← item "anger" (emotions c);
    angry ← (if Qltb (7 # 10) anger
             then social ← item "social" (needs c); mret (Qltb social (3 # 10))
             else mret false);
    if angry : bool then mret ANGRY
    else
      fear ← item "fear" (emotions c);
      depressed ← (if Qltb (6 # 10) fear
                   then hope ← item "hope" (emotions c); mret (Qltb hope (3 # 10))
                   else mret false);
      if depressed : bool then mret DEPRESSED
      else
        happiness ← item "happiness" (emotions c);
        cooperative ← (if Qltb (7 # 10) happiness
                       then social ← item "social" (needs c);
                            mret (Qltb (7 # 10) social)
                       else mret false);
        if cooperative : bool then mret COOPERATIVE else mret NORMAL.

(** [Character._update_psychological_state] *)
Definition _update_psychological_state (c : Character) : Character * outcome unit :=
  match next_state c with
  | Returned st => (with_psychological_state c st, Returned tt)
  | Raised e => (c, Raised e)
  end.

(** [Character.update_needs] *)
Definition update_needs (c : Character) : Character * outcome unit :=
  let c1 :=
    with_needs c (map (fun kv : string * Q => (fst kv, py_max 0 (snd kv - (1 # 100))))
                      (needs c)) in
  match item "physiological" (needs c1) with
  | Raised e => (c1, Raised e)
  | Returned physiological =>
      if Qltb physiological (2 # 10) then
        match item "anger" (emotions c1) with
        | Raised e => (c1, Raised e)
        | Returned anger =>
            _update_psychological_state
              (with_emotions c1
                 (dict_set "anger" (py_min 1 (anger + (5 # 100))) (emotions c1)))
        end
      else _update_psychological_state c1
  end.

(** [Character._calculate_influence] *)
Definition _calculate_influence (c : Character) (factor : string) : outcome Q :=
  if String.eqb factor "anger" then
    anger ← item "anger" (emotions c);
    neuroticism ← trait (big_five_traits c) NEUROTICISM;
    mret (anger * (1 + neuroticism))
  else if String.eqb factor "cooperation" then
    trait (big_five_traits c) AGREEABLENESS
  else if String.eqb factor "risk" then
    openness ← trait (big_five_traits c) OPENNESS;
    conscientiousness ← trait (big_five_traits c) CONSCIENTIOUSNESS;
    mret (openness * (1 - conscientiousness))
  else if String.eqb factor "survival" then
    physiological ← item "physiological" (needs c);
    mret (1 - physiological)
  else mret 0.

(** The dict [actions] of [make_decision] when [max] is reached. *)
Definition actions_of (c : Character) : outcome (list (string * Q)) :=
  cooperate ← _calculate_influence c "cooperation";
  rebel ← _calculate_influence c "anger";
  take_risk ← _calculate_influence c "risk";
  seek_resources ← _calculate_influence c "survival";
  let actions :=
    [("cooperate", cooperate); ("rebel", rebel); ("take_risk", take_risk);
     ("seek_resources", seek_resources)]%string in
  let actions :=
    match psychological_state c with
    | ANGRY => dict_alter (fun x => x + (5 # 10)) "rebel" actions
    | DEPRESSED => dict_alter (fun x => x - (3 # 10)) "cooperate" actions
    | COOPERATIVE => dict_alter (fun x => x + (7 # 10)) "cooperate" actions
    | _ => actions
    end in
  let actions :=
    match hidden_agenda c with
    | SEEK_POWER =>
        dict_alter (fun x => x - (3 # 10)) "cooperate"
          (dict_alter (fun x => x + (5 # 10)) "rebel" actions)
    | SURVIVE => dict_alter (fun x => x + (7 # 10)) "seek_resources" actions
    | _ => actions
    end in
  mret actions.

(** [Character.make_decision]: [max(actions, key=actions.get)]. *)
Definition make_decision (c : Character) : outcome string :=
  actions ← actions_of c;
  decision ← max_by snd actions;
  mret (fst decision).

(** One assignment of [interact_with]:
    [c.emotions[e] = min(1.0, c.emotions[e] + factor * c.big_five_traits[t])]. *)
Definition feel (e : string) (factor : Q) (t : BigFive) (c : Character)
  : outcome Character :=
  current ← item e (emotions c);
  x ← trait (big_five_traits c) t;
  mret (with_emotions c (dict_set e (py_min 1 (current + factor * x)) (emotions c))).

(** A method body [f] run on the object at position [r]. *)
Definition on_object (f : Character -> outcome Character) (heap : list Character)
  (r : nat) : list Character * outcome unit :=
  match heap !! r with
  | Some c =>
      match f c with
      | Returned c' => (<[r := c']> heap, Returned tt)
      | Raised e => (heap, Raised e)
      end
  | None => (heap, Returned tt)
  end.

(** [Character.interact_with]; [self] is updated before [other_character]
    is looked at. *)
Definition interact_with (heap : list Character) (self other_character : nat)
  (interaction_type : string) : list Character * outcome unit :=
  let both (e : string) (factor : Q) (t : BigFive) :=
    match on_object (feel e factor t) heap self with
    | (heap1, Returned _) => on_object (feel e factor t) heap1 other_character
    | (heap1, Raised e) => (heap1, Raised e)
    end in
  if String.eqb interaction_type "cooperation"
  then both "happiness"%string (1 # 10) AGREEABLENESS
  else if String.eqb interaction_type "conflict"
  then both "anger"%string (2 # 10) NEUROTICISM
  else (heap, Returned tt).

(** [Character.change_ideology] for an event whose entry
    [ideological_impact], when it has one, is a number: the test only
    selects a log line. *)
Definition change_ideology (c : Character) (ideological_impact : option Q)
  : Character * outcome unit :=
  match item "ideology" (resistance_to_change c) with
  | Returned resistance =>
      let impact := match ideological_impact with Some x => x | None => 0 end in
      if Qltb resistance impact then (c, Returned tt) else (c, Returned tt)
  | Raised e => (c, Raised e)
  end.

(** [Character.perceive_event]; [event_id] and [objective_info] are
    [event.get("id")] and [event.get("objective_info")]. *)
Definition perceive_event (c : Character) (event_id objective_info : option string)
  : Character :=
  with_memory c
    (memory c ++ [ {| event_id := event_id; perceived_reality := objective_info;
                      personal_bias_applied := true |} ]).

(** [Character.get_memories] *)
Definition get_memories (c : Character) : list Perception := memory c.

(** *** Runs of method calls *)

Inductive Method : Type :=
| UpdateNeeds (self : nat)
| MakeDecision (self : nat)
| InteractWith (self other_character : nat) (interaction_type : string)
| ChangeIdeology (self : nat) (ideological_impact : option Q)
| PerceiveEvent (self : nat) (event_id objective_info : option string)
| GetMemories (self : nat).

(** A method that mutates [self] and may raise after that. *)
Definition on_self (f : Character -> Character * outcome unit) (heap : list Character)
  (r : nat) : list Character * outcome unit :=
  match heap !! r with
  | Some c => let (c', res) := f c in (<[r := c']> heap, res)
  | None => (heap, Returned tt)
  end.

Definition step (heap : list Character) (m : Method) : list Character * outcome unit :=
  match m with
  | UpdateNeeds r => on_self update_needs heap r
  | MakeDecision r =>
      on_self (fun c => (c, match make_decision c with
                            | Returned _ => Returned tt
                            | Raised e => Raised e
                            end)) heap r
  | InteractWith r o it => interact_with heap r o it
  | ChangeIdeology r impact => on_self (fun c => change_ideology c impact) heap r
  | PerceiveEvent r i o => on_self (fun c => (perceive_event c i o, Returned tt)) heap r
  | GetMemories r => (heap, Returned tt)
  end.

(** The calls made one after another, by a caller that goes on after an
    exception; the exceptions raised on the way are collected. *)
Fixpoint run (heap : list Character) (ms : list Method) : list Character * list exn :=
  match ms with
  | [] => (heap, [])
  | m :: rest =>
      let (heap1, res) := step heap m in
      let (heap2, raised) := run heap1 rest in
      (heap2, match res with Raised e => e :: raised | Returned _ => raised end)
  end.

(** *** Predicates used in the properties *)

(** The object is as [__init__] leaves it. *)
Definition fresh (c : Character) : Prop :=
  exists (name : string) (gender : Gender) (age : Q) (social_class : SocialClass)
         (ethnic_origin sexual_orientation : string) (ideology : Ideology)
         (belief_system : BeliefSystem) (big_five_traits : list (BigFive * Q))
         (hidden_agenda : HiddenAgenda) (backstory : list string) (resilience : Q),
    c = Character_init name gender age social_class ethnic_origin sexual_orientation
          ideology belief_system big_five_traits hidden_agenda backstory resilience.

(** The four traits the methods read are present. *)
Definition has_traits (c : Character) : Prop :=
  forall t : BigFive, t <> EXTRAVERSION ->
    exists x, trait (big_five_traits c) t = Returned x.

(** What the methods keep of a character [c0] in any later state [c]. *)
Definition settled (c0 c : Character) : Prop :=
  (psychological_state c = NORMAL \/ psychological_state c = ANGRY \/
   psychological_state c = COOPERATIVE) /\
  trauma_points c = trauma_points c0 /\
  health c = health c0 /\
  ideology c = ideology c0 /\
  belief_system c = belief_system c0 /\
  big_five_traits c = big_five_traits c0 /\
  hidden_agenda c = hidden_agenda c0 /\
  name c = name c0 /\
  map fst (needs c) = map fst (needs c0) /\
  Forall (fun kv : string * Q => 0 <= snd kv <= 1) (needs c) /\
  dict_get "fear" (emotions c) = Some 0 /\
  dict_get "hope" (emotions c) = Some 0 /\
  (exists later, memory c = memory c0 ++ later).

(** The dicts [emotions] and [needs], with the keys [__init__] gives them. *)
Definition emotions_of (a h : Q) : list (string * Q) :=
  [("anger", a); ("hope", 0); ("fear", 0); ("happiness", h)]%string.

Definition needs_of (p so ps : Q) : list (string * Q) :=
  [("physiological", p); ("social", so); ("psychological", ps)]%string.

(** The shape every object has between two calls. *)
Definition in_shape (c0 c : Character) : Prop :=
  (exists a h : Q,
      emotions c = emotions_of a h) /\
  (exists p so ps : Q,
      needs c = needs_of p so ps /\
      0 <= p <= 1 /\ 0 <= so <= 1 /\ 0 <= ps <= 1) /\
  (exists x, item "ideology" (resistance_to_change c) = Returned x) /\
  trauma_points c = 0 /\
  (psychological_state c = NORMAL \/ psychological_state c = ANGRY \/
   psychological_state c = COOPERATIVE) /\
  health c = health c0 /\
  ideology c = ideology c0 /\
  belief_system c = belief_system c0 /\
  big_five_traits c = big_five_traits c0 /\
  hidden_agenda c = hidden_agenda c0 /\
  name c = name c0 /\
  (exists later, memory c = memory c0 ++ later).

End character_life.

(** ** src/simulation.py with [Group], the events and the decisions

    [Simulation.characters] and [LeadershipSystem.characters] are one
    list object, and so are the two [groups]: the simulation keeps them
    in its [LeadershipSystem].  A [Need] object belongs to one character.
    The lines printed by [Simulation] are collected in [output]; those of
    [LeadershipSystem] stay in its own [printed]. *)

Module simulation.
Import leadership_system.

Definition set_needs (c : Character) (x : list (string * Need)) : Character :=
  {| id := id c; name := name c; role := role c; groups := groups c;
     ideology := ideology c; needs := x; stress := stress c;
     trust_in_captain := trust_in_captain c; memories := memories c;
     alliances := alliances c; speaking_ability := speaking_ability c;
     influence := influence c; is_spokesperson := is_spokesperson c |}.

Definition set_stress (c : Character) (x : Q) : Character :=
  {| id := id c; name := name c; role := role c; groups := groups c;
     ideology := ideology c; needs := needs c; stress := x;
     trust_in_captain := trust_in_captain c; memories := memories c;
     alliances := alliances c; speaking_ability := speaking_ability c;
     influence := influence c; is_spokesperson := is_spokesperson c |}.

Definition set_is_spokesperson (c : Character) (x : bool) : Character :=
  {| id := id c; name := name c; role := role c; groups := groups c;
     ideology := ideology c; needs := needs c; stress := stress c;
     trust_in_captain := trust_in_captain c; memories := memories c;
     alliances := alliances c; speaking_ability := speaking_ability c;
     influence := influence c; is_spokesperson := x |}.

(** *** src/models/group.py *)

(** [members[k] = r] on the dict of a group, keyed by character id. *)
Fixpoint members_set (k : Z) (r : nat) (d : list (Z * nat)) : list (Z * nat) :=
  match d with
  | [] => [(k, r)]
  | (k', r') :: d' =>
      if (k =? k')%Z then (k', r) :: d' else (k', r') :: members_set k r d'
  end.

(** [Group.add_member] for the character at position [r]. *)
Definition add_member (cs : list Character) (g : Group) (r : nat) : Group :=
  match cs !! r with
  | Some character =>
      {| identity := identity g; members := members_set (id character) r (members g);
         spokesperson := spokesperson g |}
  | None => g
  end.

(** [Group.remove_member] *)
Definition remove_member (cs : list Character) (g : Group) (r : nat) : Group :=
  match cs !! r with
  | Some character =>
      {| identity := identity g;
         members := List.filter (fun kv => negb (fst kv =? id character)%Z) (members g);
         spokesperson := spokesperson g |}
  | None => g
  end.

(** [self.members.values()] with the objects the positions hold. *)
Definition member_objects (cs : list Character) (g : Group) : list (nat * Character) :=
  omap (fun kv : Z * nat =>
          match cs !! snd kv with
          | Some c => Some (snd kv, c)
          | None => None
          end) (members g).

(** The loop of [elect_spokesperson] over the members. *)
Definition flag_members (leader : Character) (refs : list nat) (cs : list Character)
  : list Character :=
  fold_left (fun heap r =>
               alter (fun member =>
                        set_is_spokesperson member (id member =? id leader)%Z) r heap)
            refs cs.

(** [Group.elect_spokesperson] *)
Definition elect_spokesperson (cs : list Character) (g : Group)
  : list Character * Group * outcome unit :=
  match members g with
  | [] =>
      (cs, {| identity := identity g; members := members g; spokesperson := None |},
       Returned tt)
  | _ :: _ =>
      match max_by (fun rc : nat * Character =>
                      speaking_ability (snd rc) + influence (snd rc))
                   (member_objects cs g) with
      | Returned (r, leader) =>
          (flag_members leader (map fst (member_objects cs g)) cs,
           {| identity := identity g; members := members g; spokesperson := Some r |},
           Returned tt)
      | Raised e => (cs, g, Raised e)
      end
  end.

(** *** src/models/event.py *)

Record Event : Type := {
  ev_day : Z;
  ev_type : string;
  ev_description : string;
  affected_groups : gset GroupIdentity;
  impact : list (string * Q)
}.

Definition FoodShortageEvent (day : Z) : Event :=
  {| ev_day := day; ev_type := "Food Shortage";
     ev_description := "Food supplies are running low.";
     affected_groups := {[WORKERS; WOMEN]};
     impact := [("hunger", 10); ("stress", 5)]%string |}.

(** *** src/systems/decision_system.py *)

(** [DecisionSystem.make_decision] *)
Definition make_decision (character : Character) : string :=
  if Qltb 60 (stress character)
  then (name character ++ " decides to rebel.")%string
  else (name character ++ " decides to cooperate.")%string.

(** *** src/systems/event_system.py and src/simulation.py *)

Inductive Line : Type :=
| DayHeader (day : Z)
| EventLine (description : string)
| HungryAndStressed (name : string)
| DecisionLine (decision : string).

(** The callables that are subscribed: the bound method
    [Simulation.handle_food_shortage] is the only one. *)
Inductive Listener : Type := handle_food_shortage_of_simulation.

Record EventSystem : Type := { listeners : list (string * list Listener) }.

(** [EventSystem.subscribe] *)
Definition subscribe (es : EventSystem) (event_type : string) (listener : Listener)
  : EventSystem :=
  let ls := if dict_mem event_type (listeners es) then listeners es
            else dict_set event_type [] (listeners es) in
  {| listeners := dict_alter (fun l => l ++ [listener]) event_type ls |}.

(** [Simulation.handle_food_shortage] on the character at position [r]. *)
Definition handle_food_shortage (heap : list Character) (r : nat) (event : Event)
  : list Character * list Line * outcome unit :=
  match heap !! r with
  | None => (heap, [], Returned tt)
  | Some character =>
      match dict_get "hunger" (needs character), dict_get "hunger" (impact event) with
      | Some need, Some x =>
          let need1 := {| need_name := need_name need; value := value need - x;
                          critical_threshold := critical_threshold need |} in
          let c1 := set_needs character (dict_set "hunger" need1 (needs character)) in
          match dict_get "stress" (impact event) with
          | Some y =>
              (<[r := set_stress c1 (stress c1 + y)]> heap,
               [HungryAndStressed (name c1)], Returned tt)
          | None => (<[r := c1]> heap, [], Raised KeyError)
          end
      | _, _ => (heap, [], Raised KeyError)
      end
  end.

Definition call_listener (l : Listener) (heap : list Character) (r : nat) (event : Event)
  : list Character * list Line * outcome unit :=
  match l with
  | handle_food_shortage_of_simulation => handle_food_shortage heap r event
  end.

(** [any(g in event.affected_groups for g in character.groups)] *)
Definition affected (event : Event) (character : Character) : bool :=
  negb (bool_decide (groups character ∩ affected_groups event = ∅)).

(** The inner loop of [post], over the characters at [refs]. *)
Fixpoint post_characters (l : Listener) (event : Event) (refs : list nat)
  (heap : list Character) : list Character * list Line * outcome unit :=
  match refs with
  | [] => (heap, [], Returned tt)
  | r :: rest =>
      match heap !! r with
      | Some character =>
          if affected event character then
            match call_listener l heap r event with
            | (heap1, out, Returned _) =>
                let '(heap2, out', res) := post_characters l event rest heap1 in
                (heap2, out ++ out', res)
            | (heap1, out, Raised e) => (heap1, out, Raised e)
            end
          else post_characters l event rest heap
      | None => post_characters l event rest heap
      end
  end.

(** The outer loop of [post], over the listeners. *)
Fixpoint post_listeners (ls : list Listener) (event : Event) (heap : list Character)
  : list Character * list Line * outcome unit :=
  match ls with
  | [] => (heap, [], Returned tt)
  | l :: rest =>
      match post_characters l event (seq 0 (length heap)) heap with
      | (heap1, out, Returned _) =>
          let '(heap2, out', res) := post_listeners rest event heap1 in
          (heap2, out ++ out', res)
      | (heap1, out, Raised e) => (heap1, out, Raised e)
      end
  end.

(** [EventSystem.post] *)
Definition post (es : EventSystem) (event : Event) (heap : list Character)
  : list Character * list Line * outcome unit :=
  match dict_get (ev_type event) (listeners es) with
  | Some ls => post_listeners ls event heap
  | None => (heap, [], Returned tt)
  end.

Record Simulation : Type := {
  leadership : LeadershipSystem;
  day : Z;
  event_system : EventSystem;
  output : list Line
}.
(* [leadership] is the attribute [leadership_system]. *)

(** [Simulation.__init__] *)
Definition Simulation_init (cs : list Character) (gs : list Group) : Simulation :=
  {| leadership := LeadershipSystem_init cs gs;
     day := 1;
     event_system := subscribe {| listeners := [] |} "Food Shortage"
                               handle_food_shortage_of_simulation;
     output := [] |}.

Definition with_characters (ls : LeadershipSystem) (cs : list Character)
  : LeadershipSystem :=
  {| characters := cs; groups_of := groups_of ls; captain := captain ls;
     printed := printed ls |}.

(** [Simulation.run_day] *)
Definition run_day (sim : Simulation) : Simulation * outcome unit :=
  let out0 := output sim ++ [DayHeader (day sim)] in
  let '(heap1, out1, res) :=
    if (day sim mod 5 =? 0)%Z then
      let event := FoodShortageEvent (day sim) in
      let '(heap, out, res) :=
        post (event_system sim) event (characters (leadership sim)) in
      (heap, out0 ++ [EventLine (ev_description event)] ++ out, res)
    else (characters (leadership sim), out0, Returned tt) in
  match res with
  | Raised e =>
      ({| leadership := with_characters (leadership sim) heap1; day := day sim;
          event_system := event_system sim; output := out1 |}, Raised e)
  | Returned _ =>
      let out2 := out1 ++ map (fun c => DecisionLine (make_decision c)) heap1 in
      let '(ls, res') :=
        check_for_leadership_change (with_characters (leadership sim) heap1) in
      match res' with
      | Raised e =>
          ({| leadership := ls; day := day sim; event_system := event_system sim;
              output := out2 |}, Raised e)
      | Returned _ =>
          ({| leadership := ls; day := (day sim + 1)%Z;
              event_system := event_system sim; output := out2 |}, Returned tt)
      end
  end.

(** [Simulation.run_simulation] *)
Fixpoint run_simulation (sim : Simulation) (days : nat) : Simulation * outcome unit :=
  match days with
  | O => (sim, Returned tt)
  | S days' =>
      match run_day sim with
      | (sim1, Returned _) => run_simulation sim1 days'
      | (sim1, Raised e) => (sim1, Raised e)
      end
  end.

(** *** Predicates and states used in the properties *)

(** The character is in a group the food shortage affects. *)
Definition goes_hungry (c : Character) : bool := affected (FoodShortageEvent 0) c.

(** The captain, if there is one, has a trust of 40 or more. *)
Definition captain_is_safe (ls : LeadershipSystem) : Prop :=
  forall (r : nat) (cap : Character),
    captain ls = Some r -> characters ls !! r = Some cap -> 40 <= trust_in_captain cap.

(** Every character the food shortage affects has a need named hunger. *)
Definition hungry_have_hunger (cs : list Character) : Prop :=
  forall c, In c cs -> goes_hungry c = true -> dict_mem "hunger" (needs c) = true.

(** What [k] food shortages do to a character. *)
Definition starved (k : Z) (c c' : Character) : Prop :=
  id c' = id c /\ name c' = name c /\ role c' = role c /\ groups c' = groups c /\
  trust_in_captain c' = trust_in_captain c /\ influence c' = influence c /\
  is_spokesperson c' = is_spokesperson c /\
  if goes_hungry c
  then stress c' == stress c + 5 * inject_Z k /\
       exists n n',
         dict_get "hunger" (needs c) = Some n /\
         dict_get "hunger" (needs c') = Some n' /\
         value n' == value n - 10 * inject_Z k /\
         forall nm, nm <> "hunger"%string ->
                    dict_get nm (needs c') = dict_get nm (needs c)
  else stress c' = stress c /\ needs c' = needs c.

(** What one food shortage does to a character: [handle_food_shortage]
    when the character is affected and has a hunger need. *)
Definition short_of_food (c : Character) : Character :=
  match dict_get "hunger" (needs c) with
  | Some n =>
      let n1 := {| need_name := need_name n; value := value n - 10;
                   critical_threshold := critical_threshold n |} in
      let c1 := set_needs c (dict_set "hunger" n1 (needs c)) in
      set_stress c1 (stress c1 + 5)
  | None => c
  end.

Definition feed (c : Character) : Character :=
  if goes_hungry c then short_of_food c else c.

(** The number of multiples of 5 among the [n] days from day [d] on. *)
Fixpoint shortages (d : Z) (n : nat) : Z :=
  match n with
  | O => 0
  | S n' => ((if (d mod 5 =? 0)%Z then 1 else 0) + shortages (d + 1) n')%Z
  end.

(** The crew of src/main.py. *)
Definition need (nm : string) (v : Q) : Need :=
  {| need_name := nm; value := v; critical_threshold := 30 |}.

Definition main_crew : list Character :=
  [ {| id := 1; name := "Captain"; role := "captain"; groups := {[AUTHORITY]};
       ideology := CONSERVATIVE;
       needs := [("power", need "power" 90); ("hunger", need "hunger" 50)]%string;
       stress := 50; trust_in_captain := 70; memories := []; alliances := ∅;
       speaking_ability := 50; influence := 50; is_spokesperson := false |};
    {| id := 2; name := "Worker"; role := "worker"; groups := {[WORKERS]};
       ideology := LIBERAL;
       needs := [("safety", need "safety" 40); ("hunger", need "hunger" 50)]%string;
       stress := 50; trust_in_captain := 70; memories := []; alliances := ∅;
       speaking_ability := 50; influence := 50; is_spokesperson := false |};
    {| id := 3; name := "Spokesperson"; role := "spokesperson"; groups := {[WORKERS]};
       ideology := REVOLUTIONARY;
       needs := [("respect", need "respect" 60); ("hunger", need "hunger" 50)]%string;
       stress := 50; trust_in_captain := 70; memories := []; alliances := ∅;
       speaking_ability := 80; influence := 80; is_spokesperson := false |} ].

(** The groups as [setup_simulation] of src/main.py fills them: one per
    identity, each character added to the groups it names. *)
Definition main_groups : list Group :=
  fold_left
    (fun gs r =>
       match main_crew !! r with
       | Some c =>
           map (fun g => if bool_decide (identity g ∈ groups c)
                         then add_member main_crew g r else g) gs
       | None => gs
       end)
    (seq 0 (length main_crew))
    (map (fun i => {| identity := i; members := []; spokesperson := None |})
         [AUTHORITY; WORKERS; WOMEN; LGBTQ; RELIGIOUS; INDIGENOUS; MERCHANTS]).

(** [setup_simulation]: every group elects, then the simulation is built. *)
Definition setup_simulation : Simulation :=
  let '(cs, gs) :=
    fold_left
      (fun (st : list Character * list Group) g =>
         let '(cs', g', _) := elect_spokesperson (fst st) g in (cs', snd st ++ [g']))
      main_groups (main_crew, []) in
  Simulation_init cs gs.

End simulation.

(** * Properties *)

Lemma Qltb_lt (a b : Q) : Qltb a b = true <-> a < b.
Proof.
  unfold Qltb. rewrite negb_true_iff.
  destruct (Qle_bool b a) eqn:E.
  - apply Qle_bool_iff in E. split; [discriminate | lra].
  - split; [intros _ | reflexivity].
    destruct (Qlt_le_dec a b) as [H | H]; [exact H |].
    apply Qle_bool_iff in H. congruence.
Qed.

Lemma Qltb_ge (a b : Q) : Qltb a b = false <-> b <= a.
Proof.
  split; intros H.
  - destruct (Qlt_le_dec a b) as [L | L]; [| exact L].
    apply Qltb_lt in L. congruence.
  - destruct (Qltb a b) eqn:E; [| reflexivity].
    apply Qltb_lt in E. lra.
Qed.

Lemma py_clamp_range (lo hi x : Q) :
  lo <= hi -> lo <= py_min hi (py_max lo x) <= hi.
Proof.
  intros Hlh. unfold py_min, py_max.
  destruct (Qltb lo x) eqn:E1.
  - apply Qltb_lt in E1.
    destruct (Qltb x hi) eqn:E2.
    + apply Qltb_lt in E2. lra.
    + lra.
  - destruct (Qltb lo hi) eqn:E2; lra.
Qed.

(** ** Insertion-ordered dictionaries *)

Section DictFacts.
Context {V : Type}.
Implicit Types (d : list (string * V)) (k : string).

Lemma dict_get_not_in k d : ~ In k (map fst d) -> dict_get k d = None.
Proof.
  induction d as [| [k' v] d IH]; simpl; intros Hn; [reflexivity |].
  destruct (String.eqb_spec k k') as [-> | Hne].
  - exfalso. apply Hn. now left.
  - apply IH. intros Hin. apply Hn. now right.
Qed.

Lemma dict_get_in_keys k d : In k (map fst d) -> exists v, dict_get k d = Some v.
Proof.
  induction d as [| [k' v] d IH]; simpl; [intros [] |].
  destruct (String.eqb_spec k k') as [-> | Hne]; [eauto |].
  intros [H | H]; [congruence | now apply IH].
Qed.

Lemma dict_get_in k d v : dict_get k d = Some v -> In (k, v) d.
Proof.
  induction d as [| [k' v'] d IH]; simpl; [discriminate |].
  destruct (String.eqb_spec k k') as [-> | Hne].
  - intros [= ->]. now left.
  - intros H. right. now apply IH.
Qed.

Lemma dict_get_alter_same (f : V -> V) k d :
  dict_get k (dict_alter f k d) = option_map f (dict_get k d).
Proof.
  induction d as [| [k' v] d IH]; simpl; [reflexivity |].
  destruct (String.eqb_spec k k') as [-> | Hne]; simpl.
  - now rewrite String.eqb_refl.
  - destruct (String.eqb_spec k k'); [contradiction | exact IH].
Qed.

Lemma dict_get_alter_other (f : V -> V) k k' d :
  k <> k' -> dict_get k' (dict_alter f k d) = dict_get k' d.
Proof.
  intros Hne. induction d as [| [k0 v] d IH]; simpl; [reflexivity |].
  destruct (String.eqb_spec k k0) as [-> | Hne0]; simpl.
  - destruct (String.eqb_spec k' k0); [congruence | reflexivity].
  - destruct (String.eqb_spec k' k0); [reflexivity | exact IH].
Qed.

Lemma dict_alter_keys (f : V -> V) k d :
  map fst (dict_alter f k d) = map fst d.
Proof.
  induction d as [| [k' v] d IH]; simpl; [reflexivity |].
  destruct (String.eqb k k'); simpl; [reflexivity | now rewrite IH].
Qed.

End DictFacts.

(** ** Needs of an agent (ship_of_fools.py) *)

Section NeedsProperties.
Import ship_of_fools.

Lemma bump_need_range change n : 0 <= value (bump_need change n) <= 100.
Proof. simpl. apply py_clamp_range. lra. Qed.

Lemma update_needs_lookup (changes : list (string * Q)) :
  NoDup (map fst changes) ->
  forall (c : Character) (nm : string) (n : Need),
    dict_get nm (needs c) = Some n ->
    dict_get nm (needs (update_needs c changes)) =
    Some (match dict_get nm changes with
          | Some delta => bump_need delta n
          | None => n
          end).
Proof.
  induction changes as [| [k ch] rest IH]; intros Hnd c nm n Hget; simpl.
  - exact Hget.
  - inversion Hnd as [| ? ? Hk Hrest]; subst.
    rewrite list_elem_of_In in Hk.
    destruct (String.eqb_spec nm k) as [-> | Hne].
    + unfold dict_mem. rewrite Hget.
      rewrite (IH Hrest _ k (bump_need ch n)).
      * now rewrite (dict_get_not_in k rest Hk).
      * simpl. rewrite dict_get_alter_same, Hget. reflexivity.
    + destruct (dict_mem k (needs c)).
      * apply (IH Hrest). simpl.
        rewrite dict_get_alter_other by congruence. exact Hget.
      * now apply (IH Hrest).
Qed.

Lemma update_needs_unknown (changes : list (string * Q)) (c : Character) :
  (forall k, In k (map fst changes) -> dict_get k (needs c) = None) ->
  update_needs c changes = c.
Proof.
  induction changes as [| [k ch] rest IH]; intros Hnone; simpl; [reflexivity |].
  unfold dict_mem. rewrite (Hnone k) by now left.
  apply IH. intros k' Hin. apply Hnone. now right.
Qed.

Lemma update_needs_frame (changes : list (string * Q)) (c : Character) :
  let c' := update_needs c changes in
  id c' = id c /\ name c' = name c /\ role c' = role c /\ stress c' = stress c
  /\ trust_in_captain c' = trust_in_captain c /\ influence c' = influence c
  /\ memories c' = memories c /\ char_alliances c' = char_alliances c
  /\ map fst (needs c') = map fst (needs c).
Proof.
  revert c. induction changes as [| [k ch] rest IH]; intros c; simpl.
  - repeat split.
  - destruct (dict_mem k (needs c)); [| apply IH].
    specialize (IH (set_needs c (dict_alter (bump_need ch) k (needs c)))).
    simpl in IH. rewrite dict_alter_keys in IH. exact IH.
Qed.

(** C7.  [update_needs] adds each named delta to the matching need and
    clamps the sum to [0,100] whatever the delta; every other attribute
    of the agent and the set of need names stay as they were; deltas that
    name no need of the agent leave the agent unchanged.  For the agent
    whose only need is hunger at 10 with threshold 30,
    [get_critical_needs] is ["hunger"]; after [update_needs] with
    hunger +25 the value is 35 and [get_critical_needs] is empty. *)
Theorem C7_update_needs_adds_and_clamps :
  (forall (c : Character) (changes : list (string * Q)) (nm : string) (n : Need),
      NoDup (map fst changes) ->
      dict_get nm (needs c) = Some n ->
      exists n',
        dict_get nm (needs (update_needs c changes)) = Some n' /\
        need_name n' = need_name n /\
        critical_threshold n' = critical_threshold n /\
        match dict_get nm changes with
        | Some delta =>
            value n' = py_min 100 (py_max 0 (value n + delta)) /\
            0 <= value n' <= 100 /\
            (0 <= value n + delta <= 100 -> value n' == value n + delta)
        | None => value n' = value n
        end) /\
  (forall (c : Character) (changes : list (string * Q)),
      let c' := update_needs c changes in
      id c' = id c /\ name c' = name c /\ role c' = role c /\ stress c' = stress c
      /\ trust_in_captain c' = trust_in_captain c /\ influence c' = influence c
      /\ memories c' = memories c /\ char_alliances c' = char_alliances c
      /\ map fst (needs c') = map fst (needs c)) /\
  (forall (c : Character) (changes : list (string * Q)),
      (forall k, In k (map fst changes) -> dict_get k (needs c) = None) ->
      update_needs c changes = c) /\
  get_critical_needs agent_x = ["hunger"%string] /\
  (exists n', needs (update_needs agent_x [("hunger"%string, 25)]) = [("hunger"%string, n')]
              /\ value n' == 35) /\
  get_critical_needs (update_needs agent_x [("hunger"%string, 25)]) = [].
Proof.
  split; [| split; [| split; [| split; [| split]]]].
  - intros c changes nm n Hnd Hget.
    rewrite (update_needs_lookup changes Hnd c nm n Hget).
    destruct (dict_get nm changes) as [delta |].
    + exists (bump_need delta n). repeat split; try apply bump_need_range.
      intros [Hlo Hhi]. simpl. unfold py_min, py_max.
      destruct (Qltb 0 (value n + delta)) eqn:E1.
      * destruct (Qltb (value n + delta) 100) eqn:E2; [reflexivity |].
        apply Qltb_ge in E2. lra.
      * apply Qltb_ge in E1. destruct (Qltb 0 100) eqn:E2; [lra |].
        apply Qltb_ge in E2. lra.
    + exists n. repeat split.
  - intros c changes. apply update_needs_frame.
  - intros c changes. apply update_needs_unknown.
  - reflexivity.
  - eexists. split; [reflexivity | reflexivity].
  - reflexivity.
Qed.

Lemma C7_witness :
  exists n',
    dict_get "hunger"
      (needs (update_needs agent_x [("hunger"%string, 25); ("thirst"%string, 400)]))
    = Some n' /\ 0 <= value n' <= 100.
Proof.
  destruct (proj1 C7_update_needs_adds_and_clamps agent_x
              [("hunger"%string, 25); ("thirst"%string, 400)] "hunger"%string
              {| need_name := "hunger"; value := 10; critical_threshold := 30 |})
    as (n' & Hget & _ & _ & Hv).
  - apply (bool_decide_unpack _). vm_compute. reflexivity.
  - reflexivity.
  - exists n'. split; [exact Hget |]. simpl in Hv. apply Hv.
Defined.

End NeedsProperties.

(** ** The alliance registry (ship_of_fools.py) *)

Section AllianceProperties.
Import ship_of_fools.

Lemma join_existing_none (id1 id2 : Z) (al : list Alliance) :
  join_existing id1 id2 al = None <->
  Forall (fun X => (id1 ∉ members X) /\ (id2 ∉ members X)) al.
Proof.
  induction al as [| X al IH]; simpl.
  - split; [constructor | reflexivity].
  - destruct (bool_decide (id1 ∈ members X)) eqn:E1; simpl.
    + apply bool_decide_eq_true in E1. split; [discriminate |].
      intros H. inversion H; subst. tauto.
    + apply bool_decide_eq_false in E1.
      destruct (bool_decide (id2 ∈ members X)) eqn:E2.
      * apply bool_decide_eq_true in E2. split; [discriminate |].
        intros H. inversion H; subst. tauto.
      * apply bool_decide_eq_false in E2.
        destruct (join_existing id1 id2 al) as [al' |].
        -- split; [discriminate |]. intros H. inversion H; subst.
           apply IH in H3. discriminate.
        -- split; [| reflexivity]. intros _. constructor; [tauto |].
           now apply IH.
Qed.

Lemma join_existing_first (id1 id2 : Z) (al : list Alliance) (k : nat) (A : Alliance) :
  al !! k = Some A ->
  id1 ∈ members A \/ id2 ∈ members A ->
  (forall j X, (j < k)%nat -> al !! j = Some X ->
               (id1 ∉ members X) /\ (id2 ∉ members X)) ->
  join_existing id1 id2 al = Some (<[k := add_member (add_member A id1) id2]> al).
Proof.
  revert k. induction al as [| X al IH]; intros k Hk Hin Hfirst.
  - discriminate.
  - destruct k as [| k]; simpl in *.
    + injection Hk as ->.
      destruct Hin as [Hin | Hin].
      * rewrite (bool_decide_eq_true_2 _ Hin). reflexivity.
      * rewrite (bool_decide_eq_true_2 _ Hin). rewrite orb_true_r. reflexivity.
    + destruct (Hfirst 0%nat X) as [H1 H2]; [lia | reflexivity |].
      rewrite (bool_decide_eq_false_2 _ H1), (bool_decide_eq_false_2 _ H2). simpl.
      rewrite (IH k Hk Hin); [reflexivity |].
      intros j Y Hj HY. apply (Hfirst (S j) Y); [lia | exact HY].
Qed.

Lemma form_alliance_alliances (s : Ship) (r1 r2 : nat) (a b : Character) (choice : string) :
  characters s !! r1 = Some a ->
  characters s !! r2 = Some b ->
  alliances (_form_alliance s r1 r2 choice) =
  match join_existing (id a) (id b) (alliances s) with
  | Some al => al
  | None =>
      alliances s ++
      [ {| members := {[id a; id b]}; purpose := ("Shared " ++ choice)%string;
           strength := 50; created_day := day s; broken := false |} ]
  end.
Proof.
  intros Ha Hb. unfold _form_alliance. rewrite Ha, Hb. simpl.
  destruct (join_existing (id a) (id b) (alliances s)); reflexivity.
Qed.

(** C5.  Let [a] and [b] be two characters of the ship, one of them (the
    member) in an existing alliance and the other (the fresh one) in
    none, and let [A], at position [k], be the first alliance of the
    registry that holds the member.  [_form_alliance] adds no alliance:
    [A] is replaced in place by an alliance whose members are those of
    [A] together with both ids and whose strength is that of [A] plus 5
    for each of the two [add_member] calls, and it is the one alliance of
    the registry that holds both ids.  A new alliance is appended exactly
    when neither id belongs to any alliance; it holds the two ids and has
    strength 50. *)
Theorem C5_form_alliance_folds_into_existing :
  forall (s : Ship) (r1 r2 : nat) (a b : Character) (choice : string),
    characters s !! r1 = Some a ->
    characters s !! r2 = Some b ->
    let s' := _form_alliance s r1 r2 choice in
    (forall (k : nat) (A : Alliance),
        alliances s !! k = Some A ->
        (id a ∈ members A /\ unallied (id b) (alliances s) /\
         (forall j X, (j < k)%nat -> alliances s !! j = Some X -> id a ∉ members X))
        \/
        (id b ∈ members A /\ unallied (id a) (alliances s) /\
         (forall j X, (j < k)%nat -> alliances s !! j = Some X -> id b ∉ members X)) ->
        exists A',
          alliances s' = <[k := A']> (alliances s) /\
          length (alliances s') = length (alliances s) /\
          members A' = members A ∪ {[id a; id b]} /\
          strength A' == strength A + 5 + 5 /\
          purpose A' = purpose A /\ broken A' = broken A /\
          created_day A' = created_day A /\
          (forall j X, alliances s' !! j = Some X ->
                       (id a ∈ members X /\ id b ∈ members X) <-> j = k)) /\
    (unallied (id a) (alliances s) /\ unallied (id b) (alliances s) ->
     alliances s' =
     alliances s ++
     [ {| members := {[id a; id b]}; purpose := ("Shared " ++ choice)%string;
          strength := 50; created_day := day s; broken := false |} ]) /\
    (length (alliances s') = S (length (alliances s)) <->
     unallied (id a) (alliances s) /\ unallied (id b) (alliances s)).
Proof.
  intros s r1 r2 a b choice Ha Hb s'.
  assert (Hal := form_alliance_alliances s r1 r2 a b choice Ha Hb).
  fold s' in Hal.
  assert (Hnone : join_existing (id a) (id b) (alliances s) = None <->
                  unallied (id a) (alliances s) /\ unallied (id b) (alliances s)).
  { rewrite join_existing_none. unfold unallied. rewrite <- Forall_and. reflexivity. }
  split; [| split].
  - intros k A Hk Hcase.
    assert (Hin : id a ∈ members A \/ id b ∈ members A) by tauto.
    assert (Hfirst : forall j X, (j < k)%nat -> alliances s !! j = Some X ->
                                 (id a ∉ members X) /\ (id b ∉ members X)).
    { intros j X Hj HX.
      assert (HXin : X ∈ alliances s) by (apply list_elem_of_lookup; eauto).
      destruct Hcase as [(_ & Hfresh & Hf) | (_ & Hfresh & Hf)];
        unfold unallied in Hfresh; rewrite Forall_forall in Hfresh;
        specialize (Hfresh X HXin); specialize (Hf j X Hj HX); tauto. }
    rewrite (join_existing_first _ _ _ k A Hk Hin Hfirst) in Hal.
    exists (add_member (add_member A (id a)) (id b)).
    assert (Hlt : (k < length (alliances s))%nat) by (eapply lookup_lt_Some; eauto).
    assert (Hboth : forall X : Alliance,
               id a ∈ members X -> id b ∈ members X -> X ∉ alliances s).
    { intros X HaX HbX HXin.
      destruct Hcase as [(_ & Hfresh & _) | (_ & Hfresh & _)];
        unfold unallied in Hfresh; rewrite Forall_forall in Hfresh;
        specialize (Hfresh X HXin); tauto. }
    split; [exact Hal |].
    split; [rewrite Hal; apply length_insert |].
    split; [simpl; apply set_eq; intros x; set_unfold; tauto |].
    split; [simpl; reflexivity |].
    split; [reflexivity |]. split; [reflexivity |]. split; [reflexivity |].
    intros j X HX. rewrite Hal in HX. split.
    + intros [HaX HbX].
      destruct (decide (j = k)) as [-> | Hne]; [reflexivity | exfalso].
      rewrite list_lookup_insert_ne in HX by congruence.
      apply (Hboth X HaX HbX). apply list_elem_of_lookup. eauto.
    + intros ->. rewrite list_lookup_insert_eq in HX by exact Hlt.
      injection HX as <-. simpl. split; set_unfold; tauto.
  - intros Hun. apply Hnone in Hun. now rewrite Hun in Hal.
  - rewrite <- Hnone.
    destruct (join_existing (id a) (id b) (alliances s)) as [al |] eqn:E.
    + split; [| discriminate]. intros Hlen. exfalso.
      assert (length al = length (alliances s)); [| rewrite Hal in Hlen; lia].
      clear -E. revert al E.
      induction (alliances s) as [| X l IH]; intros al E; simpl in E; [discriminate |].
      destruct (bool_decide (id a ∈ members X) || bool_decide (id b ∈ members X)).
      * injection E as <-. reflexivity.
      * destruct (join_existing (id a) (id b) l) as [l' |]; [| discriminate].
        injection E as <-. simpl. f_equal. now apply IH.
    + split; [reflexivity |]. intros _. rewrite Hal, length_app. simpl. lia.
Qed.

Lemma C5_witness :
  exists A',
    alliances (_form_alliance (ship_with three_sailors [pact]) 0 2 "identity") = [A'] /\
    members A' = {[1%Z; 2%Z]} ∪ {[1%Z; 3%Z]} /\ strength A' == 60.
Proof.
  destruct (C5_form_alliance_folds_into_existing
              (ship_with three_sailors [pact]) 0 2
              (sailor 1 "Ann") (sailor 3 "Cy") "identity" eq_refl eq_refl)
    as [Hfold _].
  destruct (Hfold 0%nat pact eq_refl) as (A' & Hal & _ & Hm & Hs & _).
  - left. split; [| split].
    + apply (bool_decide_unpack _). vm_compute. reflexivity.
    + repeat constructor. apply (bool_decide_unpack _). vm_compute. reflexivity.
    + intros j X Hj. lia.
  - exists A'. split; [exact Hal |]. split; [exact Hm |].
    rewrite Hs. reflexivity.
Defined.

Lemma remove_member_breaks (a : Alliance) (x : Z) :
  (size (members a ∖ {[x]}) < 2)%nat -> broken (remove_member a x) = true.
Proof.
  intros H. simpl. destruct (Nat.ltb_spec (size (members a ∖ {[x]})) 2); [reflexivity | lia].
Qed.

Lemma update_alliance_broken (a : Alliance) (g : Rng) :
  broken a = true -> update_alliance a g = (a, [], g).
Proof. intros H. unfold update_alliance. now rewrite H. Qed.

Lemma update_alliance_keeps_flag (a : Alliance) (g : Rng) :
  broken a = true -> broken (fst (fst (update_alliance a g))) = true.
Proof. intros H. now rewrite update_alliance_broken. Qed.

(** A tick leaves every broken alliance of the registry as it was. *)
Lemma update_alliances_broken_inert (s : Ship) (g : Rng) (k : nat) (A : Alliance) :
  alliances s !! k = Some A -> broken A = true ->
  alliances (fst (_update_alliances s g)) !! k = Some A.
Proof.
  unfold _update_alliances.
  destruct (update_alliance_list (alliances s) g) as [[al out] g'] eqn:E. simpl.
  revert k g al out g' E.
  induction (alliances s) as [| X l IH]; intros k g al out g' E Hk Hb; [discriminate |].
  simpl in E.
  destruct (update_alliance X g) as [[X' o1] g1] eqn:E1.
  destruct (update_alliance_list l g1) as [[l' o2] g2] eqn:E2.
  injection E as <- <- <-.
  destruct k as [| k]; simpl in *.
  - injection Hk as ->. rewrite update_alliance_broken in E1 by exact Hb.
    now injection E1 as <- _ _.
  - eapply IH; eauto.
Qed.

(** Formation never clears the flag of a broken alliance. *)
Lemma join_existing_keeps_flag (id1 id2 : Z) (al al' : list Alliance) (k : nat) (A : Alliance) :
  join_existing id1 id2 al = Some al' ->
  al !! k = Some A -> broken A = true ->
  exists A', al' !! k = Some A' /\ broken A' = true.
Proof.
  revert al' k. induction al as [| X l IH]; intros al' k E Hk Hb; [discriminate |].
  simpl in E.
  destruct (bool_decide (id1 ∈ members X) || bool_decide (id2 ∈ members X)).
  - injection E as <-. destruct k as [| k]; simpl in *.
    + injection Hk as ->. eexists. split; [reflexivity | exact Hb].
    + eauto.
  - destruct (join_existing id1 id2 l) as [l' |] eqn:E'; [| discriminate].
    injection E as <-. destruct k as [| k]; simpl in *.
    + injection Hk as ->. eauto.
    + eapply IH; eauto.
Qed.

(** The registry of the failing input arises from the methods themselves:
    sailors 1 and 2 form an alliance, and seven ticks that each draw -5
    bring its strength from 50 to 15, where it is flagged broken. *)
Example broken_pact_arises :
  alliances (_form_alliance (ship_with three_sailors []) 0 1 "identity") = [pact] /\
  alliances (fst (ticks 6 (_form_alliance (ship_with three_sailors []) 0 1 "identity")
                        low_draws))
  = [ {| members := {[1%Z; 2%Z]}; purpose := "Shared identity"; strength := 20;
         created_day := 3; broken := false |} ] /\
  alliances (fst (ticks 7 (_form_alliance (ship_with three_sailors []) 0 1 "identity")
                        low_draws))
  = [broken_pact].
Proof. repeat split; vm_compute; reflexivity. Qed.

(** C6, at the failing input.  The registry holds one alliance, broken,
    with members 1 and 2 and strength 15.  [_form_alliance] between
    sailors 1 and 3 does not skip it: the broken alliance gains member 3
    and its strength becomes 25, while its flag stays set and no live
    alliance is created for the pair. *)
Theorem C6_formation_alters_broken_alliance :
  broken broken_pact = true /\
  exists A',
    alliances (_form_alliance (ship_with three_sailors [broken_pact]) 0 2 "identity")
    = [A'] /\
    broken A' = true /\
    members A' = {[1%Z; 2%Z; 3%Z]} /\
    members A' <> members broken_pact /\
    strength A' == 25 /\
    ~ strength A' == strength broken_pact.
Proof.
  split; [reflexivity |].
  eexists. split; [reflexivity |]. split; [reflexivity |].
  split; [| split; [| split]].
  - apply (bool_decide_unpack _). vm_compute. reflexivity.
  - apply (bool_decide_unpack _). vm_compute. reflexivity.
  - reflexivity.
  - simpl. intros H. lra.
Qed.

End AllianceProperties.

(** ** Mutiny (ship_of_fools.py) *)

Section MutinyProperties.
Import ship_of_fools.

Lemma half_lt (n k : nat) :
  Qltb (inject_Z (Z.of_nat n) / 2) (inject_Z (Z.of_nat k)) = true <-> (n < 2 * k)%nat.
Proof.
  rewrite Qltb_lt. unfold Qlt, Qdiv, Qmult, Qinv, inject_Z. simpl. lia.
Qed.

Lemma drop_own_length {A : Type} (l l' : list A) : drop (length l) (l ++ l') = l'.
Proof. induction l; simpl; auto. Qed.

Lemma map_lookup_penalty (cs : list Character) (i : nat) (c : Character) :
  cs !! i = Some c ->
  map (fun c => if is_mutineer c then penalise c else c) cs !! i
  = Some (if is_mutineer c then penalise c else c).
Proof. intros H. rewrite list_lookup_fmap_Some. eauto. Qed.

(** C2, as the code has it.  The attempt succeeds exactly when the
    characters other than the captain whose trust in the captain is under
    30 outnumber half of all characters aboard, the captain included.  On
    success the captain's authority becomes 0 and, given at least one
    mutineer, the call returns with the heading at 180 (south).  On
    failure the call returns, authority and heading are as before, every
    mutineer has stress 15 higher and influence 10 lower, and every other
    character, the captain among them, is unchanged; no role changes. *)
Theorem C2_mutiny_needs_majority_of_all :
  forall s : Ship,
    let r := _attempt_mutiny s in
    (mutiny_succeeded s <-> majority_of_all s) /\
    (majority_of_all s ->
       captain_authority (fst r) == 0 /\
       characters (fst r) = characters s /\
       (mutineers s <> [] -> snd r = Returned tt /\ heading (fst r) == 180)) /\
    (~ majority_of_all s ->
       snd r = Returned tt /\
       captain_authority (fst r) = captain_authority s /\
       heading (fst r) = heading s /\
       length (characters (fst r)) = length (characters s) /\
       forall (i : nat) (c : Character),
         characters s !! i = Some c ->
         exists c',
           characters (fst r) !! i = Some c' /\
           role c' = role c /\
           (is_mutineer c = true ->
              stress c' == stress c + 15 /\ influence c' == influence c - 10) /\
           (is_mutineer c = false -> c' = c) /\
           (is_captain c = true -> c' = c)).
Proof.
  intros s r. subst r. unfold mutiny_succeeded, majority_of_all, printed_by.
  unfold _attempt_mutiny.
  change (support_count (print (print s MutinyAttempt) (Mutineers (map name (mutineers s)))))
    with (support_count s).
  change (characters (print (print s MutinyAttempt) (Mutineers (map name (mutineers s)))))
    with (characters s).
  destruct (Qltb (inject_Z (Z.of_nat (length (characters s))) / 2)
                 (inject_Z (Z.of_nat (support_count s)))) eqn:E.
  - assert (Hmaj : (length (characters s) < 2 * support_count s)%nat)
      by (apply half_lt; exact E).
    split; [| split].
    + split; [intros _; exact Hmaj | intros _].
      unfold max_by. destruct (mutineers s) as [| m ms]; simpl;
        rewrite <- ?app_assoc, drop_own_length; simpl; tauto.
    + intros _. unfold max_by. destruct (mutineers s) as [| m ms]; simpl.
      * split; [reflexivity |]. split; [reflexivity |]. congruence.
      * split; [reflexivity |]. split; [reflexivity |].
        intros _. split; reflexivity.
    + intros Hn. contradiction.
  - assert (Hmin : ~ (length (characters s) < 2 * support_count s)%nat).
    { intros H. apply half_lt in H. congruence. }
    simpl. split; [| split].
    + split; [| intros H; contradiction].
      rewrite <- !app_assoc, drop_own_length. simpl.
      intros H. exfalso. intuition discriminate.
    + intros H. contradiction.
    + intros _. split; [reflexivity |]. split; [reflexivity |].
      split; [reflexivity |]. split; [apply length_map |].
      intros i c Hc. eexists. split; [apply map_lookup_penalty; exact Hc |].
      destruct (is_mutineer c) eqn:Em.
      * split; [reflexivity |]. split; [intros _; split; reflexivity |].
        split; [discriminate |]. intros Hcap. unfold is_mutineer in Em.
        rewrite Hcap in Em. rewrite andb_false_r in Em. discriminate.
      * split; [reflexivity |]. split; [discriminate |]. split; reflexivity.
Qed.

Lemma filter_length_le {A : Type} (p q : A -> bool) (l : list A) :
  (forall x, In x l -> p x = true -> q x = true) ->
  (length (List.filter p l) <= length (List.filter q l))%nat.
Proof.
  induction l as [| x l IH]; intros H; simpl; [lia |].
  assert (IH' := IH (fun y Hy => H y (or_intror Hy))).
  destruct (p x) eqn:Ep.
  - rewrite (H x (or_introl eq_refl) Ep). simpl. lia.
  - destruct (q x); simpl; lia.
Qed.

(** [simulate_day] attempts a mutiny only when [_check_mutiny_conditions]
    holds; with fewer than three characters in the role of captain the
    attempt then has a mutineer. *)
Lemma mutiny_check_gives_mutineers (s : Ship) :
  _check_mutiny_conditions s = true ->
  (length (List.filter is_captain (characters s)) < 3)%nat ->
  mutineers s <> [].
Proof.
  unfold _check_mutiny_conditions, mutineers.
  destruct (Qltb 40 (captain_authority s)); [discriminate |].
  intros Hc Hcap Hnil. apply andb_true_iff in Hc. destruct Hc as [Hc _].
  apply Nat.leb_le in Hc.
  assert (Hle := filter_length_le
                   (fun c => radical c && Qltb 70 (stress c)) is_captain (characters s)).
  assert (Hall : forall c, In c (characters s) -> is_mutineer c = false).
  { intros c Hin. destruct (is_mutineer c) eqn:E; [| reflexivity].
    assert (Hm : In c (List.filter is_mutineer (characters s)))
      by (apply filter_In; auto).
    rewrite Hnil in Hm. destruct Hm. }
  enough ((length (List.filter (fun c => radical c && Qltb 70 (stress c)) (characters s))
           <= length (List.filter is_captain (characters s)))%nat) by lia.
  apply Hle. intros c Hin Hr. apply andb_true_iff in Hr. destruct Hr as [Hr _].
  specialize (Hall c Hin). unfold is_mutineer in Hall. rewrite Hr in Hall.
  simpl in Hall. now apply negb_false_iff in Hall.
Qed.

Lemma C2_witness :
  snd (_attempt_mutiny (ship_with hostile_crew [])) = Returned tt /\
  heading (fst (_attempt_mutiny (ship_with hostile_crew []))) == 180.
Proof.
  destruct (C2_mutiny_needs_majority_of_all (ship_with hostile_crew []))
    as (_ & Hwin & _).
  destruct Hwin as (_ & _ & Hsouth).
  - unfold majority_of_all. vm_compute. lia.
  - apply Hsouth. vm_compute. discriminate.
Defined.

(** C2 as stated fails: of the three characters other than the captain,
    two distrust the captain, a majority among them, yet the attempt
    fails because two is not more than half of the four aboard. *)
Lemma C2_counterexample :
  ~ (mutiny_succeeded (ship_with split_crew [])
     <-> majority_of_non_incumbents (ship_with split_crew [])).
Proof.
  intros [_ H].
  assert (Hmaj : majority_of_non_incumbents (ship_with split_crew []))
    by (unfold majority_of_non_incumbents; vm_compute; lia).
  specialize (H Hmaj). unfold mutiny_succeeded in H.
  vm_compute in H. intuition discriminate.
Qed.

End MutinyProperties.

(** ** Succession (src/systems/leadership_system.py) *)

Section SuccessionProperties.
Import leadership_system.

Lemma max_by_In {A : Type} (key : A -> Q) (l : list A) (x : A) :
  max_by key l = Returned x -> In x l.
Proof.
  destruct l as [| a l]; simpl; [discriminate |].
  intros [= <-]. revert a.
  induction l as [| b l IH]; intros a; simpl; [now left |].
  destruct (IH (if Qltb (key a) (key b) then b else a)) as [H | H].
  - destruct (Qltb (key a) (key b)); [right; left | left]; exact H.
  - right. right. exact H.
Qed.

Section AnyKeyClass.
Variable hash_of : Character -> outcome Z.
Variable eq_of : Character -> Character -> bool.

Lemma objdict_store_keys (cs : list Character) (r : nat) (h : Z) (v : Q)
  (d : list (nat * Z * Q)) (x : nat) :
  In x (objdict_keys (objdict_store eq_of cs r h v d)) ->
  In x (objdict_keys d) \/ x = r.
Proof.
  induction d as [| e d IH]; simpl.
  - intros [<- | []]. now right.
  - destruct (same_key eq_of cs r h e); simpl.
    + intros [H | H]; left; [left | right]; exact H.
    + intros [H | H]; [left; left; exact H |].
      destruct (IH H) as [H' | H']; [left; right; exact H' | right; exact H'].
Qed.

Lemma build_power_scores_keys (cs : list Character) (candidates : list nat) :
  forall (d d' : list (nat * Z * Q)) (x : nat),
    build_power_scores hash_of eq_of cs candidates d = Returned d' ->
    In x (objdict_keys d') -> In x (objdict_keys d) \/ In x candidates.
Proof.
  induction candidates as [| r rest IH]; intros d d' x; simpl.
  - intros [= <-]. now left.
  - destruct (cs !! r) as [char |] eqn:Er.
    + unfold objdict_set. rewrite Er.
      destruct (hash_of char) as [h | e]; simpl; [| discriminate].
      intros Hb Hx. destruct (IH _ _ _ Hb Hx) as [H | H]; [| right; right; exact H].
      destruct (objdict_store_keys _ _ _ _ _ _ H) as [H' | ->];
        [left; exact H' | right; left; reflexivity].
    + intros Hb Hx. destruct (IH _ _ _ Hb Hx) as [H | H];
        [left; exact H | right; right; exact H].
Qed.

Lemma keyed_scores_keys (cs : list Character) (d : list (nat * Z * Q)) :
  forall (keys : list nat) (scored : list (nat * Q)),
    keyed_scores hash_of eq_of cs d keys = Returned scored ->
    map fst scored = keys.
Proof.
  induction keys as [| r rest IH]; intros scored; simpl.
  - now intros [= <-].
  - destruct (objdict_get hash_of eq_of cs r d) as [[q |] | e]; simpl; try discriminate.
    destruct (keyed_scores hash_of eq_of cs d rest) as [tl | e] eqn:E; simpl;
      [| discriminate].
    intros [= <-]. simpl. f_equal. now apply IH.
Qed.

(** Whatever the key class, a call either leaves crew, groups and
    captaincy untouched, or the captain's trust is under 40 and a
    challenger whose influence exceeds the captain's influence plus trust
    takes the role. *)
Lemma check_with_cases (s : LeadershipSystem) (rc : nat) (cap : Character) :
  captain s = Some rc ->
  characters s !! rc = Some cap ->
  let s' := fst (check_for_leadership_change_with hash_of eq_of s) in
  same_crew s s' \/
  exists (rn : nat) (new_leader : Character),
    In rn (candidates_of (characters s) (groups_of s) cap) /\
    characters s !! rn = Some new_leader /\
    trust_in_captain cap < 40 /\
    influence cap + trust_in_captain cap < influence new_leader /\
    characters s' =
      alter (set_role "captain") rn (alter (set_role "deposed") rc (characters s)) /\
    captain s' = Some rn /\
    snd (check_for_leadership_change_with hash_of eq_of s) = Returned tt.
Proof.
  intros Hc Hcap. unfold check_for_leadership_change_with. rewrite Hc, Hcap.
  destruct (Qltb (trust_in_captain cap) 40) eqn:Et; [| left; repeat split].
  simpl.
  destruct (candidates_of (characters s) (groups_of s) cap) as [| r0 cands] eqn:Ec;
    [left; repeat split |].
  destruct (build_power_scores hash_of eq_of (characters s) (r0 :: cands) [])
    as [[| e0 d] | e] eqn:Eb; [left; repeat split | | left; repeat split].
  destruct (keyed_scores hash_of eq_of (characters s) (e0 :: d)
              (objdict_keys (e0 :: d))) as [scored | e] eqn:Ek;
    [| left; repeat split].
  destruct (max_by snd scored) as [[rn q] | e] eqn:Em; [| left; repeat split].
  destruct (characters s !! rn) as [new_leader |] eqn:En; [| left; repeat split].
  destruct (Qltb (influence cap + trust_in_captain cap) (influence new_leader)) eqn:Ei;
    [| left; repeat split].
  right. exists rn, new_leader.
  split; [| split; [exact En | split; [now apply Qltb_lt |
           split; [now apply Qltb_lt | repeat split]]]].
  apply max_by_In in Em.
  apply (in_map fst) in Em. simpl in Em.
  rewrite (keyed_scores_keys _ _ _ _ Ek) in Em.
  destruct (build_power_scores_keys _ _ _ _ _ Eb Em) as [[] | H]. exact H.
Qed.

End AnyKeyClass.

Lemma candidates_of_valid (cs : list Character) (gs : list Group) (cap : Character) (r : nat) :
  In r (candidates_of cs gs cap) -> exists c, cs !! r = Some c.
Proof.
  unfold candidates_of. rewrite in_flat_map. intros (g & _ & Hr).
  destruct (spokesperson g) as [r' |]; [| contradiction].
  destruct (cs !! r') as [sp |] eqn:E; [| contradiction].
  destruct (negb (id sp =? id cap)%Z); [| contradiction].
  destruct Hr as [<- | []]. eauto.
Qed.

(** On the class as declared, building [power_scores] from a non-empty
    list of candidates raises [TypeError], and nothing has changed but
    the first printed line. *)
Lemma check_raises_on_unhashable_key (s : LeadershipSystem) (rc : nat) (cap : Character) :
  captain s = Some rc ->
  characters s !! rc = Some cap ->
  trust_in_captain cap < 40 ->
  candidates_of (characters s) (groups_of s) cap <> [] ->
  check_for_leadership_change s = (print s [AuthorityIsWeak], Raised TypeError).
Proof.
  intros Hc Hcap Ht Hne.
  unfold check_for_leadership_change, check_for_leadership_change_with.
  rewrite Hc, Hcap. apply Qltb_lt in Ht. rewrite Ht. simpl.
  destruct (candidates_of (characters s) (groups_of s) cap) as [| r0 cands] eqn:Ec;
    [contradiction |].
  destruct (candidates_of_valid (characters s) (groups_of s) cap r0) as [c0 Hr0].
  { rewrite Ec. now left. }
  simpl. rewrite Hr0. unfold objdict_set. rewrite Hr0. reflexivity.
Qed.

(** With a key class that can be hashed, the same method deposes the
    captain of the scenario once the challenger's influence, 90, exceeds
    50 + 35. *)
Example check_deposes_with_hashable_key :
  let s' := fst (check_for_leadership_change_with hash_by_id Character_eq (contest 90)) in
  map role (characters s') = ["deposed"; "captain"]%string /\ captain s' = Some 1%nat.
Proof. split; reflexivity. Qed.

(** C3.  The captain of the scenario, trust 35 and influence 50, is
    challenged by a spokesperson of influence 90, which exceeds 50 + 35.
    The check does not depose the captain: it raises [TypeError] while
    it builds [power_scores], before the margin is compared, and both
    roles are what they were.  The method's own success branch, reached
    with a key class that can be hashed, is the one the claim describes
    ([check_deposes_with_hashable_key]). *)
Theorem C3_challenge_raises_before_the_margin_test :
  influence weak_captain + trust_in_captain weak_captain < 90 /\
  check_for_leadership_change (contest 90)
  = (print (contest 90) [AuthorityIsWeak], Raised TypeError) /\
  map role (characters (fst (check_for_leadership_change (contest 90))))
  = ["captain"; "spokesperson"]%string /\
  captain (fst (check_for_leadership_change (contest 90))) = Some 0%nat.
Proof.
  split; [reflexivity |]. split.
  - apply (check_raises_on_unhashable_key (contest 90) 0 weak_captain).
    + reflexivity.
    + reflexivity.
    + reflexivity.
    + vm_compute. discriminate.
  - split; reflexivity.
Qed.

(** After the failed challenge of the scenario, run with a key class
    that can be hashed, the challenger has the stress and the influence
    it had before. *)
Lemma failed_challenge_has_no_penalty :
  ~ challengers_penalised (contest 60)
      (fst (check_for_leadership_change_with hash_by_id Character_eq (contest 60)))
      weak_captain.
Proof.
  intros H.
  destruct (H 1%nat (person 2 "Spokesperson" "spokesperson" 70 60)
              (person 2 "Spokesperson" "spokesperson" 70 60)) as [Hs | Hi].
  - vm_compute. now left.
  - reflexivity.
  - reflexivity.
  - vm_compute in Hs. discriminate.
  - vm_compute in Hi. discriminate.
Qed.

(** The penalty is absent from the method itself, not only from the run
    that stops at the unhashable key. *)
Lemma no_penalty_with_hashable_key :
  fst (check_for_leadership_change_with hash_by_id Character_eq (contest 60))
  = print (contest 60) [AuthorityIsWeak; NoSingleLeader].
Proof. reflexivity. Qed.

End SuccessionProperties.

(** ** The relationship graph (social_system.py) *)

Section DictSetFacts.
Context {V : Type}.
Implicit Types (d : list (string * V)) (k : string).

Lemma dict_get_set_same k (v : V) d : dict_get k (dict_set k v d) = Some v.
Proof.
  induction d as [| [k' v'] d IH]; simpl.
  - now rewrite String.eqb_refl.
  - destruct (String.eqb_spec k k') as [-> | Hne]; simpl.
    + now rewrite String.eqb_refl.
    + destruct (String.eqb_spec k k'); [contradiction | exact IH].
Qed.

Lemma dict_get_set_other k k' (v : V) d :
  k <> k' -> dict_get k' (dict_set k v d) = dict_get k' d.
Proof.
  intros Hne. induction d as [| [k0 v0] d IH]; simpl.
  - destruct (String.eqb_spec k' k); [congruence | reflexivity].
  - destruct (String.eqb_spec k k0) as [-> | Hne0]; simpl.
    + destruct (String.eqb_spec k' k0); [congruence | reflexivity].
    + destruct (String.eqb_spec k' k0); [reflexivity | exact IH].
Qed.

Lemma dict_set_keys k (v : V) d x :
  In x (map fst (dict_set k v d)) <-> x = k \/ In x (map fst d).
Proof.
  induction d as [| [k' v'] d IH]; simpl.
  - intuition.
  - destruct (String.eqb_spec k k') as [-> | Hne]; simpl.
    + intuition.
    + rewrite IH. intuition.
Qed.

Lemma dict_set_NoDup k (v : V) d :
  List.NoDup (map fst d) -> List.NoDup (map fst (dict_set k v d)).
Proof.
  induction d as [| [k' v'] d IH]; simpl; intros Hnd.
  - constructor; [intros [] | constructor].
  - inversion Hnd as [| ? ? Hk Hrest]; subst.
    destruct (String.eqb_spec k k') as [-> | Hne]; simpl.
    + constructor; assumption.
    + constructor; [| now apply IH].
      rewrite dict_set_keys. intros [-> | H]; [congruence | contradiction].
Qed.

Lemma dict_set_fresh k (v : V) d :
  ~ In k (map fst d) -> dict_set k v d = d ++ [(k, v)].
Proof.
  induction d as [| [k' v'] d IH]; simpl; intros Hn; [reflexivity |].
  destruct (String.eqb_spec k k') as [-> | Hne].
  - exfalso. apply Hn. now left.
  - f_equal. apply IH. intros H. apply Hn. now right.
Qed.

Lemma dict_get_lookup_NoDup d (i : nat) k (v : V) :
  List.NoDup (map fst d) -> d !! i = Some (k, v) -> dict_get k d = Some v.
Proof.
  revert i. induction d as [| [k' v'] d IH]; intros i Hnd Hi; [discriminate |].
  inversion Hnd as [| ? ? Hk Hrest]; subst. simpl.
  destruct i as [| i]; simpl in Hi.
  - injection Hi as -> ->. now rewrite String.eqb_refl.
  - destruct (String.eqb_spec k k') as [-> | Hne].
    + exfalso. apply Hk. apply in_map_iff. exists (k', v). split; [reflexivity |].
      apply list_elem_of_In. eapply list_elem_of_lookup_2. exact Hi.
    + eapply IH; eauto.
Qed.

End DictSetFacts.

Section GraphProperties.
Import character social_system.

Lemma clamp01_range (x : Q) : 0 <= py_max 0 (py_min 1 x) <= 1.
Proof.
  unfold py_max, py_min.
  destruct (Qltb x 1) eqn:E1.
  - apply Qltb_lt in E1. destruct (Qltb 0 x) eqn:E2.
    + apply Qltb_lt in E2. lra.
    + lra.
  - destruct (Qltb 0 1) eqn:E2; lra.
Qed.

Lemma floor0_pos_or_zero (x : Q) : py_max 0 x = 0 \/ 0 < py_max 0 x.
Proof.
  unfold py_max. destruct (Qltb 0 x) eqn:E; [right | now left].
  now apply Qltb_lt.
Qed.

Lemma floor0_zero (x : Q) : x <= 0 -> py_max 0 x = 0.
Proof.
  intros H. unfold py_max. destruct (Qltb 0 x) eqn:E; [| reflexivity].
  apply Qltb_lt in E. lra.
Qed.

Lemma floor0_upper (x : Q) : x <= 1 -> 0 <= py_max 0 x <= 1.
Proof.
  intros H. unfold py_max. destruct (Qltb 0 x) eqn:E; [| lra].
  apply Qltb_lt in E. lra.
Qed.

Lemma find_app_none {A : Type} (f : A -> bool) (l l' : list A) :
  find f l = None -> find f (l ++ l') = find f l'.
Proof.
  induction l as [| x l IH]; simpl; [reflexivity |].
  destruct (f x); [discriminate | exact IH].
Qed.

Lemma joins_refl (u v : string) (d : EdgeData) : joins u v (u, v, d) = true.
Proof. simpl. now rewrite !String.eqb_refl. Qed.

Lemma joins_sym (u v : string) (e : string * string * EdgeData) :
  joins u v e = joins v u e.
Proof.
  destruct e as [[a b] d]. simpl.
  destruct (String.eqb u a), (String.eqb v b), (String.eqb u b), (String.eqb v a);
    reflexivity.
Qed.

(** Two pairs that name one stored edge name the same edges. *)
Lemma joins_same_pair (u v a b : string) (d : EdgeData) (e : string * string * EdgeData) :
  joins u v (a, b, d) = true -> joins a b e = joins u v e.
Proof.
  destruct e as [[a' b'] d']. simpl.
  destruct (String.eqb_spec u a), (String.eqb_spec v b),
           (String.eqb_spec u b), (String.eqb_spec v a); subst; simpl;
    try discriminate; intros _;
    repeat match goal with
           | |- context [String.eqb ?x ?y] => destruct (String.eqb_spec x y); subst
           end; simpl; congruence.
Qed.

Lemma edge_data_found (g : Graph) (u v : string) (d : EdgeData) :
  edge_data g u v = Some d ->
  exists a b, In (a, b, d) (edges g) /\ joins u v (a, b, d) = true.
Proof.
  unfold edge_data. destruct (find (joins u v) (edges g)) as [[[a b] d'] |] eqn:E;
    [| discriminate].
  intros [= <-]. apply find_some in E. exists a, b. exact E.
Qed.

Lemma edge_data_none (g : Graph) (u v : string) :
  edge_data g u v = None <-> forall e, In e (edges g) -> joins u v e = false.
Proof.
  unfold edge_data. split.
  - destruct (find (joins u v) (edges g)) eqn:E; [discriminate |].
    intros _ e He. exact (find_none _ _ E e He).
  - intros H. destruct (find (joins u v) (edges g)) as [e |] eqn:E; [| reflexivity].
    apply find_some in E. destruct E as [He Hj]. rewrite (H e He) in Hj. discriminate.
Qed.

Lemma alter_edge_Forall (P : string * string * EdgeData -> Prop)
  (f : EdgeData -> EdgeData) (u v : string) (es : list (string * string * EdgeData)) :
  (forall e, P e -> P (fst e, f (snd e))) ->
  Forall P es -> Forall P (alter_edge f u v es).
Proof.
  intros Hf H. induction H as [| e es He Hes IH]; simpl; [constructor |].
  destruct (joins u v e); constructor; auto.
Qed.

Lemma remove_edges_spec (pairs : list (string * string))
  (es : list (string * string * EdgeData)) (e : string * string * EdgeData) :
  In e (fold_left remove_edge pairs es) <->
  In e es /\ forall p, In p pairs -> joins (fst p) (snd p) e = false.
Proof.
  revert es. induction pairs as [| p pairs IH]; intros es; simpl.
  - intuition.
  - rewrite IH. unfold remove_edge at 1. rewrite filter_In, negb_true_iff.
    split.
    + intros [[He Hj] Hrest]. split; [exact He |].
      intros q [<- | Hq]; [exact Hj | now apply Hrest].
    + intros [He Hall]. split; [split; [exact He |] |].
      * apply Hall. now left.
      * intros q Hq. apply Hall. now right.
Qed.

Lemma doomed_spec (es : list (string * string * EdgeData)) (a b : string) (d : EdgeData) :
  In (a, b, d) es -> weight d == 0 -> In (a, b) (edges_to_remove es).
Proof.
  intros He Hz. unfold edges_to_remove. apply in_flat_map.
  exists (a, b, d). split; [exact He |].
  apply Qeq_bool_iff in Hz. rewrite Hz. now left.
Qed.

Lemma update_relationship_bounds (s : SocialSystem) (c1 c2 : Character) (it : string) :
  strengths_in_unit (social_graph s) ->
  strengths_in_unit (social_graph (fst (update_relationship s c1 c2 it))).
Proof.
  intros H. unfold update_relationship.
  destruct (if String.eqb it "cooperation" then (2 # 10, Some FRIENDSHIP)
            else if String.eqb it "conflict" then (- (3 # 10), Some CONFLICT)
                 else (0, None)) as [change rtc].
  destruct (edge_data (social_graph s) (name c1) (name c2)) as [d |] eqn:E.
  - assert (H1 : Forall (fun e : string * string * EdgeData => 0 <= weight (snd e) <= 1)
                   (alter_edge
                      (fun d0 => {| weight := py_max 0 (py_min 1 (weight d + change));
                                    rel_type := rel_type d0 |})
                      (name c1) (name c2) (edges (social_graph s)))).
    { apply alter_edge_Forall; [| exact H]. intros e _. simpl. apply clamp01_range. }
    destruct rtc as [t |]; [| exact H1].
    destruct (RelationshipType_eqb (rel_type d) NEUTRAL); [| exact H1].
    unfold strengths_in_unit. simpl.
    apply alter_edge_Forall; [| exact H1]. intros e He. exact He.
  - unfold add_relationship. simpl.
    destruct (negb (has_node (social_graph s) (name c1))
              || negb (has_node (social_graph s) (name c2))); [exact H |].
    unfold strengths_in_unit. simpl. unfold has_edge. rewrite E.
    apply Forall_app. split; [exact H |].
    constructor; [| constructor]. simpl. apply clamp01_range.
Qed.

Lemma decay_bounds (s : SocialSystem) (rate : Q) :
  0 <= rate ->
  strengths_in_unit (social_graph s) ->
  strengths_in_unit (social_graph (fst (decay_relationships s rate))).
Proof.
  intros Hr H. unfold strengths_in_unit, decay_relationships. simpl.
  apply List.Forall_forall. intros e He. apply remove_edges_spec in He.
  destruct He as [He _]. apply in_map_iff in He.
  destruct He as ([[a b] d] & <- & Hin). simpl.
  unfold strengths_in_unit in H. rewrite List.Forall_forall in H.
  specialize (H _ Hin). simpl in H. apply floor0_upper. lra.
Qed.

Lemma decay_positive (s : SocialSystem) (rate : Q) :
  Forall (fun e : string * string * EdgeData => 0 < weight (snd e))
         (edges (social_graph (fst (decay_relationships s rate)))).
Proof.
  unfold decay_relationships. simpl.
  apply List.Forall_forall. intros [[a b] d] He. apply remove_edges_spec in He.
  destruct He as [He Hkeep]. simpl.
  assert (Hd : weight d = 0 \/ 0 < weight d).
  { apply in_map_iff in He. destruct He as ([[a' b'] d'] & Heq & _).
    simpl in Heq. injection Heq as <- <- <-. simpl. apply floor0_pos_or_zero. }
  destruct Hd as [Hz | Hp]; [exfalso | exact Hp].
  assert (Hdoom : In (a, b) (edges_to_remove (map (decay_edge rate) (edges (social_graph s)))))
    by (eapply doomed_spec; [exact He | rewrite Hz; reflexivity]).
  specialize (Hkeep _ Hdoom). change (joins a b (a, b, d) = false) in Hkeep.
  rewrite joins_refl in Hkeep. discriminate.
Qed.

Lemma decay_removes (s : SocialSystem) (rate : Q) (u v : string) (d : EdgeData) :
  edge_data (social_graph s) u v = Some d ->
  weight d - rate <= 0 ->
  edge_data (social_graph (fst (decay_relationships s rate))) u v = None.
Proof.
  intros He Hz. apply edge_data_none. intros e Hin.
  unfold decay_relationships in Hin. simpl in Hin.
  apply remove_edges_spec in Hin. destruct Hin as [_ Hkeep].
  destruct (edge_data_found _ _ _ _ He) as (a & b & Hab & Hj).
  assert (Hdoom : In (a, b) (edges_to_remove (map (decay_edge rate) (edges (social_graph s))))).
  { apply (doomed_spec _ a b {| weight := py_max 0 (weight d - rate); rel_type := rel_type d |}).
    - apply in_map_iff. exists (a, b, d). split; [reflexivity | exact Hab].
    - simpl. rewrite floor0_zero by exact Hz. reflexivity. }
  specialize (Hkeep _ Hdoom). change (joins a b e = false) in Hkeep.
  rewrite <- (joins_same_pair u v a b d e Hj). exact Hkeep.
Qed.

Lemma neighbors_spec (g : Graph) (n v : string) :
  In v (neighbors g n) <-> exists e, In e (edges g) /\ joins n v e = true.
Proof.
  unfold neighbors. rewrite in_flat_map. split.
  - intros ([[a b] d] & He & Hv). exists (a, b, d). split; [exact He |]. simpl.
    destruct (String.eqb_spec a n) as [-> | Hna].
    + destruct Hv as [<- | []]. now rewrite !String.eqb_refl.
    + destruct (String.eqb_spec b n) as [-> | Hnb]; [| contradiction].
      destruct Hv as [<- | []]. rewrite !String.eqb_refl. apply orb_true_r.
  - intros ([[a b] d] & He & Hj). exists (a, b, d). split; [exact He |].
    simpl in Hj. apply orb_true_iff in Hj.
    destruct Hj as [Hj | Hj]; apply andb_true_iff in Hj; destruct Hj as [H1 H2];
      apply String.eqb_eq in H1; apply String.eqb_eq in H2.
    + destruct (String.eqb_spec a n); [left; congruence | congruence].
    + destruct (String.eqb_spec a n); [left; congruence |].
      destruct (String.eqb_spec b n); [left; congruence | congruence].
Qed.

Lemma neighbors_edge_data (g : Graph) (n v : string) :
  In v (neighbors g n) <-> exists d, edge_data g n v = Some d.
Proof.
  rewrite neighbors_spec. split.
  - intros (e & He & Hj). destruct (edge_data g n v) as [d |] eqn:E; [eauto |].
    rewrite edge_data_none in E. rewrite (E e He) in Hj. discriminate.
  - intros (d & Hd). destruct (edge_data_found _ _ _ _ Hd) as (a & b & Hin & Hj). eauto.
Qed.

Lemma relationships_of_spec (g : Graph) (n : string) (nbrs : list string) :
  forall acc : list (string * Relationship),
    (forall v, In v nbrs -> exists d, edge_data g n v = Some d) ->
    List.NoDup (map fst acc) ->
    exists rels,
      relationships_of g n nbrs acc = Returned rels /\
      List.NoDup (map fst rels) /\
      (forall x, In x (map fst rels) <-> In x (map fst acc) \/ In x nbrs) /\
      (forall v d, In v nbrs -> edge_data g n v = Some d ->
                   dict_get v rels = Some (relationship_of d)) /\
      (forall v, ~ In v nbrs -> dict_get v rels = dict_get v acc).
Proof.
  induction nbrs as [| w nbrs IH]; intros acc Hedges Hnd; simpl.
  - exists acc. split; [reflexivity |]. split; [exact Hnd |].
    split; [intros x; tauto |]. split; [intros v d [] | reflexivity].
  - destruct (Hedges w) as [dw Hw]; [now left |]. rewrite Hw.
    destruct (IH (dict_set w (relationship_of dw) acc)) as (rels & Hr & Hnd' & Hk & Hv & Ho).
    { intros v Hv. apply Hedges. now right. }
    { now apply dict_set_NoDup. }
    exists rels. split; [exact Hr |]. split; [exact Hnd' |]. split; [| split].
    + intros x. rewrite Hk, dict_set_keys. intuition.
    + intros v d Hin Hd.
      destruct (in_dec string_dec v nbrs) as [Hvn | Hvn]; [now apply Hv |].
      destruct Hin as [-> | Hin]; [| contradiction].
      rewrite Ho by exact Hvn. rewrite dict_get_set_same. congruence.
    + intros v Hn. rewrite Ho by tauto.
      apply dict_get_set_other. intros ->. apply Hn. now left.
Qed.

Lemma get_relationships_skips_missing_edge (s : SocialSystem) (a b : string)
  (rels : list (string * Relationship)) :
  edge_data (social_graph s) a b = None ->
  snd (get_relationships s a) = Returned rels -> dict_get b rels = None.
Proof.
  intros Hab. unfold get_relationships.
  destruct (negb (has_node (social_graph s) a)); simpl.
  - intros [= <-]. reflexivity.
  - intros Hr.
    destruct (relationships_of_spec (social_graph s) a (neighbors (social_graph s) a) [])
      as (rels' & Hr' & _ & Hk & _).
    + intros w Hw. now apply neighbors_edge_data.
    + constructor.
    + rewrite Hr in Hr'. injection Hr' as <-.
      apply dict_get_not_in. rewrite Hk. intros [[] | Hn].
      apply neighbors_edge_data in Hn. destruct Hn as [d' Hd']. congruence.
Qed.

(** C1, as the code has it.  Starting from a graph whose strengths lie in
    [0,1]: after [update_relationship], on an existing or a missing edge
    and for any interaction type, every strength lies in [0,1]; after
    [decay_relationships] with a non-negative rate every strength lies in
    [0,1]; after [decay_relationships] at any rate every remaining
    strength is strictly positive, so no edge of strength 0 is left; an
    edge whose strength does not exceed the rate is gone after the decay,
    for [has_edge] and for [get_relationships] of either endpoint.  A
    'conflict' between two nodes with no edge adds an edge of type
    conflict and strength 0, which stays in the graph. *)
Theorem C1_strengths_bounded_and_decay_prunes :
  forall s : SocialSystem,
    strengths_in_unit (social_graph s) ->
    (forall (c1 c2 : Character) (interaction_type : string),
        strengths_in_unit
          (social_graph (fst (update_relationship s c1 c2 interaction_type)))) /\
    (forall rate : Q,
        0 <= rate ->
        strengths_in_unit (social_graph (fst (decay_relationships s rate)))) /\
    (forall rate : Q,
        no_zero_edge (social_graph (fst (decay_relationships s rate))) /\
        Forall (fun e : string * string * EdgeData => 0 < weight (snd e))
               (edges (social_graph (fst (decay_relationships s rate))))) /\
    (forall (rate : Q) (u v : string) (d : EdgeData),
        edge_data (social_graph s) u v = Some d ->
        weight d <= rate ->
        let s' := fst (decay_relationships s rate) in
        has_edge (social_graph s') u v = false /\
        has_edge (social_graph s') v u = false /\
        (forall rels, snd (get_relationships s' u) = Returned rels ->
                      dict_get v rels = None) /\
        (forall rels, snd (get_relationships s' v) = Returned rels ->
                      dict_get u rels = None)) /\
    (forall c1 c2 : Character,
        has_node (social_graph s) (name c1) = true ->
        has_node (social_graph s) (name c2) = true ->
        has_edge (social_graph s) (name c1) (name c2) = false ->
        exists d,
          edge_data (social_graph (fst (update_relationship s c1 c2 "conflict")))
                    (name c1) (name c2) = Some d /\
          weight d == 0 /\ rel_type d = CONFLICT).
Proof.
  intros s Hunit. split; [| split; [| split; [| split]]].
  - intros c1 c2 it. now apply update_relationship_bounds.
  - intros rate Hr. now apply decay_bounds.
  - intros rate. split; [| apply decay_positive].
    unfold no_zero_edge. eapply Forall_impl; [apply decay_positive |].
    intros e He Hz. simpl in He. rewrite Hz in He. lra.
  - intros rate u v d Hd Hle s'.
    assert (Huv : edge_data (social_graph s') u v = None)
      by (apply (decay_removes s rate u v d Hd); lra).
    assert (Hvu : edge_data (social_graph s') v u = None).
    { apply edge_data_none. intros e He. rewrite joins_sym.
      rewrite edge_data_none in Huv. now apply Huv. }
    unfold has_edge. rewrite Huv, Hvu.
    split; [reflexivity |]. split; [reflexivity |].
    split; intros rels; now apply get_relationships_skips_missing_edge.
  - intros c1 c2 Hn1 Hn2 He. unfold has_edge in He.
    destruct (edge_data (social_graph s) (name c1) (name c2)) as [d |] eqn:E;
      [discriminate |].
    unfold update_relationship.
    cbn -[edge_data add_relationship py_max py_min]. rewrite E.
    unfold add_relationship.
    cbn -[edge_data has_node add_edge py_max py_min]. rewrite Hn1, Hn2.
    cbn -[edge_data py_max py_min add_edge].
    exists {| weight := py_max 0 (py_min 1 (- (3 # 10))); rel_type := CONFLICT |}.
    split; [| split; reflexivity].
    unfold add_edge, has_edge. rewrite E.
    unfold edge_data in *. cbn [edges].
    destruct (find (joins (name c1) (name c2)) (edges (social_graph s))) as [e |] eqn:Ef;
      [discriminate |].
    rewrite (find_app_none _ _ _ Ef). simpl. rewrite !String.eqb_refl. reflexivity.
Qed.

Lemma C1_witness :
  strengths_in_unit
    (social_graph (fst (update_relationship two_acquaintances ann bob "conflict"))) /\
  no_zero_edge (social_graph (fst (decay_relationships two_acquaintances (1 # 100)))).
Proof.
  assert (H0 : strengths_in_unit (social_graph two_acquaintances)).
  { unfold strengths_in_unit. vm_compute edges. repeat constructor; discriminate. }
  destruct (C1_strengths_bounded_and_decay_prunes two_acquaintances H0)
    as (Hup & _ & Hdecay & _).
  split; [apply Hup | apply Hdecay].
Defined.

(** C1 as stated fails: Ann and Bob have no edge; after one 'conflict'
    the graph holds an edge between them, and its strength is 0. *)
Lemma C1_counterexample :
  has_edge (social_graph (fst (update_relationship two_strangers ann bob "conflict")))
           "Ann" "Bob" = true /\
  ~ no_zero_edge (social_graph (fst (update_relationship two_strangers ann bob "conflict"))).
Proof.
  split; [reflexivity |].
  unfold no_zero_edge. vm_compute edges. intros H.
  inversion H as [| e es Hz _]; subst. apply Hz. reflexivity.
Qed.

End GraphProperties.

Section QueryProperties.
Import character social_system.

(** C8, as the code has it.  When either name is not a node,
    [add_relationship] emits one record at level ERROR and returns
    normally; no exception reaches the caller and the graph is unchanged.
    When both names are nodes the call returns normally as well. *)
Theorem C8_add_relationship_logs_and_returns :
  forall (s : SocialSystem) (c1 c2 : Character) (w : Q) (t : RelationshipType),
    snd (add_relationship s c1 c2 w t) = Returned tt /\
    (has_node (social_graph s) (name c1) = false \/
     has_node (social_graph s) (name c2) = false ->
     social_graph (fst (add_relationship s c1 c2 w t)) = social_graph s /\
     log (fst (add_relationship s c1 c2 w t)) = log s ++ [ERROR]).
Proof.
  intros s c1 c2 w t. unfold add_relationship.
  destruct (has_node (social_graph s) (name c1)),
           (has_node (social_graph s) (name c2)); simpl;
    (split; [reflexivity |]); intros [H | H]; try discriminate; split; reflexivity.
Qed.

Lemma C8_witness :
  social_graph (fst (add_relationship SocialSystem_init ann bob (1 # 2) NEUTRAL))
  = social_graph SocialSystem_init /\
  log (fst (add_relationship SocialSystem_init ann bob (1 # 2) NEUTRAL))
  = log SocialSystem_init ++ [ERROR].
Proof.
  apply (C8_add_relationship_logs_and_returns SocialSystem_init ann bob (1 # 2) NEUTRAL).
  left. reflexivity.
Defined.

(** C8 as stated fails: on the empty graph neither Ann nor Bob is a node,
    and the call does not raise [NotFoundError]; it returns. *)
Lemma C8_counterexample :
  has_node (social_graph SocialSystem_init) (name ann) = false /\
  snd (add_relationship SocialSystem_init ann bob (1 # 2) NEUTRAL) <> Raised NotFoundError.
Proof. split; [reflexivity | discriminate]. Qed.

Lemma joins_iff (u v a b : string) (d : EdgeData) :
  joins u v (a, b, d) = true <-> (a = u /\ b = v) \/ (a = v /\ b = u).
Proof.
  unfold joins. rewrite orb_true_iff, !andb_true_iff, !String.eqb_eq.
  intuition congruence.
Qed.

(** C10.  For a name that is not a node, [get_relationships] returns the
    empty mapping without raising and leaves the graph as it was.  For a
    node it returns, without raising and without touching the state, a
    mapping whose keys are exactly the node's neighbours, each once: the
    names at the other end of an edge of the graph that has the node at
    one end.  Its value for a neighbour carries the strength of the
    edge to that neighbour and, as type, the string of that edge's
    relationship type: friendship, conflict, romantic, neutral or
    alliance. *)
Theorem C10_get_relationships_is_total :
  forall (s : SocialSystem) (n : string),
    (has_node (social_graph s) n = false ->
     snd (get_relationships s n) = Returned [] /\
     social_graph (fst (get_relationships s n)) = social_graph s) /\
    (has_node (social_graph s) n = true ->
     exists rels,
       get_relationships s n = (s, Returned rels) /\
       List.NoDup (map fst rels) /\
       (forall v, In v (map fst rels) <-> In v (neighbors (social_graph s) n)) /\
       (forall v, In v (map fst rels) <->
          exists a b d,
            In (a, b, d) (edges (social_graph s)) /\
            ((a = n /\ b = v) \/ (a = v /\ b = n))) /\
       (forall v, In v (neighbors (social_graph s) n) ->
          exists d,
            edge_data (social_graph s) n v = Some d /\
            (exists a b,
               In (a, b, d) (edges (social_graph s)) /\
               ((a = n /\ b = v) \/ (a = v /\ b = n))) /\
            dict_get v rels =
            Some {| strength := weight d;
                    type := match rel_type d with
                            | FRIENDSHIP => "friendship"
                            | CONFLICT => "conflict"
                            | ROMANTIC => "romantic"
                            | NEUTRAL => "neutral"
                            | ALLIANCE => "alliance"
                            end |})).
Proof.
  intros s n. unfold get_relationships. split; intros Hn; rewrite Hn; simpl.
  - split; reflexivity.
  - destruct (relationships_of_spec (social_graph s) n (neighbors (social_graph s) n) [])
      as (rels & Hr & Hnd & Hk & Hv & _).
    + intros w Hw. now apply neighbors_edge_data.
    + constructor.
    + exists rels. rewrite Hr. split; [reflexivity |]. split; [exact Hnd |].
      split; [intros v; rewrite Hk; simpl; tauto |]. split.
      * intros v. rewrite Hk, neighbors_spec. simpl. split.
        -- intros [[] | ([[a b] d] & Hin & Hj)].
           exists a, b, d. split; [exact Hin | exact (proj1 (joins_iff n v a b d) Hj)].
        -- intros (a & b & d & Hin & Hends). right.
           exists (a, b, d). split; [exact Hin | exact (proj2 (joins_iff n v a b d) Hends)].
      * intros v Hin. destruct (proj1 (neighbors_edge_data _ _ _) Hin) as [d Hd].
        exists d. split; [exact Hd |]. split.
        -- destruct (edge_data_found _ _ _ _ Hd) as (a & b & Hin' & Hj).
           exists a, b. split; [exact Hin' | exact (proj1 (joins_iff n v a b d) Hj)].
        -- rewrite (Hv v d Hin Hd). unfold relationship_of.
           destruct (rel_type d); reflexivity.
Qed.

Lemma C10_witness :
  snd (get_relationships two_rivals "Zed") = Returned [] /\
  exists rels,
    get_relationships two_rivals "Ann" = (two_rivals, Returned rels) /\
    map fst rels = ["Bob"]%string /\
    dict_get "Bob" rels = Some {| strength := 2 # 10; type := "conflict" |}.
Proof.
  split.
  - apply (C10_get_relationships_is_total two_rivals "Zed"). reflexivity.
  - destruct (proj2 (C10_get_relationships_is_total two_rivals "Ann") eq_refl)
      as (rels & Hr & _ & _ & _ & Hv).
    exists rels. split; [exact Hr |].
    destruct (Hv "Bob"%string) as (d & Hd & _ & Hget).
    + vm_compute. now left.
    + vm_compute in Hd. injection Hd as <-. split; [| exact Hget].
      vm_compute in Hr. injection Hr as <-. reflexivity.
Defined.

End QueryProperties.

Section LeaderProperties.
Import character social_system.

Lemma fold_first_max {A : Type} (key : A -> Q) (rest : list A) :
  forall (pre : list A) (b : A) (i : nat),
    pre !! i = Some b ->
    (forall y, In y pre -> key y <= key b) ->
    (forall j y, (j < i)%nat -> pre !! j = Some y -> key y < key b) ->
    let x := fold_left (fun best y => if Qltb (key best) (key y) then y else best) rest b in
    exists i',
      (pre ++ rest) !! i' = Some x /\
      (forall y, In y (pre ++ rest) -> key y <= key x) /\
      (forall j y, (j < i')%nat -> (pre ++ rest) !! j = Some y -> key y < key x).
Proof.
  induction rest as [| y rest IH]; intros pre b i Hi Hmax Hfirst; simpl.
  - exists i. rewrite app_nil_r. auto.
  - assert (Hlen : (i < length pre)%nat) by (eapply lookup_lt_Some; eauto).
    replace (pre ++ y :: rest) with ((pre ++ [y]) ++ rest)
      by (rewrite <- app_assoc; reflexivity).
    destruct (Qltb (key b) (key y)) eqn:E.
    + apply Qltb_lt in E. apply (IH (pre ++ [y]) y (length pre)).
      * rewrite lookup_app_r by lia. now rewrite Nat.sub_diag.
      * intros z Hz. apply in_app_or in Hz. destruct Hz as [Hz | [<- | []]]; [| lra].
        specialize (Hmax z Hz). lra.
      * intros j z Hj Hz. rewrite lookup_app_l in Hz by lia.
        assert (Hin : In z pre).
        { apply list_elem_of_In. eapply list_elem_of_lookup_2. exact Hz. }
        specialize (Hmax z Hin). lra.
    + apply Qltb_ge in E. apply (IH (pre ++ [y]) b i).
      * rewrite lookup_app_l by lia. exact Hi.
      * intros z Hz. apply in_app_or in Hz. destruct Hz as [Hz | [<- | []]]; [| lra].
        now apply Hmax.
      * intros j z Hj Hz. rewrite lookup_app_l in Hz by lia. eapply Hfirst; eauto.
Qed.

(** [max] with a key returns the first of the items of greatest key. *)
Lemma max_by_first {A : Type} (key : A -> Q) (l : list A) (x : A) :
  max_by key l = Returned x ->
  exists i,
    l !! i = Some x /\
    (forall y, In y l -> key y <= key x) /\
    (forall j y, (j < i)%nat -> l !! j = Some y -> key y < key x).
Proof.
  destruct l as [| a l]; simpl; [discriminate |]. intros [= <-].
  apply (fold_first_max key l [a] a 0%nat).
  - reflexivity.
  - intros y [<- | []]. lra.
  - intros j y Hj. lia.
Qed.

Lemma influence_scores_spec (g : Graph) (ns : list (string * Character)) :
  forall acc : list (string * Q),
    Forall (fun nc : string * Character =>
              exists x, trait (big_five_traits (snd nc)) EXTRAVERSION = Returned x) ns ->
    List.NoDup (map fst ns) ->
    (forall nc, In nc ns -> ~ In (fst nc) (map fst acc)) ->
    influence_scores g ns acc = Returned (acc ++ map (scored g) ns).
Proof.
  induction ns as [| [node char] ns IH]; intros acc Htr Hnd Hfresh; simpl.
  - now rewrite app_nil_r.
  - inversion Htr as [| ? ? [x Hx] Htr']; subst. simpl in Hx.
    inversion Hnd as [| ? ? Hnode Hnd']; subst.
    rewrite Hx. simpl.
    rewrite dict_set_fresh by (apply (Hfresh (node, char)); now left).
    rewrite IH; [| exact Htr' | exact Hnd' |].
    + rewrite <- app_assoc. simpl. unfold scored at 2, influence_score. simpl.
      rewrite Hx. reflexivity.
    + intros nc Hin. rewrite map_app, in_app_iff. simpl.
      intros [H | [H | []]].
      * apply (Hfresh nc); [now right | exact H].
      * apply Hnode. rewrite H. now apply in_map.
Qed.

(** Node names stay distinct: the graph starts empty, [add_character]
    skips a name that is already a node, and no other method adds or
    removes a node. *)
Lemma distinct_nodes_init : distinct_nodes (social_graph SocialSystem_init).
Proof. constructor. Qed.

Lemma add_character_distinct (s : SocialSystem) (c : Character) :
  distinct_nodes (social_graph s) ->
  distinct_nodes (social_graph (fst (add_character s c))).
Proof.
  unfold add_character, has_node, dict_mem, distinct_nodes. intros H.
  destruct (dict_get (name c) (nodes (social_graph s))) as [c' |] eqn:E; simpl;
    [exact H |].
  rewrite map_app. simpl. apply NoDup_app. split; [exact H |].
  split; [| apply NoDup_singleton].
  intros x Hx Hx'. apply list_elem_of_singleton in Hx'. subst x.
  apply list_elem_of_In, dict_get_in_keys in Hx. destruct Hx as [v Hv].
  congruence.
Qed.

Lemma nodes_fixed (s : SocialSystem) (c1 c2 : Character) (w rate : Q)
  (t : RelationshipType) (it : string) :
  nodes (social_graph (fst (add_relationship s c1 c2 w t))) = nodes (social_graph s) /\
  nodes (social_graph (fst (update_relationship s c1 c2 it))) = nodes (social_graph s) /\
  nodes (social_graph (fst (decay_relationships s rate))) = nodes (social_graph s).
Proof.
  split; [| split].
  - unfold add_relationship.
    destruct (negb (has_node (social_graph s) (name c1))
              || negb (has_node (social_graph s) (name c2))); reflexivity.
  - unfold update_relationship.
    destruct (if String.eqb it "cooperation" then (2 # 10, Some FRIENDSHIP)
              else if String.eqb it "conflict" then (- (3 # 10), Some CONFLICT)
                   else (0, None)) as [change rtc].
    destruct (edge_data (social_graph s) (name c1) (name c2)) as [d |].
    + destruct rtc as [t' |]; [| reflexivity].
      destruct (RelationshipType_eqb (rel_type d) NEUTRAL); reflexivity.
    + unfold add_relationship. simpl.
      destruct (negb (has_node (social_graph s) (name c1))
                || negb (has_node (social_graph s) (name c2))); reflexivity.
  - reflexivity.
Qed.

(** On a graph whose node names are distinct and whose characters all
    carry an extraversion trait, the character returned is the first of
    those of greatest score. *)
Lemma most_influential_first_maximum (s : SocialSystem) :
  let g := social_graph s in
  let r := snd (get_most_influential_character s) in
  distinct_nodes g -> extraverts g -> nodes g <> [] ->
  exists (i : nat) (node : string) (leader : Character),
    nodes g !! i = Some (node, leader) /\
    r = Returned (Some leader) /\
    (forall nc, In nc (nodes g) ->
                influence_score g nc <= influence_score g (node, leader)) /\
    (forall j nc, (j < i)%nat -> nodes g !! j = Some nc ->
                  influence_score g nc < influence_score g (node, leader)).
Proof.
  intros g r. subst g r. unfold get_most_influential_character.
  intros Hdist Hext Hne. unfold distinct_nodes in Hdist.
  apply NoDup_ListNoDup in Hdist. unfold extraverts in Hext.
  assert (Hsc := influence_scores_spec (social_graph s) (nodes (social_graph s)) []
                   Hext Hdist (fun _ _ H => H)).
  simpl in Hsc.
  destruct (nodes (social_graph s)) as [| nc0 ns] eqn:En; [contradiction |].
  rewrite Hsc.
  destruct (max_by snd (map (scored (social_graph s)) (nc0 :: ns)))
    as [[leader_name q] | e] eqn:Em; [| simpl in Em; discriminate Em].
  destruct (max_by_first _ _ _ Em) as (i & Hi & Hmax & Hfirst).
  rewrite list_lookup_fmap in Hi.
  destruct ((nc0 :: ns) !! i) as [[node leader] |] eqn:Ei; [| discriminate].
  simpl in Hi. injection Hi as <- <-.
  rewrite (dict_get_lookup_NoDup _ i node leader Hdist Ei).
  exists i, node, leader. split; [exact Ei |]. split; [reflexivity |]. split.
  - intros nc Hin. apply (Hmax (scored (social_graph s) nc)). now apply in_map.
  - intros j nc Hj Hnc. apply (Hfirst j (scored (social_graph s) nc) Hj).
    rewrite list_lookup_fmap, Hnc. reflexivity.
Qed.

Lemma trait_found (c : Character) (x : Q) :
  extraversion_is c x -> trait (big_five_traits c) EXTRAVERSION = Returned x.
Proof.
  intros (before & after & -> & Hb).
  induction before as [| [t y] before IH]; simpl.
  - reflexivity.
  - inversion Hb as [| ? ? Ht Hb']; subst. simpl in Ht.
    destruct t; try contradiction; simpl; now apply IH.
Qed.

Lemma trait_missing (c : Character) :
  no_extraversion c -> trait (big_five_traits c) EXTRAVERSION = Raised KeyError.
Proof.
  unfold no_extraversion.
  induction (big_five_traits c) as [| [t y] l IH]; intros Hb; simpl.
  - reflexivity.
  - inversion Hb as [| ? ? Ht Hb']; subst. simpl in Ht.
    destruct t; try contradiction; simpl; now apply IH.
Qed.

Lemma trait_raises_key_error (l : list (BigFive * Q)) (t : BigFive) (e : exn) :
  trait l t = Raised e -> e = KeyError.
Proof.
  induction l as [| [t' y] l IH]; simpl.
  - now intros [= <-].
  - destruct (BigFive_eqb t t'); [discriminate | exact IH].
Qed.

Lemma influence_scores_missing (g : Graph) (ns : list (string * Character)) :
  forall acc : list (string * Q),
    (exists nc, In nc ns /\ no_extraversion (snd nc)) ->
    influence_scores g ns acc = Raised KeyError.
Proof.
  induction ns as [| [node char] ns IH]; intros acc (nc & Hin & Hno).
  - destruct Hin.
  - simpl. destruct (trait (big_five_traits char) EXTRAVERSION) as [x | e] eqn:Et; simpl.
    + apply IH. destruct Hin as [<- | Hin]; [| eauto].
      simpl in Hno. rewrite (trait_missing _ Hno) in Et. discriminate.
    + now rewrite (trait_raises_key_error _ _ _ Et).
Qed.

(** A node is its own neighbour exactly when the graph has a self-loop
    at it. *)
Lemma own_neighbour (es : list (string * string * EdgeData)) (n : string) :
  existsb (String.eqb n) (neighbors {| nodes := []; edges := es |} n) = true ->
  exists e, In e es /\ joins n n e = true.
Proof.
  rewrite existsb_exists. intros (x & Hx & Heq). apply String.eqb_eq in Heq. subst x.
  apply neighbors_spec in Hx. exact Hx.
Qed.

Lemma degree_counts_ends (ns : list (string * Character))
  (es : list (string * string * EdgeData)) (n : string) :
  social_runs.one_edge_per_pair es ->
  degree {| nodes := ns; edges := es |} n = ends_at {| nodes := ns; edges := es |} n.
Proof.
  unfold degree, ends_at, neighbors. cbn [edges].
  induction es as [| [[a b] d] rest IH]; intros Hone; [reflexivity |].
  destruct Hone as [Hfirst Hrest]. specialize (IH Hrest).
  cbn [flat_map List.filter fst snd].
  destruct (String.eqb a n) eqn:Ea.
  - apply String.eqb_eq in Ea. subst a.
    destruct (String.eqb b n) eqn:Eb.
    + apply String.eqb_eq in Eb. subst b.
      cbn [app length existsb]. rewrite String.eqb_refl. cbn [orb].
      destruct (existsb (String.eqb n)
                  (flat_map (fun e : string * string * EdgeData =>
                               let '(a, b, _) := e in
                               if String.eqb a n then [b]
                               else if String.eqb b n then [a] else []) rest)) eqn:Ex.
      * destruct (own_neighbour rest n Ex) as (e' & Hin & Hj).
        specialize (Hfirst e' Hin). cbn [fst snd] in Hfirst. congruence.
      * lia.
    + cbn [app length existsb]. rewrite String.eqb_sym, Eb. cbn [orb]. lia.
  - destruct (String.eqb b n) eqn:Eb.
    + cbn [app length existsb]. rewrite String.eqb_sym, Ea. cbn [orb]. lia.
    + cbn [app]. exact IH.
Qed.

(** C9, as the code has it.  [get_most_influential_character] returns
    [None] exactly when the graph has no node.  When some character of
    the graph carries no extraversion trait the call raises [KeyError].
    When every character carries one, the call returns a character of
    the graph whose score is at least that of every node and strictly
    greater than that of every node met before it in the node order;
    the score of a node is the number of edge ends at it, a self-loop
    counting twice, plus the character's extraversion.  Node names are
    distinct and no two edges join the same pair, as in any graph of
    the library. *)
Theorem C9_most_influential_is_first_maximum :
  forall s : SocialSystem,
    let g := social_graph s in
    let r := snd (get_most_influential_character s) in
    (r = Returned None <-> nodes g = []) /\
    ((exists nc, In nc (nodes g) /\ no_extraversion (snd nc)) ->
     r = Raised KeyError) /\
    (forall score : string * Character -> Q,
       distinct_nodes g ->
       social_runs.one_edge_per_pair (edges g) ->
       (forall node c, In (node, c) (nodes g) ->
          exists x, extraversion_is c x /\
                    score (node, c) == inject_Z (Z.of_nat (ends_at g node)) + x) ->
       nodes g <> [] ->
       exists (i : nat) (node : string) (leader : Character),
         nodes g !! i = Some (node, leader) /\
         r = Returned (Some leader) /\
         (forall nc, In nc (nodes g) -> score nc <= score (node, leader)) /\
         (forall j nc, (j < i)%nat -> nodes g !! j = Some nc ->
                       score nc < score (node, leader))).
Proof.
  intros s g r. split; [| split].
  - subst g r. unfold get_most_influential_character.
    destruct (nodes (social_graph s)) as [| nc0 ns] eqn:En.
    + split; reflexivity.
    + split; [| discriminate].
      destruct (influence_scores (social_graph s) (nc0 :: ns)) as [infl | e];
        [| discriminate].
      destruct (max_by snd infl) as [[leader_name q] | e]; [| discriminate].
      destruct (dict_get leader_name (nc0 :: ns)); discriminate.
  - intros Hex. subst g r. unfold get_most_influential_character.
    destruct (nodes (social_graph s)) as [| nc0 ns] eqn:En.
    + destruct Hex as (nc & [] & _).
    + now rewrite (influence_scores_missing (social_graph s) (nc0 :: ns) [] Hex).
  - intros score Hdist Hone Hscore Hne.
    assert (Hsame : forall nc, In nc (nodes g) -> score nc == influence_score g nc).
    { intros [node c] Hin. destruct (Hscore node c Hin) as (x & Hx & ->).
      unfold influence_score. cbn [fst snd]. rewrite (trait_found _ _ Hx).
      subst g. destruct (social_graph s) as [ns es]. cbn [edges] in Hone.
      now rewrite (degree_counts_ends ns es node Hone). }
    assert (Hext : extraverts g).
    { unfold extraverts. apply List.Forall_forall. intros [node c] Hin.
      destruct (Hscore node c Hin) as (x & Hx & _). exists x. now apply trait_found. }
    destruct (most_influential_first_maximum s Hdist Hext Hne)
      as (i & node & leader & Hi & Hr & Hmax & Hfirst).
    fold g in Hi, Hmax, Hfirst.
    assert (Hl : In (node, leader) (nodes g)).
    { apply list_elem_of_In. eapply list_elem_of_lookup_2. exact Hi. }
    exists i, node, leader. split; [exact Hi |]. split; [exact Hr |]. split.
    + intros nc Hin. rewrite (Hsame nc Hin), (Hsame _ Hl). now apply Hmax.
    + intros j nc Hj Hnc.
      assert (Hin : In nc (nodes g)).
      { apply list_elem_of_In. eapply list_elem_of_lookup_2. exact Hnc. }
      rewrite (Hsame nc Hin), (Hsame _ Hl). now apply (Hfirst j).
Qed.

Example tie_goes_to_first_node :
  snd (get_most_influential_character three_nodes) = Returned (Some bob).
Proof. reflexivity. Qed.

Lemma C9_witness :
  snd (get_most_influential_character self_absorbed) = Returned (Some ann).
Proof.
  destruct (C9_most_influential_is_first_maximum self_absorbed) as (_ & _ & H).
  destruct (H (fun nc => if String.eqb (fst nc) "Ann" then 23 # 10 else 16 # 10))
    as (i & node & leader & Hi & Hr & Hmax & _).
  - apply (bool_decide_unpack _). vm_compute. reflexivity.
  - change (edges (social_graph self_absorbed))
      with [("Ann", "Ann", {| weight := 1 # 2; rel_type := NEUTRAL |});
            ("Bob", "Cat", {| weight := 1 # 2; rel_type := NEUTRAL |})]%string.
    split; [intros e' [<- | []]; reflexivity |].
    split; [intros e' [] | exact I].
  - intros node c Hin. vm_compute in Hin.
    destruct Hin as [Hin | [Hin | [Hin | []]]]; injection Hin as <- <-.
    + exists (3 # 10). split; [| vm_compute; reflexivity].
      exists [(OPENNESS, 1 # 2); (CONSCIENTIOUSNESS, 1 # 2)],
             [(AGREEABLENESS, 1 # 2); (NEUROTICISM, 1 # 2)].
      split; [reflexivity | repeat constructor; discriminate].
    + exists (6 # 10). split; [| vm_compute; reflexivity].
      exists [(OPENNESS, 1 # 2); (CONSCIENTIOUSNESS, 1 # 2)],
             [(AGREEABLENESS, 1 # 2); (NEUROTICISM, 1 # 2)].
      split; [reflexivity | repeat constructor; discriminate].
    + exists (6 # 10). split; [| vm_compute; reflexivity].
      exists [(OPENNESS, 1 # 2); (CONSCIENTIOUSNESS, 1 # 2)],
             [(AGREEABLENESS, 1 # 2); (NEUROTICISM, 1 # 2)].
      split; [reflexivity | repeat constructor; discriminate].
  - vm_compute. discriminate.
  - destruct i as [| [| [| i]]].
    + injection Hi as _ <-. exact Hr.
    + injection Hi as <- <-.
      specialize (Hmax ("Ann"%string, ann) (or_introl eq_refl)).
      vm_compute in Hmax. contradiction Hmax. reflexivity.
    + injection Hi as <- <-.
      specialize (Hmax ("Ann"%string, ann) (or_introl eq_refl)).
      vm_compute in Hmax. contradiction Hmax. reflexivity.
    + discriminate Hi.
Defined.

(** C9 as stated fails: Dee is the only node of the graph and has no
    extraversion trait; the call returns no agent, it raises
    [KeyError]. *)
Lemma C9_counterexample :
  nodes (social_graph dee_alone) <> [] /\
  snd (get_most_influential_character dee_alone) = Raised KeyError /\
  ~ exists leader : Character,
      snd (get_most_influential_character dee_alone) = Returned (Some leader).
Proof.
  split; [discriminate |]. split; [reflexivity |].
  intros [leader H]. discriminate H.
Qed.

End LeaderProperties.

(** ** Event impacts (event_system.py) *)

Section EventProperties.
Import character event_system.

Lemma getattr_missing (c : Character) (attr : string) :
  plain c ->
  numeric_field c attr = None ->
  existsb (String.eqb attr) (object_fields ++ methods ++ inherited) = false ->
  getattr c attr = Raised AttributeError.
Proof.
  intros Hp Hn Hd. unfold getattr. rewrite Hn, Hp, Hd. reflexivity.
Qed.

(** C4.  For every event of the predefined catalog, at any severity, and
    every non-empty list of characters whose attributes are those
    assigned by [Character.__init__], [apply_event_impact] raises
    [AttributeError] and has changed no character.  Every impact key of
    the catalog ends in [_increase] or [_decrease] and addresses an
    attribute that such a character does not have.  [ANXIOUS], [CALM] and
    [AGGRESSIVE] are not members of [PsychologicalState], whose members
    are NORMAL, ANGRY, DEPRESSED, COOPERATIVE and PARANOID, so each
    comparison against one of them raises [AttributeError] as well. *)
Theorem C4_apply_event_impact_raises_AttributeError :
  (forall (event : Event) (sev : Q) (characters : list Character),
      In event _create_predefined_events ->
      characters <> [] ->
      Forall plain characters ->
      apply_event_impact characters (set_severity event sev)
      = (characters, Raised AttributeError)) /\
  (forall (event : Event) (effect : string) (x : Q) (c : Character),
      In event _create_predefined_events ->
      In (effect, x) (impact event) ->
      plain c ->
      (endswith effect "_increase" = true \/ endswith effect "_decrease" = true) /\
      In (attr_name_of effect)
         ["hunger"; "cooperation"; "conflict"; "trust"; "rebellion_chance";
          "stress"; "cooperation_chance"; "moral_distress"]%string /\
      getattr c (attr_name_of effect) = Raised AttributeError) /\
  map fst PsychologicalState_members
  = ["NORMAL"; "ANGRY"; "DEPRESSED"; "COOPERATIVE"; "PARANOID"]%string /\
  (forall c : Character,
      state_is "ANXIOUS" c = Raised AttributeError /\
      state_is "CALM" c = Raised AttributeError /\
      state_is "AGGRESSIVE" c = Raised AttributeError).
Proof.
  split; [| split; [| split]].
  - intros event sev characters He Hne Hp.
    destruct characters as [| c rest]; [contradiction |].
    inversion Hp as [| ? ? Hc _]; subst. unfold plain in Hc.
    destruct c. simpl in Hc. subst.
    simpl in He.
    destruct He as [<- | [<- | [<- | [<- | []]]]]; reflexivity.
  - intros event effect x c He Hin Hp.
    simpl in He.
    destruct He as [<- | [<- | [<- | [<- | []]]]]; simpl in Hin;
      repeat (destruct Hin as [Hin | Hin];
              [injection Hin as <- <-;
               split; [vm_compute; tauto |];
               split; [vm_compute; tauto |];
               apply getattr_missing; [exact Hp | reflexivity | reflexivity] |]);
      contradiction.
  - reflexivity.
  - intros c. repeat split.
Qed.

Lemma C4_witness :
  apply_event_impact [ann_plain]
    (set_severity (Event_init "Silent Rebellion"
      "A group of characters secretly begins to sabotage, believing the leadership is not fair."
      MAN_MADE_EVENT
      [("trust_decrease", 4 # 10); ("rebellion_chance_increase", 5 # 10)]%string
      1) (3 # 4))
  = ([ann_plain], Raised AttributeError).
Proof.
  apply (proj1 C4_apply_event_impact_raises_AttributeError).
  - simpl. right. left. reflexivity.
  - discriminate.
  - repeat constructor.
Defined.

End EventProperties.

(** ** The rest of the day (ship_of_fools.py) *)

Section VoyageProperties.
Import ship_of_fools ship_voyage.

Lemma clamp100_id (x : Q) : 0 <= x <= 100 -> py_min 100 (py_max 0 x) == x.
Proof.
  intros [Hlo Hhi]. unfold py_min, py_max.
  destruct (Qltb 0 x) eqn:E1.
  - destruct (Qltb x 100) eqn:E2; [reflexivity |]. apply Qltb_ge in E2. lra.
  - apply Qltb_ge in E1. change (Qltb 0 100) with true. cbv iota. lra.
Qed.

(** X1.  [add_memory] appends the new memory after the memories already
    held, which it keeps unchanged and in order; the stress it leaves is
    within [0,100] whatever the emotional impact, and equals the old
    stress plus half the impact whenever that sum is within [0,100];
    needs, alliances, influence, trust, role and identity are untouched. *)
Theorem X1_add_memory_appends_and_clamps :
  forall (c : Character) (d : Z) (event interpretation : string) (impact : Q)
         (witnesses : list Z),
    let c' := add_memory c d event interpretation impact witnesses in
    memories c' =
      memories c ++
      [ {| mem_day := d; mem_event := event; mem_interpretation := interpretation;
           mem_emotional_impact := impact; mem_witnesses := witnesses |} ] /\
    0 <= stress c' <= 100 /\
    (0 <= stress c + impact * (1 # 2) <= 100 ->
     stress c' == stress c + impact * (1 # 2)) /\
    needs c' = needs c /\ char_alliances c' = char_alliances c /\
    influence c' = influence c /\ trust_in_captain c' = trust_in_captain c /\
    role c' = role c /\ id c' = id c /\ name c' = name c.
Proof.
  intros c d event interpretation impact witnesses c'. subst c'. simpl.
  split; [reflexivity |]. split; [apply py_clamp_range; lra |].
  split; [apply clamp100_id |]. repeat split.
Qed.

Lemma X1_witness :
  stress (add_memory agent_x 1 "A fight broke out between crew members"
            "This violates individual rights. We need reform." 3 [1%Z; 2%Z])
  == 50 + 3 * (1 # 2).
Proof.
  apply (X1_add_memory_appends_and_clamps agent_x 1
           "A fight broke out between crew members"
           "This violates individual rights. We need reform." 3 [1%Z; 2%Z]).
  vm_compute. split; discriminate.
Defined.

Lemma py_sum_bounds (lo hi : Q) (xs : list Q) :
  (forall x, In x xs -> lo <= x <= hi) ->
  forall a : Q,
    a + inject_Z (Z.of_nat (length xs)) * lo <= fold_left Qplus xs a /\
    fold_left Qplus xs a <= a + inject_Z (Z.of_nat (length xs)) * hi.
Proof.
  induction xs as [| x xs IH]; intros Hb a.
  - change (inject_Z (Z.of_nat (length (@nil Q)))) with 0. simpl. split; lra.
  - assert (Hx := Hb x (or_introl eq_refl)).
    destruct (IH (fun y Hy => Hb y (or_intror Hy)) (a + x)) as [H1 H2].
    change (fold_left Qplus (x :: xs) a) with (fold_left Qplus xs (a + x)).
    change (length (x :: xs)) with (S (length xs)).
    rewrite Nat2Z.inj_succ. unfold Z.succ. rewrite inject_Z_plus.
    change (inject_Z 1) with 1.
    generalize dependent (inject_Z (Z.of_nat (length xs))). intros N H1 H2.
    split; nra.
Qed.

Lemma py_sum_from (xs : list Q) :
  forall a : Q, fold_left Qplus xs a == a + fold_right Qplus 0 xs.
Proof.
  induction xs as [| x xs IH]; intros a; simpl.
  - lra.
  - rewrite IH. lra.
Qed.

(** X2.  [calculate_satisfaction] is 50 for a character without needs;
    otherwise it is the mean of the need values: multiplied by the
    number of needs it gives their sum.  So it lies between any two
    bounds that enclose all the need values, and is within [0,100] when
    the needs are. *)
Theorem X2_satisfaction_is_a_mean :
  forall c : Character,
    (needs c = [] -> calculate_satisfaction c = 50) /\
    (needs c <> [] ->
     calculate_satisfaction c * inject_Z (Z.of_nat (length (needs c)))
     == fold_right (fun (kv : string * Need) (total : Q) => value (snd kv) + total)
                   0 (needs c)) /\
    (forall lo hi : Q,
        needs c <> [] ->
        (forall k n, In (k, n) (needs c) -> lo <= value n <= hi) ->
        lo <= calculate_satisfaction c <= hi).
Proof.
  intros c. unfold calculate_satisfaction. split; [| split].
  - intros ->. reflexivity.
  - intros Hne. destruct (needs c) as [| kv rest] eqn:E; [contradiction |].
    set (l := kv :: rest) in *.
    assert (Hpos : 0 < inject_Z (Z.of_nat (length l))).
    { change 0 with (inject_Z 0). rewrite <- Zlt_Qlt. simpl. lia. }
    assert (Hsum : py_sum (map (fun kv => value (snd kv)) l)
                   == fold_right (fun (kv : string * Need) (total : Q) =>
                                    value (snd kv) + total) 0 l).
    { unfold py_sum. rewrite py_sum_from. clear.
      induction l as [| x l IH]; simpl; [lra |]. simpl in IH. lra. }
    rewrite <- Hsum. field. lra.
  - intros lo hi Hne Hb. destruct (needs c) as [| kv rest] eqn:E; [contradiction |].
    set (l := kv :: rest) in *.
    assert (Hpos : 0 < inject_Z (Z.of_nat (length l))).
    { change 0 with (inject_Z 0). rewrite <- Zlt_Qlt. simpl. lia. }
    destruct (py_sum_bounds lo hi (map (fun kv => value (snd kv)) l)) with (a := 0)
      as [H1 H2].
    { intros x Hx. apply in_map_iff in Hx. destruct Hx as ([k n] & <- & Hin).
      simpl. now apply (Hb k n). }
    rewrite length_map in H1, H2. unfold py_sum. split.
    + apply Qle_shift_div_l; [exact Hpos | lra].
    + apply Qle_shift_div_r; [exact Hpos | lra].
Qed.

Lemma X2_witness :
  calculate_satisfaction cold_passenger * 3 == 30 + 40 + 60 /\
  0 <= calculate_satisfaction cold_passenger <= 100.
Proof.
  destruct (X2_satisfaction_is_a_mean cold_passenger) as (_ & Hmean & Hbounds).
  split.
  - rewrite (Hmean ltac:(discriminate)). vm_compute. reflexivity.
  - apply (Hbounds 0 100).
    + discriminate.
    + intros k n Hin. simpl in Hin.
      destruct Hin as [H | [H | [H | []]]]; injection H as <- <-; simpl; lra.
Defined.

(** X3.  The daily step north, [heading = max(0, heading - 2)] followed
    by [calculate_danger], from a heading of at most 360: the new heading
    is within [0,360], the danger level within [0,100] and the
    temperature within [-5,15].  The danger exceeds 90, the level at
    which the ship can sink, exactly when the new heading is under 36,
    and the temperature is under 5, where blankets can run out, exactly
    when the new heading is under 180. *)
Theorem X3_sail_north_ranges :
  forall s : Ship,
    heading s <= 360 ->
    let s' := sail_north s in
    0 <= heading s' <= 360 /\
    0 <= danger_level s' <= 100 /\
    -5 <= temperature s' <= 15 /\
    (90 < danger_level s' <-> heading s' < 36) /\
    (temperature s' < 5 <-> heading s' < 180) /\
    characters s' = characters s /\ alliances s' = alliances s /\
    captain_authority s' = captain_authority s.
Proof.
  intros s Hh s'. subst s'. unfold sail_north, calculate_danger. simpl.
  set (h := py_max 0 (heading s - 2)).
  assert (Hh' : 0 <= h <= 360).
  { subst h. unfold py_max. destruct (Qltb 0 (heading s - 2)) eqn:E; [| lra].
    apply Qltb_lt in E. lra. }
  assert (Hd : (360 - h) / 360 * 100 == (360 - h) * (100 # 360)) by (field; discriminate).
  assert (Ht : 15 - (360 - h) / 360 * 100 / 100 * 20 == h * (1 # 18) - 5)
    by (field; discriminate).
  rewrite Ht, Hd. repeat split; try lra.
Qed.

Lemma X3_witness :
  danger_level (sail_north (ship_with three_sailors [])) == 100 /\
  temperature (sail_north (ship_with three_sailors [])) == -5.
Proof.
  destruct (X3_sail_north_ranges (ship_with three_sailors [])) as (_ & _ & _ & _ & _).
  - vm_compute. discriminate.
  - split; reflexivity.
Defined.

Lemma update_one_need (c : Character) (k : string) (delta : Q) (nm : string) (n : Need) :
  dict_get nm (needs c) = Some n ->
  dict_get nm (needs (update_needs c [(k, delta)])) =
  Some (if String.eqb nm k then bump_need delta n else n).
Proof.
  intros Hget.
  rewrite (update_needs_lookup [(k, delta)]) with (n := n); [| | exact Hget].
  - simpl. destruct (String.eqb nm k); reflexivity.
  - apply NoDup_singleton.
Qed.

Lemma bump_down (delta : Q) (n : Need) :
  0 <= delta -> 0 <= value n -> value (bump_need (- delta) n) <= value n.
Proof.
  intros Hd Hv. simpl. unfold py_min, py_max.
  destruct (Qltb 0 (value n + - delta)) eqn:E1.
  - destruct (Qltb (value n + - delta) 100) eqn:E2; [lra |].
    apply Qltb_ge in E2. lra.
  - change (Qltb 0 100) with true. cbv iota. exact Hv.
Qed.

(** X4.  [_apply_environmental_effects] at a non-negative danger level:
    every character keeps its place; a need named warmth or safety ends
    within [0,100] and, if it was not negative, no higher than before;
    every other need is exactly as before; and the stress of every
    character grows by the danger level over 40 with no upper clamp. *)
Theorem X4_environment_wears_needs_not_stress :
  forall (s : Ship) (i : nat) (c : Character),
    0 <= danger_level s ->
    characters s !! i = Some c ->
    exists c',
      characters (_apply_environmental_effects s) !! i = Some c' /\
      stress c' = stress c + danger_level s / 40 /\
      id c' = id c /\ role c' = role c /\ influence c' = influence c /\
      (forall (nm : string) (n : Need),
          dict_get nm (needs c) = Some n ->
          exists n',
            dict_get nm (needs c') = Some n' /\
            (nm <> "warmth"%string -> nm <> "safety"%string -> n' = n) /\
            (nm = "warmth"%string \/ nm = "safety"%string ->
             0 <= value n' <= 100 /\ (0 <= value n -> value n' <= value n))).
Proof.
  intros s i c Hd Hc.
  exists (environmental_effect (danger_level s) c).
  split; [unfold _apply_environmental_effects; simpl;
          rewrite list_lookup_fmap, Hc; reflexivity |].
  unfold environmental_effect.
  set (dl := danger_level s) in *.
  set (c1 := if dict_mem "warmth" (needs c)
             then update_needs c [("warmth"%string, - (dl / 20))] else c).
  set (c2 := if dict_mem "safety" (needs c1)
             then update_needs c1 [("safety"%string, - (dl / 30))] else c1).
  assert (F1 : stress c1 = stress c /\ id c1 = id c /\ role c1 = role c
               /\ influence c1 = influence c).
  { subst c1. destruct (dict_mem "warmth" (needs c)); [| repeat split].
    destruct (update_needs_frame [("warmth"%string, - (dl / 20))] c)
      as (? & ? & ? & ? & ? & ? & _). repeat split; assumption. }
  assert (F2 : stress c2 = stress c1 /\ id c2 = id c1 /\ role c2 = role c1
               /\ influence c2 = influence c1).
  { subst c2. destruct (dict_mem "safety" (needs c1)); [| repeat split].
    destruct (update_needs_frame [("safety"%string, - (dl / 30))] c1)
      as (? & ? & ? & ? & ? & ? & _). repeat split; assumption. }
  destruct F1 as (S1 & I1 & R1 & L1). destruct F2 as (S2 & I2 & R2 & L2).
  simpl. split; [congruence |]. split; [congruence |]. split; [congruence |].
  split; [congruence |].
  intros nm n Hget.
  assert (H1 : dict_get nm (needs c1) =
               Some (if String.eqb nm "warmth" then bump_need (- (dl / 20)) n else n)).
  { subst c1. unfold dict_mem.
    destruct (dict_get "warmth" (needs c)) as [w |] eqn:Ew.
    - now apply update_one_need.
    - destruct (String.eqb_spec nm "warmth") as [-> | _]; [congruence | exact Hget]. }
  set (n1 := if String.eqb nm "warmth" then bump_need (- (dl / 20)) n else n) in *.
  assert (H2 : dict_get nm (needs c2) =
               Some (if String.eqb nm "safety" then bump_need (- (dl / 30)) n1 else n1)).
  { subst c2. unfold dict_mem.
    destruct (dict_get "safety" (needs c1)) as [w |] eqn:Ew.
    - now apply update_one_need.
    - destruct (String.eqb_spec nm "safety") as [-> | _]; [congruence | exact H1]. }
  eexists. split; [exact H2 |]. subst n1.
  assert (Hq20 : 0 <= dl / 20) by (apply Qle_shift_div_l; lra).
  assert (Hq30 : 0 <= dl / 30) by (apply Qle_shift_div_l; lra).
  destruct (String.eqb_spec nm "warmth") as [Hw | Hw];
    destruct (String.eqb_spec nm "safety") as [Hs | Hs].
  - rewrite Hw in Hs. discriminate.
  - split; [congruence |]. intros _.
    split; [apply bump_need_range | now apply bump_down].
  - split; [congruence |]. intros _.
    split; [apply bump_need_range | now apply bump_down].
  - split; [reflexivity |]. intros [? | ?]; contradiction.
Qed.

Lemma X4_witness :
  exists c',
    characters (_apply_environmental_effects
                  (sail_north (ship_with [cold_passenger] []))) !! 0%nat = Some c' /\
    stress c' == 65 + 100 / 40.
Proof.
  destruct (X4_environment_wears_needs_not_stress
              (sail_north (ship_with [cold_passenger] [])) 0 cold_passenger)
    as (c' & Hc' & Hs & _).
  - vm_compute. discriminate.
  - reflexivity.
  - exists c'. split; [exact Hc' |]. rewrite Hs. reflexivity.
Defined.

Lemma potential_ally_spec (char other : Character) :
  potential_ally char other = true <->
  id other <> id char /\ (id other ∉ char_alliances char) /\
  (ideology char = ideology other \/ groups char ∩ groups other <> ∅).
Proof.
  unfold potential_ally.
  destruct (Z.eqb_spec (id other) (id char)) as [He | He]; simpl.
  - split; [discriminate | tauto].
  - destruct (bool_decide (id other ∈ char_alliances char)) eqn:Ea; simpl.
    + apply bool_decide_eq_true in Ea. split; [discriminate | tauto].
    + apply bool_decide_eq_false in Ea.
      destruct (Ideology_eqb (ideology char) (ideology other)) eqn:Ei.
      * split; [intros _ | reflexivity]. repeat split; try assumption.
        left. destruct (ideology char), (ideology other); try reflexivity; discriminate Ei.
      * destruct (bool_decide (groups char ∩ groups other = ∅)) eqn:Eg; simpl.
        -- apply bool_decide_eq_true in Eg. split; [discriminate |].
           intros (_ & _ & [Hi | Hg]); [| contradiction].
           rewrite Hi in Ei. destruct (ideology other); discriminate Ei.
        -- apply bool_decide_eq_false in Eg. split; [| reflexivity].
           intros _. repeat split; try assumption. now right.
Qed.

Lemma candidates_from_spec (char : Character) (cs : list Character) :
  forall (pos r : nat),
    In r (candidates_from pos char cs) <->
    exists other, (pos <= r)%nat /\ cs !! (r - pos)%nat = Some other /\
                  potential_ally char other = true.
Proof.
  induction cs as [| c cs IH]; intros pos r; simpl.
  - split; [intros [] | intros (o & _ & H & _); discriminate].
  - assert (Htail : In r (candidates_from (S pos) char cs) <->
                    exists other, (S pos <= r)%nat /\ cs !! (r - S pos)%nat = Some other /\
                                  potential_ally char other = true) by apply IH.
    destruct (potential_ally char c) eqn:Ep; simpl; rewrite ?Htail; split.
    + intros [<- | (o & Hle & Hl & Hp)].
      * exists c. rewrite Nat.sub_diag. auto.
      * exists o. split; [lia |]. split; [| exact Hp].
        replace (r - pos)%nat with (S (r - S pos)) by lia. exact Hl.
    + intros (o & Hle & Hl & Hp).
      destruct (decide (r = pos)) as [-> | Hne]; [now left | right].
      exists o. split; [lia |]. split; [| exact Hp].
      replace (r - pos)%nat with (S (r - S pos)) in Hl by lia. exact Hl.
    + intros (o & Hle & Hl & Hp). exists o. split; [lia |]. split; [| exact Hp].
      replace (r - pos)%nat with (S (r - S pos)) by lia. exact Hl.
    + intros (o & Hle & Hl & Hp).
      destruct (decide (r = pos)) as [-> | Hne].
      * rewrite Nat.sub_diag in Hl. simpl in Hl. injection Hl as <-. congruence.
      * exists o. split; [lia |]. split; [| exact Hp].
        replace (r - pos)%nat with (S (r - S pos)) in Hl by lia. exact Hl.
Qed.

Lemma find_potential_ally_sound (s : Ship) (r r2 : nat) (char : Character) (ch : Chooser) :
  characters s !! r = Some char ->
  _find_potential_ally s r ch = Some r2 ->
  exists other,
    characters s !! r2 = Some other /\ potential_ally char other = true.
Proof.
  intros Hr. unfold _find_potential_ally. rewrite Hr.
  destruct (candidates_from 0 char (characters s)) as [| x l] eqn:E; [discriminate |].
  intros Hl.
  assert (Hin : In r2 (candidates_from 0 char (characters s))).
  { rewrite E. apply list_elem_of_In. eapply list_elem_of_lookup_2. exact Hl. }
  apply candidates_from_spec in Hin. destruct Hin as (o & _ & Ho & Hp).
  rewrite Nat.sub_0_r in Ho. eauto.
Qed.

(** X5.  [_find_potential_ally], with a [random.choice] that draws an
    index in range: it returns no one exactly when no character of the
    ship passes the test; anyone it returns is a character of the ship
    with another id, whose id is not yet among the seeker's allies, and
    who shares the seeker's ideology or at least one group. *)
Theorem X5_potential_ally_is_new_and_akin :
  forall (s : Ship) (r : nat) (char : Character) (ch : Chooser),
    characters s !! r = Some char ->
    in_range ch ->
    (_find_potential_ally s r ch = None <->
     forall other, In other (characters s) -> potential_ally char other = false) /\
    (forall r2, _find_potential_ally s r ch = Some r2 ->
       exists other,
         characters s !! r2 = Some other /\
         id other <> id char /\ (id other ∉ char_alliances char) /\
         (ideology char = ideology other \/ groups char ∩ groups other <> ∅)).
Proof.
  intros s r char ch Hr Hch. split.
  - unfold _find_potential_ally. rewrite Hr.
    destruct (candidates_from 0 char (characters s)) as [| x l] eqn:E.
    + split; [intros _ | reflexivity]. intros other Hin.
      destruct (potential_ally char other) eqn:Ep; [exfalso | reflexivity].
      apply list_elem_of_In, list_elem_of_lookup in Hin. destruct Hin as [i Hi].
      assert (H : In i (candidates_from 0 char (characters s))).
      { apply candidates_from_spec. exists other. rewrite Nat.sub_0_r.
        split; [lia | auto]. }
      rewrite E in H. destruct H.
    + split.
      * intros Hnone. exfalso.
        assert (Hlt : (below ch (length (x :: l)) < length (x :: l))%nat)
          by (apply Hch; simpl; lia).
        apply lookup_lt_is_Some_2 in Hlt. destruct Hlt as [y Hy]. congruence.
      * intros Hall. exfalso.
        assert (H : In x (candidates_from 0 char (characters s))) by (rewrite E; now left).
        apply candidates_from_spec in H. destruct H as (o & _ & Ho & Hp).
        rewrite (Hall o) in Hp; [discriminate |].
        apply list_elem_of_In. eapply list_elem_of_lookup_2. exact Ho.
  - intros r2 Hf.
    destruct (find_potential_ally_sound s r r2 char ch Hr Hf) as (o & Ho & Hp).
    exists o. split; [exact Ho |]. now apply potential_ally_spec.
Qed.

Lemma X5_witness :
  exists other,
    characters (ship_with three_sailors []) !! 1%nat = Some other /\
    id other <> 1%Z.
Proof.
  destruct (X5_potential_ally_is_new_and_akin (ship_with three_sailors []) 0
              (sailor 1 "Ann") first_pick eq_refl) as [_ H].
  - intros n Hn. simpl. exact Hn.
  - destruct (H 1%nat eq_refl) as (other & Ho & Hid & _).
    exists other. split; [exact Ho | exact Hid].
Defined.

(** X6.  Once [_form_alliance] has joined two characters, neither can be
    offered the other again: whatever [random.choice] draws, a potential
    ally found for the first never has the second's id, and a potential
    ally found for the second never has the first's. *)
Theorem X6_allies_are_not_offered_again :
  forall (s : Ship) (r1 r2 : nat) (c1 c2 : Character) (choice : string)
         (ch : Chooser) (r : nat),
    characters s !! r1 = Some c1 ->
    characters s !! r2 = Some c2 ->
    let s' := _form_alliance s r1 r2 choice in
    (_find_potential_ally s' r1 ch = Some r ->
     exists other, characters s' !! r = Some other /\ id other <> id c2) /\
    (_find_potential_ally s' r2 ch = Some r ->
     exists other, characters s' !! r = Some other /\ id other <> id c1).
Proof.
  intros s r1 r2 c1 c2 choice ch r H1 H2 s'.
  assert (Hcs : characters s' =
                alter (add_ally (id c1)) r2 (alter (add_ally (id c2)) r1 (characters s))).
  { subst s'. unfold _form_alliance. rewrite H1, H2. simpl.
    destruct (join_existing (id c1) (id c2) (alliances s)); reflexivity. }
  assert (Hl1 : (r1 < length (characters s))%nat) by (eapply lookup_lt_Some; eauto).
  assert (Hl2 : (r2 < length (characters s))%nat) by (eapply lookup_lt_Some; eauto).
  assert (A1 : exists c1', characters s' !! r1 = Some c1' /\ id c1' = id c1 /\
                           id c2 ∈ char_alliances c1').
  { rewrite Hcs. destruct (decide (r1 = r2)) as [<- | Hne].
    - rewrite list_lookup_alter_eq, list_lookup_alter_eq, H1. simpl.
      eexists. split; [reflexivity |]. simpl. split; [reflexivity | set_unfold; tauto].
    - rewrite list_lookup_alter_ne by congruence.
      rewrite list_lookup_alter_eq, H1. simpl.
      eexists. split; [reflexivity |]. simpl. split; [reflexivity | set_unfold; tauto]. }
  assert (A2 : exists c2', characters s' !! r2 = Some c2' /\ id c2' = id c2 /\
                           id c1 ∈ char_alliances c2').
  { rewrite Hcs. rewrite list_lookup_alter_eq.
    destruct (decide (r1 = r2)) as [<- | Hne].
    - rewrite list_lookup_alter_eq, H1. simpl.
      eexists. split; [reflexivity |]. simpl.
      assert (c1 = c2) by congruence. subst c2.
      split; [reflexivity | set_unfold; tauto].
    - rewrite list_lookup_alter_ne by congruence. rewrite H2. simpl.
      eexists. split; [reflexivity |]. simpl. split; [reflexivity | set_unfold; tauto]. }
  destruct A1 as (c1' & Hc1' & _ & Hin1). destruct A2 as (c2' & Hc2' & _ & Hin2).
  split; intros Hf.
  - destruct (find_potential_ally_sound s' r1 r c1' ch Hc1' Hf) as (o & Ho & Hp).
    apply potential_ally_spec in Hp. destruct Hp as (_ & Hn & _).
    exists o. split; [exact Ho |]. intros Heq. rewrite Heq in Hn. contradiction.
  - destruct (find_potential_ally_sound s' r2 r c2' ch Hc2' Hf) as (o & Ho & Hp).
    apply potential_ally_spec in Hp. destruct Hp as (_ & Hn & _).
    exists o. split; [exact Ho |]. intros Heq. rewrite Heq in Hn. contradiction.
Qed.

Lemma X6_witness :
  exists other,
    characters (_form_alliance (ship_with three_sailors []) 0 1 "identity") !! 2%nat
    = Some other /\ id other <> 2%Z.
Proof.
  apply (X6_allies_are_not_offered_again (ship_with three_sailors []) 0 1
           (sailor 1 "Ann") (sailor 2 "Bo") "identity" first_pick 2 eq_refl eq_refl).
  reflexivity.
Defined.

Lemma draw_witnesses_ids (cs : list Character) :
  forall (g : Rng) (w : Z), In w (fst (draw_witnesses cs g)) -> In w (map id cs).
Proof.
  induction cs as [| c cs IH]; intros g w; [simpl; tauto |].
  cbn [draw_witnesses map]. destruct (random g) as [r g1].
  assert (IH' := IH g1 w).
  destruct (draw_witnesses cs g1) as [ws g2]. simpl in IH'.
  destruct (Qltb r (6 # 10)); simpl.
  - intros [H | H]; [now left | right; now apply IH'].
  - intros H. right. now apply IH'.
Qed.

Lemma remembers_id (d : Z) (event : Event) (ids : list Z) (c c' : Character) :
  remembers d event ids c c' -> id c' = id c.
Proof.
  unfold remembers. destruct (affected event c).
  - intros (ws & -> & _). reflexivity.
  - now intros ->.
Qed.

Lemma process_loop_spec (d : Z) (event : Event) (ids : list Z) (todo : list Character) :
  forall (done : list Character) (g : Rng),
    map id (done ++ todo) = ids ->
    exists out,
      fst (process_loop d event done todo g) = done ++ out /\
      Forall2 (remembers d event ids) todo out.
Proof.
  induction todo as [| c rest IH]; intros done g Hids; simpl.
  - exists []. rewrite app_nil_r. split; [reflexivity | constructor].
  - destruct (affected event c) eqn:Ea.
    + destruct (draw_witnesses (done ++ c :: rest) g) as [ws g1] eqn:Ed.
      set (c' := add_memory c d (ev_description event) (_generate_interpretation c event)
                   (Qabs (py_sum (map snd (impact event)))) ws).
      destruct (IH (done ++ [c']) g1) as (out & Hout & Hall).
      { rewrite <- Hids, <- app_assoc, !map_app. reflexivity. }
      exists (c' :: out). split.
      * rewrite Hout, <- app_assoc. reflexivity.
      * constructor; [| exact Hall]. unfold remembers. rewrite Ea.
        exists ws. split; [reflexivity |]. intros w Hw. rewrite <- Hids.
        apply (draw_witnesses_ids _ g). rewrite Ed. exact Hw.
    + destruct (IH (done ++ [c]) g) as (out & Hout & Hall).
      { rewrite <- Hids, <- app_assoc. reflexivity. }
      exists (c :: out). split.
      * rewrite Hout, <- app_assoc. reflexivity.
      * constructor; [| exact Hall]. unfold remembers. rewrite Ea. reflexivity.
Qed.

(** X7.  [_process_event] appends the event to the ship's history and
    visits every character once, keeping the order of the crew.  A
    character none of whose groups is affected is left exactly as it
    was.  An affected character gains one memory, after the ones it had,
    holding the day, the event's description, the reading its ideology
    gives and the absolute value of the summed impacts; every witness
    recorded is the id of a character of the ship; and its stress ends
    within [0,100]. *)
Theorem X7_process_event_marks_the_affected :
  forall (v : Voyage) (event : Event) (g : Rng),
    let v' := fst (_process_event v event g) in
    events v' = events v ++ [event] /\
    length (characters (ship v')) = length (characters (ship v)) /\
    forall (i : nat) (c : Character),
      characters (ship v) !! i = Some c ->
      exists c',
        characters (ship v') !! i = Some c' /\
        (affected event c = false -> c' = c) /\
        (affected event c = true ->
         0 <= stress c' <= 100 /\
         needs c' = needs c /\
         exists witnesses,
           (forall w, In w witnesses -> In w (map id (characters (ship v)))) /\
           memories c' =
             memories c ++
             [ {| mem_day := day (ship v); mem_event := ev_description event;
                  mem_interpretation := _generate_interpretation c event;
                  mem_emotional_impact := Qabs (py_sum (map snd (impact event)));
                  mem_witnesses := witnesses |} ]).
Proof.
  intros v event g v'. subst v'. unfold _process_event.
  destruct (process_loop_spec (day (ship v)) event (map id (characters (ship v)))
              (characters (ship v)) [] g eq_refl) as (out & Hout & Hall).
  destruct (process_loop (day (ship v)) event [] (characters (ship v)) g) as [cs g'].
  simpl in *. subst cs.
  split; [reflexivity |]. split; [symmetry; eapply Forall2_length; exact Hall |].
  intros i c Hc.
  destruct (Forall2_lookup_l _ _ _ _ _ Hall Hc) as (c' & Hc' & Hrel).
  exists c'. split; [exact Hc' |]. unfold remembers in Hrel.
  destruct (affected event c).
  - split; [discriminate |]. intros _. destruct Hrel as (ws & -> & Hws).
    split; [simpl; apply py_clamp_range; lra |]. split; [reflexivity |].
    exists ws. split; [exact Hws | reflexivity].
  - split; [intros _; exact Hrel | discriminate].
Qed.

Lemma X7_witness :
  exists c',
    characters (ship (fst (_process_event
                             {| ship := ship_with [cold_passenger; sailor 1 "Ann"] [];
                                events := [] |}
                             (_create_scarcity_event 3) even_draws))) !! 1%nat
    = Some c' /\ stress c' == 50 + 3 * (1 # 2).
Proof.
  destruct (X7_process_event_marks_the_affected
              {| ship := ship_with [cold_passenger; sailor 1 "Ann"] []; events := [] |}
              (_create_scarcity_event 3) even_draws) as (_ & _ & H).
  destruct (H 1%nat (sailor 1 "Ann") eq_refl) as (c' & Hc' & _ & _).
  exists c'. split; [exact Hc' |].
  vm_compute in Hc'. injection Hc' as <-. reflexivity.
Defined.

Lemma check_protest_nonempty (s : Ship) :
  characters s <> [] ->
  _check_protest_conditions s =
  Some ((3 <=? length (List.filter
                         (fun c => match get_critical_needs c with
                                   | [] => false
                                   | _ :: _ => negb (is_captain c)
                                   end) (characters s)))%nat
        && Qltb 60 (py_sum (map stress (characters s))
                    / inject_Z (Z.of_nat (length (characters s))))).
Proof.
  intros Hne. unfold _check_protest_conditions.
  destruct (characters s); [contradiction | reflexivity].
Qed.

(** X8.  [_check_protest_conditions] divides by the number of characters:
    on a ship without characters it raises [ZeroDivisionError], and on
    any other ship it returns.  It returns True exactly when at least
    three characters other than the captain have a critical need and the
    summed stress exceeds 60 times the size of the crew. *)
Theorem X8_protest_check_needs_a_crew :
  forall s : Ship,
    (_check_protest_conditions s = None <-> characters s = []) /\
    (forall b : bool,
        _check_protest_conditions s = Some b ->
        (b = true <->
         (3 <= length (List.filter
                         (fun c => match get_critical_needs c with
                                   | [] => false
                                   | _ :: _ => negb (is_captain c)
                                   end) (characters s)))%nat /\
         60 * inject_Z (Z.of_nat (length (characters s)))
         < py_sum (map stress (characters s)))).
Proof.
  intros s.
  assert (Hcases : characters s = [] \/ characters s <> [])
    by (destruct (characters s); [left | right]; congruence).
  destruct Hcases as [Hnil | Hne].
  - unfold _check_protest_conditions. rewrite Hnil.
    split; [tauto | discriminate].
  - rewrite (check_protest_nonempty s Hne).
    split; [split; [discriminate | contradiction] |].
    intros b Hb. apply (inj Some) in Hb. rewrite <- Hb. clear Hb.
    assert (Hpos : 0 < inject_Z (Z.of_nat (length (characters s)))).
    { change 0 with (inject_Z 0). rewrite <- Zlt_Qlt.
      destruct (characters s); [contradiction | simpl; lia]. }
    set (n := inject_Z (Z.of_nat (length (characters s)))) in *.
    assert (Hd : py_sum (map stress (characters s)) / n * n
                 == py_sum (map stress (characters s))).
    { field. intros H0. rewrite H0 in Hpos. lra. }
    rewrite andb_true_iff, Nat.leb_le, Qltb_lt.
    split; intros [H1 H2]; (split; [exact H1 |]).
    + apply (Qmult_lt_r _ _ _ Hpos) in H2. rewrite Hd in H2. exact H2.
    + apply Qlt_shift_div_l; [exact Hpos | exact H2].
Qed.

Lemma X8_witness :
  _check_protest_conditions (ship_with three_sailors []) = Some false.
Proof.
  destruct (_check_protest_conditions (ship_with three_sailors [])) as [b |] eqn:E.
  - destruct b; [| reflexivity].
    destruct (proj2 (X8_protest_check_needs_a_crew (ship_with three_sailors []))
                true E) as [H _].
    destruct (H eq_refl) as [H3 _]. vm_compute in H3. lia.
  - apply (proj1 (X8_protest_check_needs_a_crew (ship_with three_sailors []))) in E.
    discriminate E.
Defined.

Lemma update_alliance_drifts (a : Alliance) (g : Rng) :
  unit_draws g ->
  drifted 5 a (fst (fst (update_alliance a g))) /\
  draws (snd (update_alliance a g)) = draws g.
Proof.
  intros Hg. destruct (update_alliance a g) as [[a' o] g'] eqn:E.
  cbn [fst snd]. unfold update_alliance in E. unfold drifted.
  destruct (broken a) eqn:Eb.
  - injection E as <- _ <-. rewrite Eb. repeat split; try lra; auto.
  - unfold uniform, random in E. cbv zeta in E. cbn [cursor draws] in E.
    destruct (Qltb (draws g (cursor g)) (1 # 10)) eqn:E1.
    + set (u := -5 + (5 - -5) * draws g (S (cursor g))) in *.
      assert (Hu : -5 <= u <= 5).
      { subst u. destruct (Hg (S (cursor g))) as [H0 H1]. split; lra. }
      clearbody u.
      destruct (Qltb (strength (set_strength a (strength a + u))) 20) eqn:E2;
        injection E as <- _ <-;
        cbn [strength set_strength set_broken members purpose
             created_day broken draws] in *.
      * apply Qltb_lt in E2.
        split; [| reflexivity]. do 3 (split; [reflexivity |]).
        split; [lra |]. split; [discriminate |]. intros _. right. exact E2.
      * split; [| reflexivity]. do 3 (split; [reflexivity |]).
        split; [lra |]. split; [discriminate |].
        intros H. rewrite Eb in H. discriminate H.
    + injection E as <- _ <-. rewrite Eb. repeat split; try lra; auto.
Qed.

Lemma update_alliance_list_drifts (al : list Alliance) :
  forall g : Rng,
    unit_draws g ->
    Forall2 (drifted 5) al (fst (fst (update_alliance_list al g))) /\
    draws (snd (update_alliance_list al g)) = draws g.
Proof.
  induction al as [| a l IH]; intros g Hg.
  - split; [constructor | reflexivity].
  - cbn [update_alliance_list].
    destruct (update_alliance_drifts a g Hg) as [Ha Hd].
    destruct (update_alliance a g) as [[a' o1] g1] eqn:E1. simpl in Ha, Hd.
    assert (Hg1 : unit_draws g1) by (intros n; rewrite Hd; apply Hg).
    destruct (IH g1 Hg1) as [Hl Hd'].
    destruct (update_alliance_list l g1) as [[l' o2] g2] eqn:E2. simpl in *.
    split; [constructor; assumption | congruence].
Qed.

Lemma drifted_trans (b1 b2 : Q) (a1 a2 a3 : Alliance) :
  drifted b1 a1 a2 -> drifted b2 a2 a3 -> drifted (b1 + b2) a1 a3.
Proof.
  intros (M1 & P1 & C1 & S1 & B1 & F1) (M2 & P2 & C2 & S2 & B2 & F2).
  unfold drifted. repeat split; try congruence; try lra.
  - intros Hb. specialize (B1 Hb). subst a2. now apply B2.
  - intros Hb. destruct (F2 Hb) as [H2 | H2]; [| now right].
    destruct (broken a1) eqn:E1; [now left |].
    destruct (F1 H2) as [H1 | H1]; [discriminate H1 |].
    right. destruct (broken a2) eqn:E2; [| discriminate H2].
    rewrite (B2 eq_refl). exact H1.
Qed.

(** X9.  Any number [n] of ticks of [_update_alliances], for draws within
    [0,1): the registry keeps its length and order; each alliance keeps
    its members, purpose and day of creation; its strength has moved by
    at most 5 per tick; an alliance that was broken is exactly as it was,
    and a live one is flagged broken only with a strength under 20.  The
    characters and the captain's authority are not touched. *)
Theorem X9_alliances_drift_within_bounds :
  forall (n : nat) (s : Ship) (g : Rng),
    unit_draws g ->
    Forall2 (drifted (5 * inject_Z (Z.of_nat n)))
            (alliances s) (alliances (fst (ticks n s g))) /\
    characters (fst (ticks n s g)) = characters s /\
    captain_authority (fst (ticks n s g)) = captain_authority s /\
    heading (fst (ticks n s g)) = heading s.
Proof.
  induction n as [| n IH]; intros s g Hg.
  - simpl. repeat split.
    apply Forall_Forall2_diag, Forall_forall. intros a _.
    unfold drifted. repeat split; try lra; auto.
    + change (inject_Z (Z.of_nat 0)) with 0. lra.
    + change (inject_Z (Z.of_nat 0)) with 0. lra.
  - cbn [ticks].
    destruct (update_alliance_list_drifts (alliances s) g Hg) as [H1 Hd].
    unfold _update_alliances.
    destruct (update_alliance_list (alliances s) g) as [[al out] g1] eqn:E.
    simpl in H1, Hd.
    set (s1 := {| day := day s; temperature := temperature s; heading := heading s;
                  danger_level := danger_level s;
                  captain_authority := captain_authority s;
                  social_cohesion := social_cohesion s;
                  philosophical_tension := philosophical_tension s;
                  characters := characters s; alliances := al;
                  printed := printed s ++ out |}).
    assert (Hg1 : unit_draws g1) by (intros k; rewrite Hd; apply Hg).
    destruct (IH s1 g1 Hg1) as (H2 & Hc & Ha & Hh).
    repeat split; try assumption.
    change (alliances s1) with al in H2.
    assert (Hn : 5 * inject_Z (Z.of_nat (S n)) == 5 + 5 * inject_Z (Z.of_nat n)).
    { rewrite Nat2Z.inj_succ. unfold Z.succ. rewrite inject_Z_plus.
      change (inject_Z 1) with 1. ring. }
    revert H2. generalize (alliances (fst (ticks n s1 g1))).
    clear -H1 Hn. induction H1 as [| a a1 l l1 Ha Hl IHl]; intros l2 H2.
    + inversion H2. constructor.
    + inversion H2 as [| ? a2 ? l2' Ha2 Hl2]; subst. constructor; [| now apply IHl].
      pose proof (drifted_trans _ _ _ _ _ Ha Ha2) as (M & P & C & S & B & F).
      unfold drifted. repeat split; try assumption; rewrite Hn; lra.
Qed.

Lemma X9_witness :
  Forall2 (drifted (5 * inject_Z (Z.of_nat 2)))
          [pact] (alliances (fst (ticks 2 (ship_with three_sailors [pact]) even_draws))).
Proof.
  apply (X9_alliances_drift_within_bounds 2 (ship_with three_sailors [pact]) even_draws).
  intros n. simpl. split; lra.
Defined.

End VoyageProperties.

(** ** The relationship graph over sequences of calls *)

Section SocialRunProperties.
Import character social_system social_runs.

Lemma joins_swap (u v a b : string) (d d' : EdgeData) :
  joins u v (a, b, d) = joins a b (u, v, d').
Proof.
  unfold joins.
  rewrite (String.eqb_sym u a), (String.eqb_sym v b),
          (String.eqb_sym u b), (String.eqb_sym v a).
  destruct (String.eqb a u), (String.eqb b v), (String.eqb b u), (String.eqb a v);
    reflexivity.
Qed.

Lemma joins_data (u v a b : string) (d d' : EdgeData) :
  joins u v (a, b, d) = joins u v (a, b, d').
Proof. reflexivity. Qed.

Lemma edge_data_sym (g : Graph) (u v : string) : edge_data g u v = edge_data g v u.
Proof.
  unfold edge_data. induction (edges g) as [| e l IH]; [reflexivity |].
  simpl. rewrite (joins_sym u v e). destruct (joins v u e); [reflexivity | exact IH].
Qed.

(** Two pairs of names that one edge joins are joined by the same edges. *)
Lemma joins_both (u v x y : string) (e e' : string * string * EdgeData) :
  joins u v e = true -> joins x y e = true -> joins x y e' = joins u v e'.
Proof.
  destruct e as [[a b] d], e' as [[a' b'] d']. unfold joins.
  intros H1 H2.
  apply orb_true_iff in H1. apply orb_true_iff in H2.
  repeat rewrite andb_true_iff in *. repeat rewrite String.eqb_eq in *.
  destruct H1 as [[-> ->] | [-> ->]], H2 as [[-> ->] | [-> ->]];
    repeat match goal with
           | |- context [String.eqb ?p ?q] => destruct (String.eqb p q)
           end; reflexivity.
Qed.

Lemma find_alter_edge_same (f : EdgeData -> EdgeData) (u v : string)
  (es : list (string * string * EdgeData)) :
  List.find (joins u v) (alter_edge f u v es) =
  match List.find (joins u v) es with
  | Some e => Some (fst e, f (snd e))
  | None => None
  end.
Proof.
  induction es as [| [[a b] d] l IH]; [reflexivity |].
  cbn [alter_edge List.find].
  destruct (joins u v (a, b, d)) eqn:E.
  - cbn [List.find fst snd]. rewrite (joins_data u v a b (f d) d), E. reflexivity.
  - cbn [List.find]. rewrite E. exact IH.
Qed.

Lemma find_alter_edge_other (f : EdgeData -> EdgeData) (u v x y : string)
  (es : list (string * string * EdgeData)) :
  (forall e, joins u v e = true -> joins x y e = false) ->
  List.find (joins x y) (alter_edge f u v es) = List.find (joins x y) es.
Proof.
  intros Hsep. induction es as [| [[a b] d] l IH]; [reflexivity |].
  cbn [alter_edge List.find].
  destruct (joins u v (a, b, d)) eqn:E.
  - cbn [List.find fst snd]. rewrite (joins_data x y a b (f d) d).
    rewrite (Hsep _ E). reflexivity.
  - cbn [List.find]. destruct (joins x y (a, b, d)); [reflexivity | exact IH].
Qed.

Lemma edge_data_alter_same (f : EdgeData -> EdgeData) (g : Graph) (u v : string)
  (ns : list (string * Character)) :
  edge_data {| nodes := ns; edges := alter_edge f u v (edges g) |} u v =
  option_map f (edge_data g u v).
Proof.
  unfold edge_data. cbn [edges]. rewrite find_alter_edge_same.
  destruct (List.find (joins u v) (edges g)); reflexivity.
Qed.

Lemma edge_data_alter_other (f : EdgeData -> EdgeData) (g : Graph) (u v x y : string)
  (ns : list (string * Character)) :
  (forall e, joins u v e = true -> joins x y e = false) ->
  edge_data {| nodes := ns; edges := alter_edge f u v (edges g) |} x y =
  edge_data g x y.
Proof.
  intros Hsep. unfold edge_data. cbn [edges].
  now rewrite find_alter_edge_other.
Qed.

(** Pairs of names other than [{u, v}]. *)
Lemma other_pair (u v x y : string) (d : EdgeData) :
  joins x y (u, v, d) = false ->
  forall e, joins u v e = true -> joins x y e = false.
Proof.
  intros Hxy [[a b] d'] He. unfold joins in *.
  apply orb_true_iff in He. repeat rewrite andb_true_iff in He.
  repeat rewrite String.eqb_eq in He.
  destruct He as [[-> ->] | [-> ->]]; [exact Hxy |].
  rewrite orb_comm. exact Hxy.
Qed.

Lemma alter_edge_length (f : EdgeData -> EdgeData) (u v : string)
  (es : list (string * string * EdgeData)) :
  length (alter_edge f u v es) = length es.
Proof.
  induction es as [| e l IH]; [reflexivity |].
  cbn [alter_edge]. destruct (joins u v e); simpl; congruence.
Qed.

(** X10.  [update_relationship] between two characters who already share
    an edge: afterwards the edge carries, read from either end, the old
    strength plus 0.2 for a cooperation, minus 0.3 for a conflict and
    plus 0 for any other interaction, clamped to [0,1].  A type other
    than neutral is kept whatever the interaction, so a friendship stays
    a friendship through conflicts; only a neutral edge takes the type of
    the interaction.  The nodes, the number of edges and the data of
    every other pair are unchanged. *)
Theorem X10_update_keeps_an_established_type :
  forall (s : SocialSystem) (c1 c2 : Character) (it : string) (d : EdgeData),
    edge_data (social_graph s) (name c1) (name c2) = Some d ->
    let g' := social_graph (fst (update_relationship s c1 c2 it)) in
    exists d',
      edge_data g' (name c1) (name c2) = Some d' /\
      edge_data g' (name c2) (name c1) = Some d' /\
      (rel_type d <> NEUTRAL -> rel_type d' = rel_type d) /\
      (it = "cooperation"%string ->
       weight d' = py_max 0 (py_min 1 (weight d + (2 # 10))) /\
       (rel_type d = NEUTRAL -> rel_type d' = FRIENDSHIP)) /\
      (it = "conflict"%string ->
       weight d' = py_max 0 (py_min 1 (weight d + - (3 # 10))) /\
       (rel_type d = NEUTRAL -> rel_type d' = CONFLICT)) /\
      (it <> "cooperation"%string -> it <> "conflict"%string ->
       weight d' = py_max 0 (py_min 1 (weight d + 0)) /\ rel_type d' = rel_type d) /\
      nodes g' = nodes (social_graph s) /\
      length (edges g') = length (edges (social_graph s)) /\
      (forall x y : string,
          joins x y (name c1, name c2, d) = false ->
          edge_data g' x y = edge_data (social_graph s) x y).
Proof.
  intros s c1 c2 it d Hd g'. subst g'.
  set (u := name c1) in *. set (v := name c2) in *.
  assert (Hfind : exists e, List.find (joins u v) (edges (social_graph s)) = Some e
                            /\ snd e = d).
  { unfold edge_data in Hd.
    destruct (List.find (joins u v) (edges (social_graph s))) as [e |];
      [| discriminate]. exists e. split; [reflexivity | congruence]. }
  destruct Hfind as (e & Hfind & He).
  assert (Hsame : forall f es', es' = alter_edge f u v (edges (social_graph s)) ->
            forall ns, edge_data {| nodes := ns; edges := es' |} u v = Some (f d)).
  { intros f es' -> ns. unfold edge_data. cbn [edges].
    rewrite find_alter_edge_same, Hfind. cbn [snd]. now rewrite He. }
  unfold update_relationship. fold u v. rewrite Hd.
  destruct (String.eqb_spec it "cooperation") as [Hc | Hc];
    [| destruct (String.eqb_spec it "conflict") as [Hf | Hf]]; cbv zeta.
  - destruct (RelationshipType_eqb (rel_type d) NEUTRAL) eqn:En;
      (cbn [fst social_graph logging set_graph nodes edges];
       eexists; (split; [| split]);
       [ unfold edge_data; cbn [edges]; rewrite ?find_alter_edge_same, Hfind;
         cbn [snd fst]; rewrite He; reflexivity
       | rewrite edge_data_sym; unfold edge_data; cbn [edges];
         rewrite ?find_alter_edge_same, Hfind; cbn [snd fst]; rewrite He; reflexivity
       | cbn [weight rel_type]; rewrite ?alter_edge_length ]).
    + repeat split; try reflexivity; try congruence.
      * intros Hn. destruct (rel_type d); try discriminate En. now elim Hn.
      * intros x y Hxy. unfold edge_data. cbn [edges].
        rewrite !find_alter_edge_other by (apply (other_pair u v x y d); exact Hxy).
        reflexivity.
    + repeat split; try reflexivity; try congruence.
      * intros Hn. rewrite Hn in En. discriminate En.
      * intros x y Hxy. unfold edge_data. cbn [edges].
        rewrite !find_alter_edge_other by (apply (other_pair u v x y d); exact Hxy).
        reflexivity.
  - destruct (RelationshipType_eqb (rel_type d) NEUTRAL) eqn:En;
      (cbn [fst social_graph logging set_graph nodes edges];
       eexists; (split; [| split]);
       [ unfold edge_data; cbn [edges]; rewrite ?find_alter_edge_same, Hfind;
         cbn [snd fst]; rewrite He; reflexivity
       | rewrite edge_data_sym; unfold edge_data; cbn [edges];
         rewrite ?find_alter_edge_same, Hfind; cbn [snd fst]; rewrite He; reflexivity
       | cbn [weight rel_type]; rewrite ?alter_edge_length ]).
    + repeat split; try reflexivity; try congruence.
      * intros Hn. destruct (rel_type d); try discriminate En. now elim Hn.
      * intros x y Hxy. unfold edge_data. cbn [edges].
        rewrite !find_alter_edge_other by (apply (other_pair u v x y d); exact Hxy).
        reflexivity.
    + repeat split; try reflexivity; try congruence.
      * intros Hn. rewrite Hn in En. discriminate En.
      * intros x y Hxy. unfold edge_data. cbn [edges].
        rewrite !find_alter_edge_other by (apply (other_pair u v x y d); exact Hxy).
        reflexivity.
  - cbn [fst social_graph logging set_graph nodes edges].
    eexists. split; [| split].
    + unfold edge_data. cbn [edges]. rewrite find_alter_edge_same, Hfind.
      cbn [snd fst]. rewrite He. reflexivity.
    + rewrite edge_data_sym. unfold edge_data. cbn [edges].
      rewrite find_alter_edge_same, Hfind. cbn [snd fst]. rewrite He. reflexivity.
    + cbn [weight rel_type]. rewrite alter_edge_length.
      repeat split; try reflexivity; try congruence.
      intros x y Hxy. unfold edge_data. cbn [edges].
      rewrite !find_alter_edge_other by (apply (other_pair u v x y d); exact Hxy).
      reflexivity.
Qed.

Lemma X10_witness :
  exists d',
    edge_data (social_graph (fst (update_relationship two_friends ann bob "conflict")))
              "Ann" "Bob" = Some d' /\
    rel_type d' = FRIENDSHIP /\ weight d' == 1 # 2.
Proof.
  destruct (X10_update_keeps_an_established_type two_friends ann bob "conflict"
              {| weight := 8 # 10; rel_type := FRIENDSHIP |})
    as (d' & H1 & _ & Ht & _ & Hw & _).
  - reflexivity.
  - exists d'. split; [exact H1 |]. split.
    + apply Ht. discriminate.
    + destruct (Hw eq_refl) as [-> _]. reflexivity.
Defined.

Lemma get_relationships_entries (s : SocialSystem) (a : string) :
  has_node (social_graph s) a = true ->
  exists rels,
    snd (get_relationships s a) = Returned rels /\
    forall b, dict_get b rels = option_map relationship_of (edge_data (social_graph s) a b).
Proof.
  intros Ha. unfold get_relationships. rewrite Ha. cbn [negb snd].
  destruct (relationships_of_spec (social_graph s) a (neighbors (social_graph s) a) [])
    as (rels & Hr & _ & _ & Hv & Ho).
  - intros w Hw. now apply neighbors_edge_data.
  - constructor.
  - exists rels. split; [exact Hr |]. intros b.
    destruct (edge_data (social_graph s) a b) as [d |] eqn:Ed.
    + apply Hv; [| exact Ed]. apply neighbors_edge_data. now exists d.
    + rewrite Ho; [reflexivity |]. intros Hin.
      apply neighbors_edge_data in Hin. destruct Hin as [d Hd]. congruence.
Qed.

(** X11.  Relationships are mutual: for two characters of the graph,
    [get_relationships] of the first lists the second with a strength
    and a type exactly when [get_relationships] of the second lists the
    first with the same strength and type. *)
Theorem X11_relationships_are_mutual :
  forall (s : SocialSystem) (a b : string) (r : Relationship),
    has_node (social_graph s) a = true ->
    has_node (social_graph s) b = true ->
    ((exists rels, snd (get_relationships s a) = Returned rels /\
                   dict_get b rels = Some r) <->
     (exists rels, snd (get_relationships s b) = Returned rels /\
                   dict_get a rels = Some r)).
Proof.
  intros s a b r Ha Hb.
  destruct (get_relationships_entries s a Ha) as (ra & Hra & Ea).
  destruct (get_relationships_entries s b Hb) as (rb & Hrb & Eb).
  split; intros (rels & Hr & Hg).
  - exists rb. split; [exact Hrb |].
    rewrite Hra in Hr. injection Hr as <-.
    rewrite Eb, edge_data_sym, <- Ea. exact Hg.
  - exists ra. split; [exact Hra |].
    rewrite Hrb in Hr. injection Hr as <-.
    rewrite Ea, edge_data_sym, <- Eb. exact Hg.
Qed.

Lemma X11_witness :
  exists rels,
    snd (get_relationships two_friends "Bob") = Returned rels /\
    dict_get "Ann" rels = Some {| strength := 8 # 10; type := "friendship" |}.
Proof.
  apply (X11_relationships_are_mutual two_friends "Ann" "Bob").
  - reflexivity.
  - reflexivity.
  - eexists. split; reflexivity.
Defined.

(** *** Well-formed graphs *)

Lemma joins_ends (x y : string) (e e' : string * string * EdgeData) :
  fst e = fst e' -> joins x y e = joins x y e'.
Proof. destruct e as [[a b] d], e' as [[a' b'] d']. simpl. now intros [= -> ->]. Qed.

Lemma same_ends_In (l l' : list (string * string * EdgeData))
  (e' : string * string * EdgeData) :
  map fst l = map fst l' -> In e' l' -> exists e, In e l /\ fst e = fst e'.
Proof.
  intros Hm Hin. apply (in_map fst) in Hin. rewrite <- Hm in Hin.
  apply in_map_iff in Hin. destruct Hin as (e & He & Hin). now exists e.
Qed.

Lemma one_edge_ends (l : list (string * string * EdgeData)) :
  forall l', map fst l = map fst l' -> one_edge_per_pair l -> one_edge_per_pair l'.
Proof.
  induction l as [| e l IH]; intros [| e' l'] Hm H; try discriminate; [exact I |].
  injection Hm as Hf Hm. destruct H as [H1 H2]. split; [| now apply IH].
  intros x Hx. destruct (same_ends_In l l' x Hm Hx) as (x0 & Hx0 & Hfx).
  rewrite <- Hf, <- (joins_ends _ _ x0 x Hfx). now apply H1.
Qed.

Lemma alter_edge_ends (f : EdgeData -> EdgeData) (u v : string)
  (es : list (string * string * EdgeData)) :
  map fst (alter_edge f u v es) = map fst es.
Proof.
  induction es as [| e l IH]; [reflexivity |].
  cbn [alter_edge]. destruct (joins u v e); simpl; congruence.
Qed.

Lemma decay_ends (rate : Q) (es : list (string * string * EdgeData)) :
  map fst (map (decay_edge rate) es) = map fst es.
Proof.
  induction es as [| [[a b] d] l IH]; [reflexivity |]. simpl. now rewrite IH.
Qed.

Lemma one_edge_filter (P : string * string * EdgeData -> bool)
  (es : list (string * string * EdgeData)) :
  one_edge_per_pair es -> one_edge_per_pair (List.filter P es).
Proof.
  induction es as [| e l IH]; [trivial |]. intros [H1 H2]. simpl.
  destruct (P e); [| now apply IH]. split; [| now apply IH].
  intros e' He'. apply filter_In in He'. now apply H1.
Qed.

Lemma one_edge_remove (pairs : list (string * string)) :
  forall es, one_edge_per_pair es -> one_edge_per_pair (fold_left remove_edge pairs es).
Proof.
  induction pairs as [| p ps IH]; intros es H; [exact H |].
  simpl. apply IH. now apply one_edge_filter.
Qed.

Lemma one_edge_app (es : list (string * string * EdgeData)) (u v : string) (d : EdgeData) :
  one_edge_per_pair es ->
  (forall e, In e es -> joins u v e = false) ->
  one_edge_per_pair (es ++ [(u, v, d)]).
Proof.
  induction es as [| [[a b] d0] l IH]; intros H Hno.
  - simpl. split; [intros e [] | exact I].
  - destruct H as [H1 H2]. simpl. split.
    + intros e' He'. apply in_app_or in He'. destruct He' as [He' | [<- | []]].
      * now apply H1.
      * rewrite (joins_swap a b u v d d0). apply Hno. now left.
    + apply IH; [exact H2 |]. intros e He. apply Hno. now right.
Qed.

(** The ends of the edges are among the names [ns]. *)
Lemma ends_of (ns : list (string * Character)) (l l' : list (string * string * EdgeData)) :
  (forall e', In e' l' -> exists e, In e l /\ fst e = fst e') ->
  ends_are_nodes {| nodes := ns; edges := l |} ->
  ends_are_nodes {| nodes := ns; edges := l' |}.
Proof.
  unfold ends_are_nodes. cbn [edges]. rewrite !List.Forall_forall.
  intros Hsub H e' He'. destruct (Hsub e' He') as (e & He & Hf).
  rewrite <- Hf. unfold has_node in *. cbn [nodes] in *. now apply H.
Qed.

Lemma remove_sub (pairs : list (string * string)) (es : list (string * string * EdgeData))
  (e' : string * string * EdgeData) :
  In e' (fold_left remove_edge pairs es) -> exists e, In e es /\ fst e = fst e'.
Proof. intros H. apply remove_edges_spec in H. exists e'. tauto. Qed.

Lemma graph_eta (g : Graph) : g = {| nodes := nodes g; edges := edges g |}.
Proof. now destruct g. Qed.

Lemma dict_mem_app {V : Type} (k : string) (d d' : list (string * V)) :
  dict_mem k d = true -> dict_mem k (d ++ d') = true.
Proof.
  unfold dict_mem. induction d as [| [k' v'] l IH]; simpl; [discriminate |].
  destruct (String.eqb k k'); [reflexivity | exact IH].
Qed.

Lemma add_relationship_well_formed (s : SocialSystem) (c1 c2 : Character) (w : Q)
  (t : RelationshipType) :
  well_formed (social_graph s) ->
  well_formed (social_graph (fst (add_relationship s c1 c2 w t))).
Proof.
  intros (Hd & Hn & He & Ho). unfold add_relationship.
  destruct (has_node (social_graph s) (name c1)) eqn:N1; [| exact (conj Hd (conj Hn (conj He Ho)))].
  destruct (has_node (social_graph s) (name c2)) eqn:N2; [| exact (conj Hd (conj Hn (conj He Ho)))].
  cbn [negb orb fst logging set_graph social_graph]. unfold add_edge, has_edge.
  destruct (edge_data (social_graph s) (name c1) (name c2)) as [d |] eqn:Ed.
  - split; [exact Hd |]. split; [exact Hn |]. split.
    + rewrite (graph_eta (social_graph s)) in He. revert He. apply ends_of.
      intros e' He'. eapply same_ends_In; [| exact He']. symmetry. apply alter_edge_ends.
    + cbn [edges]. eapply one_edge_ends; [| exact Ho]. symmetry. apply alter_edge_ends.
  - split; [exact Hd |]. split; [exact Hn |]. split.
    + unfold ends_are_nodes in *. cbn [edges]. apply Forall_app. split.
      * exact He.
      * constructor; [| constructor]. cbn [fst snd]. unfold has_node in *. now split.
    + cbn [edges]. apply one_edge_app; [exact Ho |]. now apply edge_data_none.
Qed.

Lemma call_well_formed (s : SocialSystem) (m : Call) :
  well_formed (social_graph s) -> well_formed (social_graph (call s m)).
Proof.
  intros Hwf. destruct m as [c | c1 c2 w t | c1 c2 it | rate | n |]; cbn [call].
  - destruct Hwf as (Hd & Hn & He & Ho).
    split; [now apply add_character_distinct |].
    unfold add_character.
    destruct (has_node (social_graph s) (name c)) eqn:N; cbn [fst logging set_graph social_graph];
      [now repeat split |].
    unfold add_node. split; [| split].
    + unfold named_nodes in *. cbn [nodes]. apply Forall_app. split; [exact Hn |].
      constructor; [reflexivity | constructor].
    + unfold ends_are_nodes in *. cbn [edges]. rewrite List.Forall_forall in *.
      intros e Hin. destruct (He e Hin) as [H1 H2].
      unfold has_node in *. cbn [nodes]. split; now apply dict_mem_app.
    + exact Ho.
  - now apply add_relationship_well_formed.
  - unfold update_relationship.
    destruct (if String.eqb it "cooperation" then (2 # 10, Some FRIENDSHIP)
              else if String.eqb it "conflict" then (- (3 # 10), Some CONFLICT)
                   else (0, None)) as [change rtc].
    destruct (edge_data (social_graph s) (name c1) (name c2)) as [d |] eqn:Ed.
    + destruct Hwf as (Hd & Hn & He & Ho).
      assert (Hgoal : forall es',
                 map fst es' = map fst (edges (social_graph s)) ->
                 well_formed {| nodes := nodes (social_graph s); edges := es' |}).
      { intros es' Hm. split; [exact Hd |]. split; [exact Hn |]. split.
        - rewrite (graph_eta (social_graph s)) in He. revert He. apply ends_of.
          intros e' He'. eapply same_ends_In; [| exact He']. now symmetry.
        - cbn [edges]. eapply one_edge_ends; [| exact Ho]. now symmetry. }
      destruct rtc as [t' |];
        [destruct (RelationshipType_eqb (rel_type d) NEUTRAL) |];
        cbn [fst logging set_graph social_graph]; apply Hgoal;
        rewrite ?alter_edge_ends; reflexivity.
    + apply (add_relationship_well_formed (logging WARNING s)). exact Hwf.
  - destruct Hwf as (Hd & Hn & He & Ho).
    unfold decay_relationships. cbn [fst social_graph]. unfold remove_edges_from.
    cbn [nodes edges].
    split; [exact Hd |]. split; [exact Hn |]. split.
    + rewrite (graph_eta (social_graph s)) in He. revert He. apply ends_of.
      intros e' He'. apply remove_sub in He'. destruct He' as (e & Hin & Hf).
      destruct (same_ends_In (edges (social_graph s))
                  (map (decay_edge rate) (edges (social_graph s))) e) as (e0 & H0 & Hf0);
        [symmetry; apply decay_ends | exact Hin |].
      exists e0. split; [exact H0 | congruence].
    + cbn [edges]. apply one_edge_remove.
      eapply one_edge_ends; [| exact Ho]. symmetry. apply decay_ends.
  - unfold get_relationships.
    destruct (negb (has_node (social_graph s) n)); exact Hwf.
  - unfold get_most_influential_character.
    destruct (nodes (social_graph s)); [exact Hwf |].
    destruct (influence_scores _ _ _) as [infl | ex]; [| exact Hwf].
    destruct (max_by snd infl) as [[ln sc] | ex]; [| exact Hwf].
    destruct (dict_get ln _); exact Hwf.
Qed.

Lemma neighbors_once (ns : list (string * Character))
  (es : list (string * string * EdgeData)) (n : string) :
  one_edge_per_pair es -> List.NoDup (neighbors {| nodes := ns; edges := es |} n).
Proof.
  induction es as [| [[a b] d] l IH]; intros H; [constructor |].
  destruct H as [H1 H2]. specialize (IH H2).
  change (neighbors {| nodes := ns; edges := (a, b, d) :: l |} n)
    with ((if String.eqb a n then [b] else if String.eqb b n then [a] else [])
          ++ neighbors {| nodes := ns; edges := l |} n).
  assert (Hfresh : forall w, joins n w (a, b, d) = true ->
                     ~ In w (neighbors {| nodes := ns; edges := l |} n)).
  { intros w Hw Hin. apply neighbors_spec in Hin. destruct Hin as (e' & He' & Hj).
    cbn [edges] in He'. specialize (H1 e' He'). cbn [fst snd] in H1.
    rewrite (joins_both n w a b (a, b, d) e' Hw (joins_refl a b d)) in H1.
    congruence. }
  destruct (String.eqb_spec a n) as [-> | Ha].
  - simpl. constructor; [| exact IH]. apply Hfresh.
    unfold joins. now rewrite !String.eqb_refl.
  - destruct (String.eqb_spec b n) as [-> | Hb]; [| exact IH].
    simpl. constructor; [| exact IH]. apply Hfresh.
    unfold joins. rewrite !String.eqb_refl. apply orb_true_r.
Qed.

(** X12.  Whatever methods are called on a new [SocialSystem], in
    whatever order and with whatever arguments, the graph stays well
    formed: node names are distinct and every node is filed under the
    name of its character, every edge joins two characters that were
    added, and no pair of characters is joined by two edges.  So
    [neighbors] lists nobody twice. *)
Theorem X12_reachable_graphs_are_well_formed :
  forall ms : list Call,
    well_formed (social_graph (calls SocialSystem_init ms)) /\
    forall n : string,
      List.NoDup (neighbors (social_graph (calls SocialSystem_init ms)) n).
Proof.
  intros ms.
  assert (Hwf : well_formed (social_graph (calls SocialSystem_init ms))).
  { unfold calls.
    assert (H0 : well_formed (social_graph SocialSystem_init)).
    { repeat split; constructor. }
    revert H0. generalize SocialSystem_init.
    induction ms as [| m ms IH]; intros s H; [exact H |].
    simpl. apply IH. now apply call_well_formed. }
  split; [exact Hwf |]. intros n.
  rewrite (graph_eta (social_graph _)). apply neighbors_once. apply Hwf.
Qed.

Lemma one_edge_unique (es : list (string * string * EdgeData))
  (e e' : string * string * EdgeData) :
  one_edge_per_pair es -> In e es -> In e' es ->
  joins (fst (fst e)) (snd (fst e)) e' = true -> e = e'.
Proof.
  induction es as [| x l IH]; [intros _ [] |]. intros [H1 H2] He He' Hj. destruct He as [-> | He], He' as [-> | He']; [reflexivity | | |].
  - rewrite (H1 e' He') in Hj. discriminate.
  - specialize (H1 e He). destruct e as [[a b] d], e' as [[a' b'] d'].
    cbn [fst snd] in *. rewrite (joins_swap a b a' b' d' d) in Hj. congruence.
  - now apply IH.
Qed.

Lemma find_filter {A : Type} (p P : A -> bool) (l : list A) (x : A) :
  List.find p l = Some x -> P x = true ->
  List.find p (List.filter P l) = Some x.
Proof.
  induction l as [| y l IH]; [discriminate |]. simpl.
  destruct (p y) eqn:Ep.
  - intros [= ->] HP. rewrite HP. simpl. now rewrite Ep.
  - intros Hf HP. destruct (P y); [simpl; rewrite Ep |]; now apply IH.
Qed.

Lemma remove_edges_filter (pairs : list (string * string)) :
  forall es : list (string * string * EdgeData),
    fold_left remove_edge pairs es =
    List.filter (fun e => forallb (fun p => negb (joins (fst p) (snd p) e)) pairs) es.
Proof.
  induction pairs as [| p ps IH]; intros es.
  - simpl. induction es as [| e l IHl]; [reflexivity |]. simpl. now rewrite <- IHl.
  - simpl. rewrite IH. unfold remove_edge.
    induction es as [| e l IHl]; [reflexivity |]. simpl.
    destruct (negb (joins (fst p) (snd p) e)); simpl.
    + destruct (forallb _ ps); [now rewrite IHl | exact IHl].
    + exact IHl.
Qed.

Lemma find_map_decay (rate : Q) (u v : string) (es : list (string * string * EdgeData)) :
  List.find (joins u v) (map (decay_edge rate) es) =
  option_map (decay_edge rate) (List.find (joins u v) es).
Proof.
  induction es as [| [[a b] d] l IH]; [reflexivity |].
  cbn [map List.find].
  change (joins u v (decay_edge rate (a, b, d))) with (joins u v (a, b, d)).
  destruct (joins u v (a, b, d)); [reflexivity | exact IH].
Qed.

(** X13.  [decay_relationships] on a graph with at most one edge per
    pair, read through [G[u][v]]: an edge stronger than the rate loses
    exactly the rate and keeps its type; a pair without an edge gets
    none; the nodes stay.  (An edge no stronger than the rate is
    removed.) *)
Theorem X13_decay_subtracts_the_rate :
  forall (s : SocialSystem) (rate : Q) (u v : string),
    one_edge_per_pair (edges (social_graph s)) ->
    let g' := social_graph (fst (decay_relationships s rate)) in
    (forall d : EdgeData,
        edge_data (social_graph s) u v = Some d ->
        (rate < weight d ->
         edge_data g' u v =
         Some {| weight := weight d - rate; rel_type := rel_type d |}) /\
        (weight d <= rate -> edge_data g' u v = None)) /\
    (edge_data (social_graph s) u v = None -> edge_data g' u v = None) /\
    nodes g' = nodes (social_graph s).
Proof.
  intros s rate u v Hone g'. subst g'. split; [| split; [| reflexivity]].
  - intros d Hd. split.
    + intros Hlt. unfold decay_relationships, remove_edges_from, edge_data.
      cbn [fst social_graph edges nodes]. rewrite remove_edges_filter.
      unfold edge_data in Hd.
      destruct (List.find (joins u v) (edges (social_graph s))) as [[[a b] d0] |] eqn:Ef;
        [| discriminate].
      cbn [snd] in Hd. injection Hd as ->.
      assert (Hpos : Qltb 0 (weight d - rate) = true) by (apply Qltb_lt; lra).
      rewrite (find_filter _ _ _ (decay_edge rate (a, b, d))).
      * cbn [decay_edge snd]. unfold py_max. rewrite Hpos. reflexivity.
      * rewrite find_map_decay, Ef. reflexivity.
      * apply forallb_forall. intros [x y] Hxy. cbn [fst snd].
        apply negb_true_iff. destruct (joins x y (decay_edge rate (a, b, d))) eqn:Ej;
          [exfalso | reflexivity].
        unfold edges_to_remove in Hxy. apply in_flat_map in Hxy.
        destruct Hxy as ([[x' y'] d'] & Hin & Hz).
        destruct (Qeq_bool (weight d') 0) eqn:Ez; [| destruct Hz].
        destruct Hz as [[= -> ->] | []].
        assert (Hone' : one_edge_per_pair (map (decay_edge rate) (edges (social_graph s)))).
        { eapply one_edge_ends; [| exact Hone]. symmetry. apply decay_ends. }
        assert (Hin0 : In (decay_edge rate (a, b, d))
                          (map (decay_edge rate) (edges (social_graph s)))).
        { apply in_map. apply find_some in Ef. tauto. }
        pose proof (one_edge_unique _ (x, y, d') (decay_edge rate (a, b, d))
                      Hone' Hin Hin0 Ej) as Heq.
        cbn [decay_edge] in Heq. injection Heq as _ _ Hw.
        rewrite Hw in Ez. cbn [weight] in Ez. unfold py_max in Ez. rewrite Hpos in Ez.
        apply Qeq_bool_iff in Ez. lra.
    + intros Hle. apply (decay_removes s rate u v d Hd). lra.
  - intros Hn. apply edge_data_none. intros e He.
    unfold decay_relationships, remove_edges_from in He.
    cbn [fst social_graph edges nodes] in He.
    apply remove_sub in He. destruct He as (e1 & He1 & Hf).
    destruct (same_ends_In (edges (social_graph s))
                (map (decay_edge rate) (edges (social_graph s))) e1) as (e0 & H0 & Hf0);
      [symmetry; apply decay_ends | exact He1 |].
    rewrite <- (joins_ends u v e0 e) by congruence.
    rewrite edge_data_none in Hn. now apply Hn.
Qed.

Lemma X13_witness :
  edge_data (social_graph (fst (decay_relationships two_friends (1 # 100)))) "Ann" "Bob"
  = Some {| weight := (8 # 10) - (1 # 100); rel_type := FRIENDSHIP |}.
Proof.
  destruct (X13_decay_subtracts_the_rate two_friends (1 # 100) "Ann" "Bob") as [H _].
  - simpl. split; [intros e [] | exact I].
  - apply (H {| weight := 8 # 10; rel_type := FRIENDSHIP |}); reflexivity.
Defined.

End SocialRunProperties.

(** ** The life of a character (character.py) *)

Section CharacterProperties.
Import character character_life.

Lemma fresh_in_shape (c : Character) : fresh c -> in_shape c c.
Proof.
  intros (n & g & a & sc & eo & so & i & b & t & h & bs & r & ->).
  unfold in_shape, Character_init. cbn.
  split; [now exists 0, 0 |].
  split; [exists 1, 1, 1; repeat split; lra |].
  split; [now exists (1 # 2) |].
  repeat split; auto. exists []. reflexivity.
Qed.

Lemma in_shape_settled (c0 c : Character) : fresh c0 -> in_shape c0 c -> settled c0 c.
Proof.
  intros Hf (Hem & Hne & _ & Htr & Hst & Hh & Hi & Hb & Ht & Ha & Hn & Hm).
  destruct Hem as (a & h & Hem). destruct Hne as (p & so & ps & Hne & Hp & Hso & Hps).
  destruct Hf as (n' & g' & a' & sc' & eo' & so' & i' & b' & t' & h' & bs' & r' & ->).
  unfold settled. cbn in *. rewrite Hem, Hne.
  repeat split; try assumption; try reflexivity; try (cbn; lra).
  repeat constructor; cbn; lra.
Qed.

Lemma with_needs_shape (c0 c : Character) (p so ps : Q) :
  in_shape c0 c -> 0 <= p <= 1 -> 0 <= so <= 1 -> 0 <= ps <= 1 ->
  in_shape c0 (with_needs c (needs_of p so ps)).
Proof.
  intros (Hem & _ & Hrest) Hp Hso Hps. split; [exact Hem |].
  split; [| exact Hrest]. now exists p, so, ps.
Qed.

Lemma with_emotions_shape (c0 c : Character) (a h : Q) :
  in_shape c0 c -> in_shape c0 (with_emotions c (emotions_of a h)).
Proof.
  intros (_ & Hrest). split; [| exact Hrest]. now exists a, h.
Qed.

Lemma with_memory_shape (c0 c : Character) (x : Perception) :
  in_shape c0 c -> in_shape c0 (with_memory c (memory c ++ [x])).
Proof.
  intros (H1 & H2 & H3 & H4 & H5 & H6 & H7 & H8 & H9 & H10 & H11 & later & Hm).
  repeat (split; [assumption |]). exists (later ++ [x]).
  cbn [memory with_memory]. rewrite Hm. now rewrite app_assoc.
Qed.

Lemma with_state_shape (c0 c : Character) (st : PsychologicalState) :
  in_shape c0 c -> st = NORMAL \/ st = ANGRY \/ st = COOPERATIVE ->
  in_shape c0 (with_psychological_state c st).
Proof.
  intros (H1 & H2 & H3 & H4 & _ & Hrest) Hst.
  repeat (split; [assumption |]). exact Hrest.
Qed.

Lemma next_state_shape (c0 c : Character) :
  in_shape c0 c ->
  exists st, next_state c = Returned st /\
             (st = NORMAL \/ st = ANGRY \/ st = COOPERATIVE).
Proof.
  intros ((a & h & Hem) & (p & so & ps & Hne & _) & _ & Htr & _).
  unfold next_state. rewrite Htr, Hem, Hne.
  change (Qltb (8 # 10) 0) with false. cbv iota.
  change (item "anger" (emotions_of a h)) with (Returned a).
  change (item "fear" (emotions_of a h)) with (Returned 0).
  change (item "happiness" (emotions_of a h)) with (Returned h).
  change (item "social" (needs_of p so ps)) with (Returned so).
  cbn [mbind mret outcome_bind outcome_ret].
  change (Qltb (6 # 10) 0) with false. cbv iota.
  destruct (Qltb (7 # 10) a); cbn [mbind mret outcome_bind outcome_ret].
  - destruct (Qltb so (3 # 10)); [eauto |].
    destruct (Qltb (7 # 10) h); cbn [mbind mret outcome_bind outcome_ret]; [| eauto].
    destruct (Qltb (7 # 10) so); eauto.
  - destruct (Qltb (7 # 10) h); cbn [mbind mret outcome_bind outcome_ret]; [| eauto].
    destruct (Qltb (7 # 10) so); eauto.
Qed.

Lemma update_state_shape (c0 c : Character) :
  in_shape c0 c ->
  in_shape c0 (fst (_update_psychological_state c)) /\
  snd (_update_psychological_state c) = Returned tt.
Proof.
  intros H. destruct (next_state_shape c0 c H) as (st & Hs & Hst).
  unfold _update_psychological_state. rewrite Hs. cbn [fst snd].
  split; [now apply with_state_shape | reflexivity].
Qed.

Lemma floor_unit (x : Q) : 0 <= x <= 1 -> 0 <= py_max 0 (x - (1 # 100)) <= 1.
Proof.
  intros H. unfold py_max. destruct (Qltb 0 (x - (1 # 100))) eqn:E; [| lra].
  apply Qltb_lt in E. lra.
Qed.

Lemma update_needs_shape (c0 c : Character) :
  in_shape c0 c ->
  in_shape c0 (fst (update_needs c)) /\ snd (update_needs c) = Returned tt.
Proof.
  intros H.
  destruct H as ((a & h & Hem) & (p & so & ps & Hne & Hp & Hso & Hps) & Hrest) eqn:EH.
  clear EH.
  unfold update_needs. cbn [with_needs needs emotions]. rewrite Hne, Hem.
  change (map _ (needs_of p so ps))
    with (needs_of (py_max 0 (p - (1 # 100))) (py_max 0 (so - (1 # 100)))
                   (py_max 0 (ps - (1 # 100)))).
  change (item "physiological" (needs_of ?x ?y ?z)) with (Returned x).
  change (item "anger" (emotions_of a h)) with (Returned a).
  change (dict_set "anger" ?x (emotions_of a h)) with (emotions_of x h).
  cbv iota.
  assert (H1 : in_shape c0 (with_needs c
             (needs_of (py_max 0 (p - (1 # 100))) (py_max 0 (so - (1 # 100)))
                       (py_max 0 (ps - (1 # 100)))))).
  { apply with_needs_shape; [exact H | | |]; now apply floor_unit. }
  destruct (Qltb (py_max 0 (p - (1 # 100))) (2 # 10)).
  - apply update_state_shape. now apply with_emotions_shape.
  - now apply update_state_shape.
Qed.

Lemma feel_shape (c0 c : Character) (e : string) (factor : Q) (t : BigFive) :
  in_shape c0 c -> e = "happiness"%string \/ e = "anger"%string ->
  (forall c', feel e factor t c = Returned c' -> in_shape c0 c') /\
  ((exists x, trait (big_five_traits c) t = Returned x) ->
   exists c', feel e factor t c = Returned c').
Proof.
  intros H He. pose proof H as ((a & h & Hem) & _).
  unfold feel. rewrite Hem.
  destruct He as [-> | ->].
  - change (item "happiness" (emotions_of a h)) with (Returned h).
    change (dict_set "happiness" ?x (emotions_of a h)) with (emotions_of a x).
    cbn [mbind mret outcome_bind outcome_ret].
    destruct (trait (big_five_traits c) t) as [x | ex].
    + split; [| eauto]. intros c' [= <-]. now apply with_emotions_shape.
    + split; [discriminate |]. intros [x Hx]. discriminate Hx.
  - change (item "anger" (emotions_of a h)) with (Returned a).
    change (dict_set "anger" ?x (emotions_of a h)) with (emotions_of x h).
    cbn [mbind mret outcome_bind outcome_ret].
    destruct (trait (big_five_traits c) t) as [x | ex].
    + split; [| eauto]. intros c' [= <-]. now apply with_emotions_shape.
    + split; [discriminate |]. intros [x Hx]. discriminate Hx.
Qed.

Lemma Forall2_insert_right {A B : Type} (P : A -> B -> Prop) (l : list A) (k : list B)
  (r : nat) (y' : B) :
  Forall2 P l k ->
  (forall x, l !! r = Some x -> P x y') ->
  Forall2 P l (<[r := y']> k).
Proof.
  intros H. revert r. induction H as [| x y l k Hxy Hl IH]; intros r Hr.
  - constructor.
  - destruct r as [| r]; simpl.
    + constructor; [now apply Hr | exact Hl].
    + constructor; [exact Hxy |]. apply IH. intros z Hz. now apply Hr.
Qed.

Lemma shape_at (heap0 heap : list Character) (r : nat) (c : Character) :
  Forall2 in_shape heap0 heap -> heap !! r = Some c ->
  exists c0, heap0 !! r = Some c0 /\ in_shape c0 c.
Proof. intros H Hc. eapply Forall2_lookup_r in H; eauto. Qed.

Lemma traits_at (heap0 : list Character) (r : nat) (c0 c : Character) (t : BigFive) :
  Forall has_traits heap0 -> heap0 !! r = Some c0 -> in_shape c0 c ->
  t <> EXTRAVERSION ->
  exists x, trait (big_five_traits c) t = Returned x.
Proof.
  intros Ht H0 Hs Hne.
  destruct Hs as (_ & _ & _ & _ & _ & _ & _ & _ & Htr & _). rewrite Htr.
  rewrite List.Forall_forall in Ht. apply Ht; [| exact Hne].
  apply list_elem_of_In. eapply list_elem_of_lookup_2. exact H0.
Qed.

Lemma on_object_feel_shape (heap0 heap : list Character) (r : nat) (e : string)
  (factor : Q) (t : BigFive) :
  Forall2 in_shape heap0 heap ->
  e = "happiness"%string \/ e = "anger"%string -> t <> EXTRAVERSION ->
  Forall2 in_shape heap0 (fst (on_object (feel e factor t) heap r)) /\
  (Forall has_traits heap0 -> snd (on_object (feel e factor t) heap r) = Returned tt).
Proof.
  intros H He Ht. unfold on_object.
  destruct (heap !! r) as [c |] eqn:Hc; [| now split].
  destruct (shape_at heap0 heap r c H Hc) as (c0 & Hc0 & Hs).
  destruct (feel_shape c0 c e factor t Hs He) as [Hkeep Hret].
  destruct (feel e factor t c) as [c' | ex] eqn:Ef; cbn [fst snd].
  - split; [| reflexivity]. apply Forall2_insert_right; [exact H |].
    intros x Hx. rewrite Hc0 in Hx. injection Hx as <-. now apply Hkeep.
  - split; [exact H |]. intros Htr.
    destruct Hret as [c' Hc']; [| discriminate Hc'].
    now apply (traits_at heap0 r c0 c t).
Qed.

Lemma interact_with_shape (heap0 heap : list Character) (r o : nat) (it : string) :
  Forall2 in_shape heap0 heap ->
  Forall2 in_shape heap0 (fst (interact_with heap r o it)) /\
  (Forall has_traits heap0 -> snd (interact_with heap r o it) = Returned tt).
Proof.
  intros H. unfold interact_with.
  assert (Hboth : forall e factor t,
             e = "happiness"%string \/ e = "anger"%string -> t <> EXTRAVERSION ->
             let res :=
               match on_object (feel e factor t) heap r with
               | (heap1, Returned _) => on_object (feel e factor t) heap1 o
               | (heap1, Raised ex) => (heap1, Raised ex)
               end in
             Forall2 in_shape heap0 (fst res) /\
             (Forall has_traits heap0 -> snd res = Returned tt)).
  { intros e factor t He Ht res. subst res.
    destruct (on_object_feel_shape heap0 heap r e factor t H He Ht) as [H1 R1].
    destruct (on_object (feel e factor t) heap r) as [heap1 [[] | ex]]; cbn [fst snd] in *.
    - now apply on_object_feel_shape.
    - split; [exact H1 | exact R1]. }
  destruct (String.eqb it "cooperation").
  - apply Hboth; [now left | discriminate].
  - destruct (String.eqb it "conflict").
    + apply Hboth; [now right | discriminate].
    + now split.
Qed.

Lemma make_decision_returns (c0 c : Character) :
  in_shape c0 c -> has_traits c ->
  exists a, make_decision c = Returned a /\
            In a ["cooperate"; "rebel"; "take_risk"; "seek_resources"]%string.
Proof.
  intros ((a & h & Hem) & (p & so & ps & Hne & _) & _) Ht.
  destruct (Ht AGREEABLENESS) as [xa Hxa]; [discriminate |].
  destruct (Ht NEUROTICISM) as [xn Hxn]; [discriminate |].
  destruct (Ht OPENNESS) as [xo Hxo]; [discriminate |].
  destruct (Ht CONSCIENTIOUSNESS) as [xc Hxc]; [discriminate |].
  unfold make_decision, actions_of, _calculate_influence.
  cbn [String.eqb Ascii.eqb Bool.eqb andb].
  rewrite Hem, Hne, Hxa, Hxn, Hxo, Hxc.
  change (item "anger" (emotions_of a h)) with (Returned a).
  change (item "physiological" (needs_of p so ps)) with (Returned p).
  cbn [mbind mret outcome_bind outcome_ret].
  set (best := fun (l : list (string * Q)) =>
                 match max_by snd l with
                 | Returned d => Returned (fst d)
                 | Raised ex => Raised ex
                 end).
  assert (Hbest : forall x1 x2 x3 x4 : Q,
     exists k, best [("cooperate", x1); ("rebel", x2); ("take_risk", x3);
                     ("seek_resources", x4)]%string = Returned k /\
               In k ["cooperate"; "rebel"; "take_risk"; "seek_resources"]%string).
  { intros x1 x2 x3 x4. unfold best, max_by. cbn [fold_left snd].
    destruct (Qltb x1 x2); cbn [snd];
      repeat match goal with
             | |- context [if Qltb ?u ?v then _ else _] => destruct (Qltb u v); cbn [snd]
             end; eexists; (split; [reflexivity |]); cbn; tauto. }
  destruct (psychological_state c), (hidden_agenda c);
    cbn [dict_alter String.eqb Ascii.eqb Bool.eqb andb]; apply Hbest.
Qed.

Lemma on_self_shape (f : Character -> Character * outcome unit)
  (heap0 heap : list Character) (r : nat) :
  (forall c0 c, heap0 !! r = Some c0 -> in_shape c0 c -> in_shape c0 (fst (f c))) ->
  Forall2 in_shape heap0 heap ->
  Forall2 in_shape heap0 (fst (on_self f heap r)).
Proof.
  intros Hf H. unfold on_self.
  destruct (heap !! r) as [c |] eqn:Hc; [| exact H].
  destruct (shape_at heap0 heap r c H Hc) as (c0 & Hc0 & Hs).
  specialize (Hf c0 c Hc0 Hs). destruct (f c) as [c' res]. cbn [fst] in *.
  apply Forall2_insert_right; [exact H |].
  intros x Hx. rewrite Hc0 in Hx. now injection Hx as <-.
Qed.

Lemma on_self_returns (f : Character -> Character * outcome unit)
  (heap0 heap : list Character) (r : nat) :
  (forall c0 c, heap0 !! r = Some c0 -> in_shape c0 c -> snd (f c) = Returned tt) ->
  Forall2 in_shape heap0 heap ->
  snd (on_self f heap r) = Returned tt.
Proof.
  intros Hf H. unfold on_self.
  destruct (heap !! r) as [c |] eqn:Hc; [| reflexivity].
  destruct (shape_at heap0 heap r c H Hc) as (c0 & Hc0 & Hs).
  specialize (Hf c0 c Hc0 Hs). destruct (f c) as [c' res]. exact Hf.
Qed.

Lemma change_ideology_shape (c0 c : Character) (impact : option Q) :
  in_shape c0 c ->
  fst (change_ideology c impact) = c /\ snd (change_ideology c impact) = Returned tt.
Proof.
  intros (_ & _ & [x Hx] & _). unfold change_ideology. rewrite Hx.
  destruct (Qltb x _); now split.
Qed.

Lemma step_shape (heap0 heap : list Character) (m : Method) :
  Forall2 in_shape heap0 heap ->
  Forall2 in_shape heap0 (fst (step heap m)) /\
  (Forall has_traits heap0 -> snd (step heap m) = Returned tt).
Proof.
  intros H. destruct m as [r | r | r o it | r impact | r i o | r]; cbn [step].
  - split.
    + apply on_self_shape; [| exact H]. intros c0 c _ Hs.
      exact (proj1 (update_needs_shape c0 c Hs)).
    + intros _. apply (on_self_returns _ heap0); [| exact H].
      intros c0 c _ Hs. exact (proj2 (update_needs_shape c0 c Hs)).
  - split.
    + apply on_self_shape; [| exact H]. intros c0 c _ Hs. exact Hs.
    + intros Ht. apply (on_self_returns _ heap0); [| exact H].
      intros c0 c Hc0 Hs. cbn [snd].
      destruct (make_decision_returns c0 c Hs) as (a & -> & _); [| reflexivity].
      intros t Hne. now apply (traits_at heap0 r c0 c t).
  - now apply interact_with_shape.
  - split.
    + apply on_self_shape; [| exact H]. intros c0 c _ Hs.
      destruct (change_ideology_shape c0 c impact Hs) as [-> _]. exact Hs.
    + intros _. apply (on_self_returns _ heap0); [| exact H].
      intros c0 c _ Hs. exact (proj2 (change_ideology_shape c0 c impact Hs)).
  - split.
    + apply on_self_shape; [| exact H]. intros c0 c _ Hs. cbn [fst].
      now apply with_memory_shape.
    + intros _. apply (on_self_returns _ heap0); [| exact H]. reflexivity.
  - now split.
Qed.

Lemma run_shape (ms : list Method) :
  forall heap0 heap : list Character,
    Forall2 in_shape heap0 heap ->
    Forall2 in_shape heap0 (fst (run heap ms)) /\
    (Forall has_traits heap0 -> snd (run heap ms) = []).
Proof.
  induction ms as [| m ms IH]; intros heap0 heap H; [now split |].
  cbn [run]. destruct (step_shape heap0 heap m H) as [H1 R1].
  destruct (step heap m) as [heap1 res]. cbn [fst snd] in *.
  destruct (IH heap0 heap1 H1) as [H2 R2].
  destruct (run heap1 ms) as [heap2 raised]. cbn [fst snd] in *.
  split; [exact H2 |]. intros Ht. rewrite (R1 Ht). now apply R2.
Qed.



End CharacterProperties.

(** ** Groups and the simulation of the src package *)

Section SimulationProperties.
Import leadership_system simulation.

Lemma flag_members_lookup (leader : Character) (refs : list nat) :
  forall (cs : list Character) (r : nat),
    flag_members leader refs cs !! r =
    (if bool_decide (r ∈ refs)
     then (fun c => set_is_spokesperson c (id c =? id leader)%Z) <$> cs !! r
     else cs !! r).
Proof.
  unfold flag_members.
  induction refs as [| x refs IH]; intros cs r; simpl.
  - reflexivity.
  - rewrite IH, list_lookup_alter. destruct (decide (x = r)) as [-> | Hne].
    + rewrite (bool_decide_eq_true_2 (r ∈ r :: refs)) by apply list_elem_of_here.
      destruct (bool_decide (r ∈ refs)); destruct (cs !! r); reflexivity.
    + destruct (bool_decide (r ∈ refs)) eqn:E.
      * apply bool_decide_eq_true in E.
        rewrite (bool_decide_eq_true_2 (r ∈ x :: refs)); [reflexivity |].
        now apply list_elem_of_further.
      * apply bool_decide_eq_false in E.
        rewrite (bool_decide_eq_false_2 (r ∈ x :: refs)); [reflexivity |].
        intros H. apply list_elem_of_In in H. destruct H; [congruence |].
        apply E. now apply list_elem_of_In.
Qed.

Lemma flag_members_length (leader : Character) (refs : list nat) :
  forall cs : list Character, length (flag_members leader refs cs) = length cs.
Proof.
  unfold flag_members. induction refs as [| x refs IH]; intros cs; simpl; [reflexivity |].
  rewrite IH. apply length_alter.
Qed.

Lemma member_objects_valid (cs : list Character) (g : Group) :
  (forall k r, In (k, r) (members g) -> exists c, cs !! r = Some c) ->
  map fst (member_objects cs g) = map snd (members g) /\
  (forall r c, In (r, c) (member_objects cs g) -> cs !! r = Some c).
Proof.
  unfold member_objects. induction (members g) as [| [k r] l IH]; intros Hv.
  - split; [reflexivity | intros r c []].
  - destruct (Hv k r) as [c Hc]; [now left |].
    destruct IH as [IH1 IH2]; [intros k' r' H; apply (Hv k' r'); now right |].
    cbn [omap list_omap snd]. rewrite Hc. cbn [map fst snd]. split.
    + now rewrite IH1.
    + intros r' c' [[= <- <-] | Hin]; [exact Hc | now apply IH2].
Qed.

(** X15.  [Group.elect_spokesperson] on a group whose members are
    characters of the list: a group without members gets no
    spokesperson and nobody is touched.  Otherwise the spokesperson is a
    member whose speaking ability plus influence is the greatest of the
    group, the first such member in the order of [members]; afterwards
    the flag [is_spokesperson] of every member says whether its id is
    the leader's, whatever the flag was and whatever other group the
    member speaks for, and a character outside the group is untouched. *)
Theorem X15_spokesperson_is_the_strongest_voice :
  forall (cs : list Character) (g : Group),
    (forall k r, In (k, r) (members g) -> exists c, cs !! r = Some c) ->
    snd (elect_spokesperson cs g) = Returned tt /\
    members (snd (fst (elect_spokesperson cs g))) = members g /\
    (members g = [] ->
     spokesperson (snd (fst (elect_spokesperson cs g))) = None /\
     fst (fst (elect_spokesperson cs g)) = cs) /\
    (members g <> [] ->
     exists (r : nat) (leader : Character) (i : nat),
       spokesperson (snd (fst (elect_spokesperson cs g))) = Some r /\
       cs !! r = Some leader /\
       member_objects cs g !! i = Some (r, leader) /\
       (forall r' c, In (r', c) (member_objects cs g) ->
          speaking_ability c + influence c
          <= speaking_ability leader + influence leader) /\
       (forall j r' c, (j < i)%nat -> member_objects cs g !! j = Some (r', c) ->
          speaking_ability c + influence c
          < speaking_ability leader + influence leader) /\
       (forall r' c, cs !! r' = Some c ->
          fst (fst (elect_spokesperson cs g)) !! r' =
          Some (if bool_decide (r' ∈ map snd (members g))
                then set_is_spokesperson c (id c =? id leader)%Z
                else c))).
Proof.
  intros cs g Hv. destruct (member_objects_valid cs g Hv) as [Hrefs Hobj].
  unfold elect_spokesperson.
  destruct (members g) as [| kv l] eqn:Em.
  - cbn [fst snd]. repeat split; try reflexivity. intros H. now elim H.
  - destruct (max_by _ (member_objects cs g)) as [[r leader] | ex] eqn:Emax.
    + cbn [fst snd spokesperson members]. split; [reflexivity |].
      split; [reflexivity |]. split; [discriminate |]. intros _.
      destruct (max_by_first _ _ _ Emax) as (i & Hi & Hmax & Hfirst).
      exists r, leader, i. split; [reflexivity |]. split.
      { apply Hobj. apply list_elem_of_In. eapply list_elem_of_lookup_2. exact Hi. }
      split; [exact Hi |]. split.
      { intros r' c Hin. exact (Hmax (r', c) Hin). }
      split.
      { intros j r' c Hj Hl. exact (Hfirst j (r', c) Hj Hl). }
      intros r' c Hc. rewrite flag_members_lookup, Hrefs, Hc. cbn [fmap option_fmap option_map].
      destruct (bool_decide _); reflexivity.
    + exfalso. unfold max_by in Emax.
      destruct (member_objects cs g) eqn:Eo; [| discriminate].
      simpl in Hrefs. discriminate Hrefs.
Qed.

Lemma X15_witness :
  snd (elect_spokesperson main_crew
         {| identity := WORKERS; members := [(2%Z, 1%nat); (3%Z, 2%nat)];
            spokesperson := None |}) = Returned tt.
Proof.
  apply (X15_spokesperson_is_the_strongest_voice main_crew
           {| identity := WORKERS; members := [(2%Z, 1%nat); (3%Z, 2%nat)];
              spokesperson := None |}).
  intros k r [[= <- <-] | [[= <- <-] | []]]; eexists; reflexivity.
Defined.

(** *** The days of the simulation *)

Lemma handle_food_shortage_feeds (heap : list Character) (r : nat) (c : Character)
  (d : Z) :
  heap !! r = Some c -> dict_mem "hunger" (needs c) = true ->
  handle_food_shortage heap r (FoodShortageEvent d) =
  (<[r := short_of_food c]> heap, [HungryAndStressed (name c)], Returned tt).
Proof.
  intros Hc Hh. unfold handle_food_shortage, short_of_food, dict_mem in *. rewrite Hc.
  destruct (dict_get "hunger" (needs c)) as [n |]; [| discriminate]. reflexivity.
Qed.

Lemma post_characters_feeds (d : Z) (todo : list Character) :
  forall pre : list Character,
    (forall c, In c todo -> goes_hungry c = true -> dict_mem "hunger" (needs c) = true) ->
    exists out,
      post_characters handle_food_shortage_of_simulation (FoodShortageEvent d)
        (seq (length pre) (length todo)) (pre ++ todo)
      = (pre ++ map feed todo, out, Returned tt).
Proof.
  induction todo as [| c rest IH]; intros pre Hh.
  - exists []. reflexivity.
  - cbn [length seq post_characters].
    assert (Hc : (pre ++ c :: rest) !! length pre = Some c).
    { rewrite lookup_app_r by lia. now rewrite Nat.sub_diag. }
    rewrite Hc.
    change (affected (FoodShortageEvent d) c) with (goes_hungry c).
    assert (Hseq : S (length pre) = length (pre ++ [feed c])).
    { rewrite length_app. simpl. lia. }
    destruct (goes_hungry c) eqn:Eg.
    + cbn [call_listener].
      rewrite (handle_food_shortage_feeds _ _ c d Hc)
        by (apply Hh; [now left | exact Eg]).
      assert (Hins : <[length pre := short_of_food c]> (pre ++ c :: rest)
                     = (pre ++ [feed c]) ++ rest).
      { rewrite insert_app_r_alt by lia. rewrite Nat.sub_diag. simpl.
        unfold feed. rewrite Eg. now rewrite <- app_assoc. }
      rewrite Hins, Hseq.
      destruct (IH (pre ++ [feed c])) as [out Hout];
        [intros x Hx; apply Hh; now right |].
      rewrite Hout. eexists. rewrite <- app_assoc. reflexivity.
    + replace (pre ++ c :: rest) with ((pre ++ [feed c]) ++ rest)
        by (unfold feed; rewrite Eg, <- app_assoc; reflexivity).
      rewrite Hseq.
      destruct (IH (pre ++ [feed c])) as [out Hout];
        [intros x Hx; apply Hh; now right |].
      rewrite Hout. eexists. rewrite <- app_assoc. reflexivity.
Qed.

Lemma post_feeds (cs : list Character) (gs : list Group) (d : Z) (heap : list Character) :
  hungry_have_hunger heap ->
  exists out,
    post (event_system (Simulation_init cs gs)) (FoodShortageEvent d) heap
    = (map feed heap, out, Returned tt).
Proof.
  intros Hh. unfold post.
  change (dict_get (ev_type (FoodShortageEvent d))
            (listeners (event_system (Simulation_init cs gs))))
    with (Some [handle_food_shortage_of_simulation]).
  cbn [post_listeners].
  destruct (post_characters_feeds d heap [] Hh) as [out Hout].
  cbn [length app] in Hout. rewrite Hout. eexists. reflexivity.
Qed.

Lemma safe_captain_stays (ls : LeadershipSystem) :
  captain_is_safe ls -> check_for_leadership_change ls = (ls, Returned tt).
Proof.
  intros Hs. unfold check_for_leadership_change, check_for_leadership_change_with.
  destruct (captain ls) as [rc |] eqn:Ec; [| reflexivity].
  destruct (characters ls !! rc) as [cap |] eqn:Ecap; [| reflexivity].
  specialize (Hs rc cap Ec Ecap).
  apply Qltb_ge in Hs. now rewrite Hs.
Qed.

Lemma starved_zero (c : Character) :
  (goes_hungry c = true -> dict_mem "hunger" (needs c) = true) -> starved 0 c c.
Proof.
  intros Hh. unfold starved. repeat (split; [reflexivity |]).
  destruct (goes_hungry c); [| now split].
  change (inject_Z 0) with 0.
  split; [lra |]. unfold dict_mem in Hh.
  destruct (dict_get "hunger" (needs c)) as [n |] eqn:En;
    [| specialize (Hh eq_refl); discriminate Hh].
  exists n, n. split; [reflexivity |]. split; [reflexivity |].
  split; [lra | reflexivity].
Qed.

Lemma starved_groups (k : Z) (c c' : Character) :
  starved k c c' -> goes_hungry c' = goes_hungry c.
Proof.
  intros (_ & _ & _ & Hg & _). unfold goes_hungry, affected. now rewrite Hg.
Qed.

Lemma starved_feed (k : Z) (c c' : Character) :
  starved k c c' -> starved (k + 1) c (feed c').
Proof.
  intros H. pose proof (starved_groups k c c' H) as Hg.
  destruct H as (H1 & H2 & H3 & H4 & H5 & H6 & H7 & H8).
  unfold feed. rewrite Hg. unfold starved.
  destruct (goes_hungry c) eqn:Eg.
  - destruct H8 as (Hs & n & n' & Hn & Hn' & Hv & Ho).
    unfold short_of_food. rewrite Hn'. cbn.
    repeat (split; [assumption |]).
    split; [rewrite Hs, inject_Z_plus; change (inject_Z 1) with 1; lra |].
    exists n. eexists. split; [exact Hn |].
    split; [apply dict_get_set_same |]. split.
    + cbn [value]. rewrite Hv, inject_Z_plus. change (inject_Z 1) with 1. lra.
    + intros nm Hne. rewrite dict_get_set_other by congruence. now apply Ho.
  - repeat (split; [assumption |]). exact H8.
Qed.

Lemma starved_has_hunger (k : Z) (cs heap : list Character) :
  Forall2 (starved k) cs heap -> hungry_have_hunger heap.
Proof.
  intros H c' Hin Hg.
  apply list_elem_of_In in Hin. apply list_elem_of_lookup in Hin. destruct Hin as [i Hi].
  destruct (Forall2_lookup_r _ _ _ _ _ H Hi) as (c & Hc & Hs).
  rewrite (starved_groups k c c' Hs) in Hg.
  destruct Hs as (_ & _ & _ & _ & _ & _ & _ & H8). rewrite Hg in H8.
  destruct H8 as (_ & n & n' & _ & Hn' & _). unfold dict_mem. now rewrite Hn'.
Qed.

Lemma starved_safe (k : Z) (cs heap : list Character) (ls : LeadershipSystem) :
  Forall2 (starved k) cs heap ->
  captain_is_safe (with_characters ls cs) ->
  captain_is_safe (with_characters ls heap).
Proof.
  intros H Hs r cap' Hr Hcap'. cbn [captain characters with_characters] in *.
  destruct (Forall2_lookup_r _ _ _ _ _ H Hcap') as (cap & Hcap & Hst).
  destruct Hst as (_ & _ & _ & _ & Ht & _). rewrite Ht.
  now apply (Hs r cap).
Qed.

(** The state of the simulation after some days, [k] of them with a food
    shortage. *)
Lemma run_simulation_starves (cs : list Character) (gs : list Group) (days : nat) :
  forall (sim : Simulation) (k : Z),
    event_system sim = event_system (Simulation_init cs gs) ->
    groups_of (leadership sim) = gs ->
    captain (leadership sim) = get_captain cs ->
    captain_is_safe (with_characters (leadership sim) cs) ->
    Forall2 (starved k) cs (characters (leadership sim)) ->
    snd (run_simulation sim days) = Returned tt /\
    day (fst (run_simulation sim days)) = (day sim + Z.of_nat days)%Z /\
    captain (leadership (fst (run_simulation sim days))) = get_captain cs /\
    groups_of (leadership (fst (run_simulation sim days))) = gs /\
    Forall2 (starved (k + shortages (day sim) days)) cs
            (characters (leadership (fst (run_simulation sim days)))).
Proof.
  induction days as [| days IH]; intros sim k He Hg Hc Hsafe Hst.
  - cbn [run_simulation shortages fst snd Z.of_nat]. rewrite !Z.add_0_r.
    repeat split; assumption.
  - cbn [run_simulation shortages].
    set (heap := characters (leadership sim)) in *.
    set (heap1 := if (day sim mod 5 =? 0)%Z then map feed heap else heap).
    set (k1 := (k + (if (day sim mod 5 =? 0)%Z then 1 else 0))%Z).
    assert (Hst1 : Forall2 (starved k1) cs heap1).
    { subst heap1 k1. destruct (day sim mod 5 =? 0)%Z.
      - apply Forall2_fmap_r. eapply Forall2_impl; [exact Hst |].
        intros c c' H. now apply starved_feed.
      - now rewrite Z.add_0_r. }
    assert (Hsafe1 : captain_is_safe (with_characters (leadership sim) heap1)).
    { eapply starved_safe; [exact Hst1 | exact Hsafe]. }
    assert (Hday : exists out,
               run_day sim =
               ({| leadership := with_characters (leadership sim) heap1;
                   day := (day sim + 1)%Z; event_system := event_system sim;
                   output := out |}, Returned tt)).
    { unfold run_day. subst heap1. fold heap.
      destruct (day sim mod 5 =? 0)%Z.
      - rewrite He.
        destruct (post_feeds cs gs (day sim) heap (starved_has_hunger k cs heap Hst))
          as [out Hout].
        rewrite Hout. rewrite (safe_captain_stays _ Hsafe1). eexists. reflexivity.
      - rewrite (safe_captain_stays _ Hsafe1). eexists. reflexivity. }
    destruct Hday as [out Hday]. rewrite Hday.
    match goal with
    | |- context [run_simulation ?s days] => set (sim1 := s)
    end.
    destruct (IH sim1 k1) as (R & D & C & G & F); try assumption.
    cbn [leadership sim1 day] in *.
    repeat split; try assumption.
    + rewrite D. subst sim1. cbn [day]. lia.
    + replace (k + ((if (day sim mod 5 =? 0)%Z then 1 else 0)
                    + shortages (day sim + 1) days))%Z
        with (k1 + shortages (day sim + 1) days)%Z by (subst k1; lia).
      exact F.
Qed.

Lemma shortages_closed (n : nat) :
  forall d : Z, (1 <= d)%Z ->
    shortages d n = ((d + Z.of_nat n - 1) / 5 - (d - 1) / 5)%Z.
Proof.
  induction n as [| n IH]; intros d Hd.
  - cbn [shortages]. replace (d + Z.of_nat 0 - 1)%Z with (d - 1)%Z by lia. lia.
  - cbn [shortages]. rewrite IH by lia.
    replace (d + 1 + Z.of_nat n - 1)%Z with (d + Z.of_nat (S n) - 1)%Z by lia.
    replace (d + 1 - 1)%Z with d by lia.
    destruct (Z.eqb_spec (d mod 5) 0) as [E | E];
      Z.div_mod_to_equations; lia.
Qed.

(** X16.  [Simulation.run_simulation] for any number of days on a new
    simulation whose captain, if any, has a trust of at least 40 and in
    which every worker and every woman has a need named hunger: the run
    returns without an exception, the captain and the groups are the
    same at the end, and nobody's role, trust or influence has changed.
    Each character of the groups WORKERS or WOMEN has lost 10 of hunger
    and gained 5 of stress for every fifth day, with no floor and no
    cap, so the values leave [0,100]; the other characters are unchanged. *)
Theorem X16_simulation_starves_the_workers :
  forall (cs : list Character) (gs : list Group) (days : nat),
    captain_is_safe (LeadershipSystem_init cs gs) ->
    hungry_have_hunger cs ->
    snd (run_simulation (Simulation_init cs gs) days) = Returned tt /\
    day (fst (run_simulation (Simulation_init cs gs) days)) = (1 + Z.of_nat days)%Z /\
    captain (leadership (fst (run_simulation (Simulation_init cs gs) days)))
    = get_captain cs /\
    groups_of (leadership (fst (run_simulation (Simulation_init cs gs) days))) = gs /\
    Forall2 (starved (Z.of_nat days / 5)) cs
      (characters (leadership (fst (run_simulation (Simulation_init cs gs) days)))).
Proof.
  intros cs gs days Hsafe Hh.
  destruct (run_simulation_starves cs gs days (Simulation_init cs gs) 0)
    as (R & D & C & G & F); try reflexivity.
  - exact Hsafe.
  - cbn [Simulation_init leadership LeadershipSystem_init characters].
    apply Forall_Forall2_diag, List.Forall_forall. intros c Hin.
    apply starved_zero. now apply Hh.
  - repeat split; try assumption.
    rewrite shortages_closed in F by (simpl; lia).
    cbn [Simulation_init day] in F.
    replace (0 + ((1 + Z.of_nat days - 1) / 5 - (1 - 1) / 5))%Z
      with (Z.of_nat days / 5)%Z in F; [exact F |].
    replace (1 + Z.of_nat days - 1)%Z with (Z.of_nat days) by lia.
    change ((1 - 1) / 5)%Z with 0%Z. lia.
Qed.

Lemma X16_witness :
  snd (run_simulation setup_simulation 30) = Returned tt /\
  exists worker n,
    characters (leadership (fst (run_simulation setup_simulation 30))) !! 1%nat
    = Some worker /\
    dict_get "hunger" (needs worker) = Some n /\ value n == -10.
Proof.
  destruct (X16_simulation_starves_the_workers
              (characters (leadership setup_simulation))
              (groups_of (leadership setup_simulation)) 30)
    as (R & _ & _ & _ & F).
  - intros r cap Hr Hcap. vm_compute in Hr. injection Hr as <-.
    vm_compute in Hcap. injection Hcap as <-. vm_compute. discriminate.
  - intros c Hin Hg. vm_compute in Hin.
    destruct Hin as [<- | [<- | [<- | []]]]; reflexivity.
  - split; [exact R |].
    destruct (Forall2_lookup_l _ _ _ 1%nat
                (List.nth 1 (characters (leadership setup_simulation))
                          (person 0 EmptyString EmptyString 0 0)) F eq_refl)
      as (worker & Hw & Hs).
    exists worker.
    destruct Hs as (_ & _ & _ & _ & _ & _ & _ & H8).
    change (goes_hungry _) with true in H8.
    destruct H8 as (_ & n & n' & Hn & Hn' & Hv & _).
    exists n'. split; [exact Hw |]. split; [exact Hn' |].
    rewrite Hv. vm_compute in Hn. injection Hn as <-. reflexivity.
Defined.

End SimulationProperties.

(** ** The day loop of ship_of_fools.py *)

Section DayProperties.
Import ship_of_fools ship_voyage ship_days.

Lemma positions_of_spec (p : Character -> bool) (cs : list Character) :
  forall pos r : nat,
    In r (positions_of p pos cs) <->
    exists c, (pos <= r)%nat /\ cs !! (r - pos)%nat = Some c /\ p c = true.
Proof.
  induction cs as [| c cs IH]; intros pos r; simpl.
  - split; [intros [] | intros (o & _ & H & _); discriminate].
  - assert (Htail : In r (positions_of p (S pos) cs) <->
                    exists o, (S pos <= r)%nat /\ cs !! (r - S pos)%nat = Some o /\
                              p o = true) by apply IH.
    destruct (p c) eqn:Ep; simpl; rewrite ?Htail; split.
    + intros [<- | (o & Hle & Hl & Hp)].
      * exists c. rewrite Nat.sub_diag. auto.
      * exists o. split; [lia |]. split; [| exact Hp].
        replace (r - pos)%nat with (S (r - S pos)) by lia. exact Hl.
    + intros (o & Hle & Hl & Hp).
      destruct (decide (r = pos)) as [-> | Hne]; [now left | right].
      exists o. split; [lia |]. split; [| exact Hp].
      replace (r - pos)%nat with (S (r - S pos)) in Hl by lia. exact Hl.
    + intros (o & Hle & Hl & Hp). exists o. split; [lia |]. split; [| exact Hp].
      replace (r - pos)%nat with (S (r - S pos)) by lia. exact Hl.
    + intros (o & Hle & Hl & Hp).
      destruct (decide (r = pos)) as [-> | Hne].
      * rewrite Nat.sub_diag in Hl. simpl in Hl. injection Hl as <-. congruence.
      * exists o. split; [lia |]. split; [| exact Hp].
        replace (r - pos)%nat with (S (r - S pos)) in Hl by lia. exact Hl.
Qed.

Lemma positions_of_NoDup (p : Character -> bool) (cs : list Character) :
  forall pos : nat, List.NoDup (positions_of p pos cs).
Proof.
  induction cs as [| c cs IH]; intros pos; simpl; [constructor |].
  destruct (p c); [| apply IH]. constructor; [| apply IH].
  intros Hin. apply positions_of_spec in Hin. destruct Hin as (o & Hle & _). lia.
Qed.

Lemma positions_of_length (p : Character -> bool) (cs : list Character) :
  forall pos : nat, length (positions_of p pos cs) = length (List.filter p cs).
Proof.
  induction cs as [| c cs IH]; intros pos; simpl; [reflexivity |].
  destruct (p c); simpl; now rewrite IH.
Qed.

(** The items of [pool] at distinct valid positions. *)
Lemma drawn_items {A : Type} (pool : list A) (drawn : list nat) :
  List.NoDup pool -> List.NoDup drawn ->
  Forall (fun i => (i < length pool)%nat) drawn ->
  length (omap (fun i => pool !! i) drawn) = length drawn /\
  List.NoDup (omap (fun i => pool !! i) drawn) /\
  (forall x, In x (omap (fun i => pool !! i) drawn) ->
             exists i, In i drawn /\ pool !! i = Some x).
Proof.
  intros Hpool. induction drawn as [| i rest IH]; intros Hnd Hlt.
  - simpl. split; [reflexivity |]. split; [constructor | intros x []].
  - inversion Hnd as [| ? ? Hi Hrest]; subst.
    inversion Hlt as [| ? ? Hil Hlt']; subst.
    destruct (IH Hrest Hlt') as (Hlen & Hnd' & Hin).
    destruct (lookup_lt_is_Some_2 pool i Hil) as [x Hx].
    cbn [omap list_omap]. rewrite Hx. cbn [length]. split; [now rewrite Hlen |]. split.
    + constructor; [| exact Hnd']. intros Hx'.
      destruct (Hin x Hx') as (j & Hj & Hxj).
      assert (i = j).
      { apply NoDup_ListNoDup in Hpool. eapply NoDup_lookup; eauto. }
      subst j. contradiction.
    + intros y [<- | Hy]; [exists i; split; [now left | exact Hx] |].
      destruct (Hin y Hy) as (j & Hj & Hyj). exists j. split; [now right | exact Hyj].
Qed.

Lemma hear_lookup (speakers : list nat) :
  forall (cs : list Character) (r : nat),
    List.NoDup speakers ->
    hear speakers cs !! r =
    (if bool_decide (r ∈ speakers)
     then (fun c => set_influence c (influence c + 2)) <$> cs !! r
     else cs !! r).
Proof.
  unfold hear. induction speakers as [| x rest IH]; intros cs r Hnd; simpl.
  - reflexivity.
  - inversion Hnd as [| ? ? Hx Hrest]; subst.
    rewrite IH by exact Hrest. rewrite list_lookup_alter.
    destruct (decide (x = r)) as [-> | Hne].
    + rewrite (bool_decide_eq_true_2 (r ∈ r :: rest)) by apply list_elem_of_here.
      rewrite bool_decide_eq_false_2; [reflexivity |].
      intros H. apply Hx. now apply list_elem_of_In.
    + destruct (bool_decide (r ∈ rest)) eqn:E.
      * apply bool_decide_eq_true in E.
        rewrite (bool_decide_eq_true_2 (r ∈ x :: rest)); [reflexivity |].
        now apply list_elem_of_further.
      * apply bool_decide_eq_false in E.
        rewrite (bool_decide_eq_false_2 (r ∈ x :: rest)); [reflexivity |].
        intros H. apply list_elem_of_In in H. destruct H; [congruence |].
        apply E. now apply list_elem_of_In.
Qed.

(** X17.  [_philosophical_discussion] with the guarantees of [random]:
    it raises [ValueError], leaving the ship as it was, exactly when
    fewer characters have a speaking ability above 40 than the sample
    asks for, which is 3 or the size of the crew if that is smaller.
    Otherwise it returns; the speakers are that many different
    characters, each with a speaking ability above 40; each gains exactly
    2 of influence and nothing else of anybody changes; the
    philosophical tension grows by at least 5 and less than 15, with no
    cap; heading, authority and alliances stay. *)
Theorem X17_discussion_needs_enough_speakers :
  forall (s : Ship) (l : Luck),
    fair l ->
    let able := length (List.filter (fun c => Qltb 40 (speaking_ability c))
                                    (characters s)) in
    let m := Nat.min 3 (length (characters s)) in
    let s' := fst (fst (_philosophical_discussion s l)) in
    ((able < m)%nat ->
     snd (_philosophical_discussion s l) = Raised ValueError /\ s' = s) /\
    ((m <= able)%nat ->
     snd (_philosophical_discussion s l) = Returned tt /\
     (exists speakers : list nat,
         List.NoDup speakers /\ length speakers = m /\
         (forall r, In r speakers ->
            exists c, characters s !! r = Some c /\ 40 < speaking_ability c) /\
         (forall r c, characters s !! r = Some c ->
            characters s' !! r =
            Some (if bool_decide (r ∈ speakers)
                  then set_influence c (influence c + 2) else c))) /\
     5 <= philosophical_tension s' - philosophical_tension s < 15 /\
     heading s' = heading s /\ captain_authority s' = captain_authority s /\
     alliances s' = alliances s).
Proof.
  intros s l (Hdraws & _ & Hsample & _) able m s'. subst able m s'.
  unfold _philosophical_discussion. cbn [choice sample].
  set (pool := positions_of (fun c => Qltb 40 (speaking_ability c)) 0 (characters s)).
  rewrite <- (positions_of_length _ (characters s) 0). fold pool.
  set (m := Nat.min 3 (length (characters s))).
  destruct (length pool <? m)%nat eqn:E.
  - apply Nat.ltb_lt in E. split; [| intros; lia]. intros _. now split.
  - apply Nat.ltb_ge in E. split; [intros; lia |]. intros _.
    set (drawn := samples (next_turn l) (turn (next_turn l)) (length pool) m).
    destruct (Hsample (turn (next_turn l)) (length pool) m E) as (Hlen & Hnd & Hlt).
    change (samples l (turn (next_turn l)) (length pool) m) with drawn in Hlen, Hnd, Hlt.
    destruct (drawn_items pool drawn (positions_of_NoDup _ _ 0) Hnd Hlt)
      as (Hslen & Hsnd & Hsin).
    unfold rand_uniform, uniform, random. cbn [fst snd rng next_turn with_rng].
    cbn [characters philosophical_tension heading captain_authority alliances
         set_philosophical_tension set_characters].
    split; [reflexivity |]. split.
    + exists (omap (fun i => pool !! i) drawn).
      split; [exact Hsnd |]. split; [now rewrite Hslen |]. split.
      * intros r Hr. destruct (Hsin r Hr) as (i & _ & Hi).
        assert (Hin : In r pool).
        { apply list_elem_of_In. eapply list_elem_of_lookup_2. exact Hi. }
        apply positions_of_spec in Hin. destruct Hin as (c & _ & Hc & Hp).
        rewrite Nat.sub_0_r in Hc. exists c. split; [exact Hc |].
        now apply Qltb_lt.
      * intros r c Hc. rewrite hear_lookup by exact Hsnd. rewrite Hc.
        destruct (bool_decide _); reflexivity.
    + destruct (Hdraws (cursor (rng l))) as [H0 H1].
      split; [| repeat split]. split; lra.
Qed.

Lemma plain_luck_fair : fair plain_luck.
Proof.
  split; [| split; [| split]].
  - intros n. simpl. split; lra.
  - intros k n Hn. exact Hn.
  - intros k n m Hm. cbn [samples plain_luck]. split; [apply length_seq |]. split.
    + apply List.seq_NoDup.
    + apply List.Forall_forall. intros i Hi. apply in_seq in Hi. lia.
  - intros k. simpl. lia.
Qed.

Lemma X17_witness :
  snd (_philosophical_discussion (ship default_voyage) plain_luck) = Returned tt.
Proof.
  apply (X17_discussion_needs_enough_speakers (ship default_voyage) plain_luck).
  - exact plain_luck_fair.
  - vm_compute. lia.
Defined.

(** *** Persons *)

Lemma same_person_refl (c : Character) : same_person c c.
Proof. repeat split. Qed.

Lemma same_person_trans (a b c : Character) :
  same_person a b -> same_person b c -> same_person a c.
Proof.
  intros (A1 & A2 & A3 & A4 & A5 & A6 & A7) (B1 & B2 & B3 & B4 & B5 & B6 & B7).
  repeat split; congruence.
Qed.

Lemma persons_refl (cs : list Character) : Forall2 same_person cs cs.
Proof.
  apply Forall_Forall2_diag, List.Forall_forall. intros c _. apply same_person_refl.
Qed.

Lemma persons_trans (l1 l2 l3 : list Character) :
  Forall2 same_person l1 l2 -> Forall2 same_person l2 l3 -> Forall2 same_person l1 l3.
Proof.
  intros H. revert l3. induction H as [| a b l1 l2 Hab Hl IH]; intros l3 H3.
  - inversion H3. constructor.
  - inversion H3 as [| ? c ? l3' Hbc Hl3]; subst. constructor.
    + eapply same_person_trans; eauto.
    + now apply IH.
Qed.

Lemma persons_map (f : Character -> Character) (cs : list Character) :
  (forall c, same_person c (f c)) -> Forall2 same_person cs (map f cs).
Proof.
  intros Hf. induction cs as [| c cs IH]; simpl; constructor; auto.
Qed.

Lemma persons_alter (f : Character -> Character) (r : nat) (cs : list Character) :
  (forall c, same_person c (f c)) -> Forall2 same_person cs (alter f r cs).
Proof.
  intros Hf. revert r. induction cs as [| c cs IH]; intros r; [constructor |].
  destruct r as [| r]; cbn [alter list_alter].
  - constructor; [apply Hf | apply persons_refl].
  - constructor; [apply same_person_refl | apply IH].
Qed.

Lemma update_needs_person (changes : list (string * Q)) :
  forall c : Character, same_person c (update_needs c changes).
Proof.
  induction changes as [| [k ch] rest IH]; intros c; simpl.
  - apply same_person_refl.
  - destruct (dict_mem k (needs c)); [| apply IH].
    eapply same_person_trans; [| apply IH]. repeat split.
Qed.

Lemma calm_refl (s : Ship) : calm s s.
Proof. split; [apply persons_refl |]. repeat split. lra. Qed.

Lemma calm_trans (s1 s2 s3 : Ship) : calm s1 s2 -> calm s2 s3 -> calm s1 s3.
Proof.
  intros (P1 & H1 & D1 & T1 & Y1 & A1) (P2 & H2 & D2 & T2 & Y2 & A2).
  split; [eapply persons_trans; eauto |].
  repeat split; try congruence. lra.
Qed.

(** *** Protests *)

Lemma grant_fold_needs (concessions : list string) :
  forall (p : Character) (nm : string) (n : Need),
    List.NoDup concessions ->
    dict_get nm (needs p) = Some n ->
    dict_get nm (needs (fold_left
                          (fun p concession =>
                             if dict_mem concession (needs p)
                             then update_needs p [(concession, 10)] else p)
                          concessions p)) =
    Some (if bool_decide (nm ∈ concessions) then bump_need 10 n else n).
Proof.
  induction concessions as [| k rest IH]; intros p nm n Hnd Hn.
  - simpl. exact Hn.
  - inversion Hnd as [| ? ? Hk Hrest]; subst. cbn [fold_left].
    set (p1 := if dict_mem k (needs p) then update_needs p [(k, 10)] else p).
    assert (H1 : dict_get nm (needs p1) =
                 Some (if String.eqb nm k then bump_need 10 n else n)).
    { subst p1. unfold dict_mem.
      destruct (dict_get k (needs p)) as [w |] eqn:Ew.
      - now apply update_one_need.
      - destruct (String.eqb_spec nm k) as [-> | _]; [congruence | exact Hn]. }
    rewrite (IH p1 nm _ Hrest H1).
    destruct (String.eqb_spec nm k) as [-> | Hne].
    + rewrite (bool_decide_eq_true_2 (k ∈ k :: rest)) by apply list_elem_of_here.
      rewrite bool_decide_eq_false_2; [reflexivity |].
      intros H. apply Hk. now apply list_elem_of_In.
    + destruct (bool_decide (nm ∈ rest)) eqn:E.
      * apply bool_decide_eq_true in E.
        rewrite (bool_decide_eq_true_2 (nm ∈ k :: rest)); [reflexivity |].
        now apply list_elem_of_further.
      * apply bool_decide_eq_false in E.
        rewrite (bool_decide_eq_false_2 (nm ∈ k :: rest)); [reflexivity |].
        intros H. apply list_elem_of_In in H. destruct H; [congruence |].
        apply E. now apply list_elem_of_In.
Qed.

Lemma grant_fold_frame (concessions : list string) :
  forall p : Character,
    let p' := fold_left
                (fun p concession =>
                   if dict_mem concession (needs p)
                   then update_needs p [(concession, 10)] else p)
                concessions p in
    same_person p p' /\ stress p' = stress p /\ influence p' = influence p.
Proof.
  induction concessions as [| k rest IH]; intros p; cbn [fold_left].
  - split; [apply same_person_refl | now split].
  - set (p1 := if dict_mem k (needs p) then update_needs p [(k, 10)] else p).
    assert (H1 : same_person p p1 /\ stress p1 = stress p /\ influence p1 = influence p).
    { subst p1. destruct (dict_mem k (needs p)).
      - split; [apply update_needs_person |].
        destruct (update_needs_frame [(k, 10)] p) as (_ & _ & _ & Hs & _ & Hi & _).
        now split.
      - split; [apply same_person_refl | now split]. }
    destruct H1 as (P1 & S1 & I1). destruct (IH p1) as (P2 & S2 & I2).
    split; [eapply same_person_trans; eauto |]. split; congruence.
Qed.

Lemma elements_size (X : gset string) : length (elements X) = size X.
Proof. reflexivity. Qed.

Lemma concessions_fair (demands : gset string) (l : Luck) :
  fair l ->
  exists concessions,
    fst (_captain_makes_concessions demands l) = Returned concessions /\
    List.NoDup concessions /\
    (forall d, In d concessions -> d ∈ demands) /\
    (demands <> ∅ -> concessions <> []).
Proof.
  intros (_ & _ & Hsample & Hint). unfold _captain_makes_concessions.
  cbn [randint sample fst snd].
  specialize (Hint (turn l)).
  set (ri := randints l (turn l)) in *.
  set (count := Z.min (Z.of_nat (size demands)) ri).
  assert (Hc0 : (0 <= count)%Z) by (subst count; lia).
  assert (Hcn : (Z.to_nat count <= size demands)%nat) by (subst count; lia).
  destruct (Z.ltb_spec count 0) as [Hneg | _]; [lia |]. cbn [fst].
  set (drawn := samples (next_turn l) (turn (next_turn l)) (size demands)
                        (Z.to_nat count)).
  destruct (Hsample (turn (next_turn l)) (size demands) (Z.to_nat count) Hcn)
    as (Hlen & Hnd & Hlt).
  change (samples l (turn (next_turn l)) (size demands) (Z.to_nat count))
    with drawn in Hlen, Hnd, Hlt.
  assert (Hel : List.NoDup (elements demands)).
  { apply NoDup_ListNoDup. apply NoDup_elements. }
  rewrite <- elements_size in Hlt.
  destruct (drawn_items (elements demands) drawn Hel Hnd Hlt) as (Hslen & Hsnd & Hsin).
  eexists. split; [reflexivity |]. split; [exact Hsnd |]. split.
  - intros d Hd. destruct (Hsin d Hd) as (i & _ & Hi).
    apply elem_of_elements. eapply list_elem_of_lookup_2. exact Hi.
  - intros Hne Hnil. apply (f_equal (@length string)) in Hnil.
    rewrite Hslen, Hlen in Hnil. simpl in Hnil.
    assert (Hpos : size demands <> 0%nat).
    { intros Hz. apply size_empty_iff in Hz. apply Hne. now apply leibniz_equiv. }
    subst count. lia.
Qed.

Lemma demands_of_spec (ps : list Character) (d : string) :
  d ∈ demands_of ps <-> exists p, In p ps /\ In d (get_critical_needs p).
Proof.
  unfold demands_of. induction ps as [| p ps IH]; cbn [map].
  - rewrite union_list_nil. split; [intros H; now apply elem_of_empty in H |].
    intros (p & [] & _).
  - rewrite union_list_cons, elem_of_union, IH, elem_of_list_to_set, list_elem_of_In.
    split.
    + intros [H | (q & Hq & Hd)]; [exists p; split; [now left | exact H] |].
      exists q. split; [now right | exact Hd].
    + intros (q & [<- | Hq] & Hd); [now left | right; eauto].
Qed.

Lemma positions_of_ext (p : Character -> bool) (cs cs' : list Character) :
  Forall2 (fun c c' => p c' = p c) cs cs' ->
  forall pos, positions_of p pos cs' = positions_of p pos cs.
Proof.
  induction 1 as [| c c' l l' Hp Hl IH]; intros pos; simpl; [reflexivity |].
  rewrite Hp, IH. reflexivity.
Qed.

Lemma same_person_steward (c c' : Character) :
  same_person c c' -> is_steward c' = is_steward c.
Proof. intros (_ & Hn & _). unfold is_steward. now rewrite Hn. Qed.

Lemma grant_person (concessions : list string) (p : Character) :
  same_person p (grant concessions p) /\
  stress (grant concessions p) = stress p - 5 /\
  influence (grant concessions p) = influence p.
Proof.
  unfold grant. destruct (grant_fold_frame concessions p) as (P & S & I).
  cbv zeta in *. split; [| split].
  - eapply same_person_trans; [exact P |]. repeat split.
  - cbn [stress set_stress]. now rewrite S.
  - cbn [influence set_stress]. exact I.
Qed.

Lemma filter_nil_Forall (p : Character -> bool) (cs : list Character) :
  List.filter p cs = [] <-> Forall (fun c => p c = false) cs.
Proof.
  induction cs as [| c cs IH]; simpl.
  - split; [constructor | reflexivity].
  - destruct (p c) eqn:E.
    + split; [discriminate |]. intros H. inversion H; congruence.
    + rewrite IH. split; [now constructor | intros H; now inversion H].
Qed.

(** X18.  [_organize_protest] with the guarantees of [random] returns.
    Without a protester (somebody other than the captain with a critical
    need) the ship is left exactly as it was, the steward included.  With
    one, the list of concessions is never empty, so the captain's
    authority falls by exactly 5, with no floor; the concessions are
    different critical needs of protesters; every protester loses 5 of
    stress, with no floor, and its granted needs rise by 10 up to the
    cap of 100; the first character whose name contains steward gains 10
    of stress and loses 5 of influence; nothing else of anybody changes,
    nor do heading, alliances or day. *)
Theorem X18_protest_costs_the_captain_five :
  forall (s : Ship) (l : Luck),
    fair l ->
    let s' := fst (fst (_organize_protest s l)) in
    snd (_organize_protest s l) = Returned tt /\
    heading s' = heading s /\ alliances s' = alliances s /\ day s' = day s /\
    (Forall (fun c => is_protester c = false) (characters s) -> s' = s) /\
    (Exists (fun c => is_protester c = true) (characters s) ->
     captain_authority s' = captain_authority s - 5 /\
     exists concessions : list string,
       concessions <> [] /\ List.NoDup concessions /\
       (forall d, In d concessions ->
          exists p, In p (characters s) /\ is_protester p = true /\
                    In d (get_critical_needs p)) /\
       forall (r : nat) (c : Character),
         characters s !! r = Some c ->
         exists c',
           characters s' !! r = Some c' /\ same_person c c' /\
           stress c' ==
             stress c - (if is_protester c then 5 else 0)
             + (if bool_decide (first_position is_steward (characters s) = Some r)
                then 10 else 0) /\
           influence c' ==
             influence c
             - (if bool_decide (first_position is_steward (characters s) = Some r)
                then 5 else 0) /\
           memories c' = memories c /\ char_alliances c' = char_alliances c /\
           forall (nm : string) (n : Need),
             dict_get nm (needs c) = Some n ->
             dict_get nm (needs c') =
             Some (if is_protester c && bool_decide (nm ∈ concessions)
                   then bump_need 10 n else n)).
Proof.
  intros s l Hfair s'. subst s'. unfold _organize_protest.
  destruct (List.filter is_protester (characters s)) as [| p0 ps] eqn:Ef.
  - cbn [fst snd]. do 5 (split; [reflexivity |]).
    intros Hex. apply filter_nil_Forall in Ef.
    apply Exists_exists in Hex. destruct Hex as (c & Hc & Hp).
    rewrite List.Forall_forall in Ef. apply list_elem_of_In in Hc.
    rewrite (Ef c Hc) in Hp. discriminate Hp.
  - set (demands := demands_of (p0 :: ps)).
    destruct (concessions_fair demands l Hfair) as (cs & Hcs & Hnd & Hin & Hne).
    destruct (_captain_makes_concessions demands l) as [res l1]. cbn [fst] in Hcs.
    subst res.
    assert (Hp0 : In p0 (characters s) /\ is_protester p0 = true).
    { apply (filter_In is_protester). rewrite Ef. now left. }
    assert (Hdem : demands <> ∅).
    { destruct Hp0 as [_ Hp0]. unfold is_protester in Hp0.
      apply andb_true_iff in Hp0. destruct Hp0 as [_ Hp0].
      destruct (get_critical_needs p0) as [| x xs] eqn:Ex; [discriminate |].
      intros He. assert (Hx : x ∈ demands).
      { apply demands_of_spec. exists p0. split; [now left |]. rewrite Ex. now left. }
      rewrite He in Hx. now apply elem_of_empty in Hx. }
    specialize (Hne Hdem).
    destruct cs as [| c0 crest] eqn:Ecs; [now elim Hne |]. rewrite <- Ecs in *.
    set (G := fun c => if is_protester c then grant cs c else c).
    assert (HG : forall c, same_person c (G c)).
    { intros c. unfold G. destruct (is_protester c);
        [apply grant_person | apply same_person_refl]. }
    assert (Hfirst : first_position is_steward (map G (characters s))
                     = first_position is_steward (characters s)).
    { unfold first_position. f_equal. apply positions_of_ext.
      assert (Hm := persons_map G (characters s) HG).
      eapply Forall2_impl; [exact Hm |]. intros c c'. apply same_person_steward. }
    cbn [fst snd characters set_characters set_captain_authority heading alliances day
         captain_authority].
    rewrite Hfirst.
    split; [reflexivity |].
    split; [destruct (first_position _ _); reflexivity |].
    split; [destruct (first_position _ _); reflexivity |].
    split; [destruct (first_position _ _); reflexivity |].
    split.
    { intros Hall. apply filter_nil_Forall in Hall. rewrite Hall in Ef. discriminate Ef. }
    intros _. split; [destruct (first_position _ _); reflexivity |].
    exists cs. split; [exact Hne |]. split; [exact Hnd |]. split.
    { intros d Hd. specialize (Hin d Hd). apply demands_of_spec in Hin.
      destruct Hin as (p & Hp & Hdp). exists p.
      rewrite <- Ef in Hp. apply filter_In in Hp. tauto. }
    intros r c Hc.
    assert (HGc : map G (characters s) !! r = Some (G c))
      by (rewrite list_lookup_fmap, Hc; reflexivity).
    assert (Hneeds : forall nm n, dict_get nm (needs c) = Some n ->
              dict_get nm (needs (G c)) =
              Some (if is_protester c && bool_decide (nm ∈ cs)
                    then bump_need 10 n else n)).
    { intros nm n Hn. unfold G. destruct (is_protester c); [| exact Hn].
      unfold grant. cbn [needs set_stress andb].
      now apply grant_fold_needs. }
    assert (HGs : stress (G c) == stress c - (if is_protester c then 5 else 0)).
    { unfold G. destruct (is_protester c).
      - destruct (grant_person cs c) as (_ & -> & _). reflexivity.
      - lra. }
    assert (HGi : influence (G c) = influence c).
    { unfold G. destruct (is_protester c); [| reflexivity].
      now destruct (grant_person cs c) as (_ & _ & ->). }
    assert (HGm : memories (G c) = memories c /\ char_alliances (G c) = char_alliances c).
    { unfold G. destruct (is_protester c); [| now split].
      unfold grant. cbn [memories char_alliances set_stress].
      clear. generalize c. induction cs as [| k rest IH]; intros p; cbn [fold_left];
        [now split |].
      destruct (IH (if dict_mem k (needs p) then update_needs p [(k, 10)] else p))
        as [-> ->].
      destruct (dict_mem k (needs p)); [| now split].
      destruct (update_needs_frame [(k, 10)] p) as (_ & _ & _ & _ & _ & _ & Hm & Ha & _).
      now split. }
    destruct (first_position is_steward (characters s)) as [r0 |] eqn:Er0;
      cbn [characters set_characters].
    + rewrite list_lookup_alter. destruct (decide (r0 = r)) as [-> | Hr].
      * rewrite HGc. cbn [fmap option_fmap option_map]. eexists. split; [reflexivity |].
        rewrite bool_decide_eq_true_2 by reflexivity.
        split; [eapply same_person_trans; [apply HG |]; repeat split |].
        unfold scold. cbn [stress influence needs memories char_alliances
                          set_influence set_stress].
        split; [rewrite HGs; lra |]. split; [rewrite HGi; lra |].
        split; [apply HGm |]. split; [apply HGm | exact Hneeds].
      * rewrite HGc. eexists. split; [reflexivity |].
        rewrite bool_decide_eq_false_2 by congruence.
        split; [apply HG |]. split; [rewrite HGs; lra |]. split; [rewrite HGi; lra |].
        split; [apply HGm |]. split; [apply HGm | exact Hneeds].
    + rewrite HGc. eexists. split; [reflexivity |].
      rewrite bool_decide_eq_false_2 by discriminate.
      split; [apply HG |]. split; [rewrite HGs; lra |]. split; [rewrite HGi; lra |].
      split; [apply HGm |]. split; [apply HGm | exact Hneeds].
Qed.

Lemma X18_witness :
  captain_authority (fst (fst (_organize_protest (ship default_voyage) plain_luck)))
  = 100 - 5.
Proof.
  destruct (X18_protest_costs_the_captain_five (ship default_voyage) plain_luck
              plain_luck_fair) as (_ & _ & _ & _ & _ & H).
  destruct H as [Ha _]; [| exact Ha].
  apply Exists_exists. exists (List.nth 3 default_characters (sailor 0 EmptyString)).
  split; [| reflexivity].
  apply list_elem_of_In. simpl. tauto.
Defined.

(** *** The steps of a day are calm *)

Lemma maybe_update_person (b : bool) (changes : list (string * Q)) (c : Character) :
  same_person c (if b then update_needs c changes else c).
Proof. destruct b; [apply update_needs_person | apply same_person_refl]. Qed.

Lemma environmental_effect_person (d : Q) (c : Character) :
  same_person c (environmental_effect d c).
Proof.
  unfold environmental_effect. cbv zeta.
  set (c1 := if dict_mem "warmth" (needs c)
             then update_needs c [("warmth"%string, - (d / 20))] else c).
  assert (P1 : same_person c c1) by apply maybe_update_person.
  set (c2 := if dict_mem "safety" (needs c1)
             then update_needs c1 [("safety"%string, - (d / 30))] else c1).
  assert (P2 : same_person c1 c2) by apply maybe_update_person.
  eapply same_person_trans; [exact P1 |].
  eapply same_person_trans; [exact P2 |]. repeat split.
Qed.

Lemma env_calm (s : Ship) : calm s (_apply_environmental_effects s).
Proof.
  split; [| repeat split; cbn; lra].
  unfold _apply_environmental_effects. cbn [characters set_characters].
  apply persons_map. intros c. apply environmental_effect_person.
Qed.

Lemma draw_witnesses_source (cs : list Character) :
  forall g : Rng, draws (snd (draw_witnesses cs g)) = draws g.
Proof.
  induction cs as [| c cs IH]; intros g; [reflexivity |].
  cbn [draw_witnesses]. unfold random.
  specialize (IH {| draws := draws g; cursor := S (cursor g) |}).
  destruct (draw_witnesses cs _) as [ws g2]. exact IH.
Qed.

Lemma process_loop_source (d : Z) (event : Event) (todo : list Character) :
  forall (done : list Character) (g : Rng),
    draws (snd (process_loop d event done todo g)) = draws g.
Proof.
  induction todo as [| c rest IH]; intros done g; [reflexivity |].
  cbn [process_loop]. destruct (affected event c); [| apply IH].
  pose proof (draw_witnesses_source (done ++ c :: rest) g) as Hw.
  destruct (draw_witnesses (done ++ c :: rest) g) as [ws g1]. cbn [snd] in Hw.
  rewrite IH. exact Hw.
Qed.

Lemma process_event_calm (v : Voyage) (event : Event) (g : Rng) :
  calm (ship v) (ship (fst (_process_event v event g))) /\
  draws (snd (_process_event v event g)) = draws g.
Proof.
  unfold _process_event.
  destruct (process_loop_spec (day (ship v)) event (map id (characters (ship v)))
              (characters (ship v)) [] g eq_refl) as (out & Hout & Hall).
  pose proof (process_loop_source (day (ship v)) event (characters (ship v)) [] g) as Hs.
  destruct (process_loop (day (ship v)) event [] (characters (ship v)) g) as [cs g'].
  cbn [fst snd ship] in *. subst cs. split; [| exact Hs].
  split; [| repeat split; cbn; lra]. cbn [characters set_characters app].
  eapply Forall2_impl; [exact Hall |]. intros c c' Hr. unfold remembers in Hr.
  destruct (ship_voyage.affected event c).
  - destruct Hr as (ws & -> & _). repeat split.
  - subst c'. apply same_person_refl.
Qed.

Lemma same_source_refl (l : Luck) : same_source l l.
Proof. repeat split. Qed.

Lemma same_source_trans (l1 l2 l3 : Luck) :
  same_source l1 l2 -> same_source l2 l3 -> same_source l1 l3.
Proof.
  intros (A1 & A2 & A3 & A4) (B1 & B2 & B3 & B4). repeat split; congruence.
Qed.

Lemma fair_source (l l' : Luck) : same_source l l' -> fair l -> fair l'.
Proof.
  intros (A1 & A2 & A3 & A4) (F1 & F2 & F3 & F4). unfold fair, unit_draws.
  rewrite A1, A2, A3, A4. auto.
Qed.

Lemma daily_events_calm (v : Voyage) (l : Luck) :
  calm (ship v) (ship (fst (_generate_daily_events v l))) /\
  same_source l (snd (_generate_daily_events v l)).
Proof.
  unfold _generate_daily_events.
  destruct (rand l) as [x l1] eqn:E1.
  assert (S1 : same_source l l1).
  { unfold rand, random in E1. injection E1 as _ <-. repeat split. }
  set (first := if Qltb x (2 # 10) then _ else ([], l1)).
  assert (S2 : same_source l1 (snd first)).
  { subst first. destruct (Qltb x (2 # 10)); [| apply same_source_refl].
    cbn [choice snd]. repeat split. }
  destruct first as [events1 l2]. cbn [snd] in S2.
  set (second := if Qltb (temperature (ship v)) 5 then _ else (events1, l2)).
  assert (S3 : same_source l2 (snd second)).
  { subst second. destruct (Qltb (temperature (ship v)) 5); [| apply same_source_refl].
    unfold rand, random. cbn [snd]. repeat split. }
  destruct second as [events2 l3]. cbn [snd] in S3.
  assert (S03 : same_source l l3).
  { eapply same_source_trans; [exact S1 |].
    eapply same_source_trans; [exact S2 | exact S3]. }
  clear - S03. revert v l3 S03.
  induction events2 as [| e es IH]; intros v l3 S03; cbn [fold_left].
  - split; [apply calm_refl | exact S03].
  - cbn [fst snd].
    destruct (process_event_calm v e (rng l3)) as [C D].
    destruct (_process_event v e (rng l3)) as [v' g']. cbn [fst snd] in *.
    destruct (IH v' (with_rng l3 g')) as [C' S'].
    + destruct S03 as (A1 & A2 & A3 & A4). repeat split; cbn; congruence.
    + split; [eapply calm_trans; eauto | exact S'].
Qed.

Lemma form_alliance_calm (s : Ship) (r1 r2 : nat) (word : string) :
  calm s (_form_alliance s r1 r2 word).
Proof.
  unfold _form_alliance.
  destruct (characters s !! r1) as [c1 |]; [| apply calm_refl].
  destruct (characters s !! r2) as [c2 |]; [| apply calm_refl].
  assert (P : Forall2 same_person (characters s)
                (alter (add_ally (id c1)) r2 (alter (add_ally (id c2)) r1 (characters s)))).
  { eapply persons_trans; apply persons_alter; intros c; repeat split. }
  cbn [characters set_characters].
  destruct (join_existing _ _ _); (split; [exact P | repeat split; cbn; lra]).
Qed.

Lemma form_alliance_step (s : Ship) (r1 r2 : nat) (l : Luck) :
  calm s (fst (form_alliance s r1 r2 l)) /\ same_source l (snd (form_alliance s r1 r2 l)).
Proof.
  unfold form_alliance. destruct (founds_alliance s r1 r2); cbn [choice fst snd].
  - split; [apply form_alliance_calm | repeat split].
  - split; [apply form_alliance_calm | apply same_source_refl].
Qed.

Lemma find_potential_ally_source (s : Ship) (r : nat) (l : Luck) :
  same_source l (snd (find_potential_ally s r l)).
Proof.
  unfold find_potential_ally.
  destruct (characters s !! r) as [c |]; [| apply same_source_refl].
  destruct (candidates_from 0 c (characters s)); [apply same_source_refl |].
  cbn [snd]. repeat split.
Qed.

Lemma interactions_calm (refs : list nat) :
  forall (s : Ship) (l : Luck),
    calm s (fst (interactions refs s l)) /\ same_source l (snd (interactions refs s l)).
Proof.
  induction refs as [| r rest IH]; intros s l; cbn [interactions].
  - split; [apply calm_refl | apply same_source_refl].
  - unfold rand, random. cbn [fst snd].
    set (l1 := with_rng l {| draws := draws (rng l); cursor := S (cursor (rng l)) |}).
    assert (S1 : same_source l l1) by (repeat split).
    destruct (Qltb _ (15 # 100)).
    + pose proof (find_potential_ally_source s r l1) as S2.
      destruct (find_potential_ally s r l1) as [[r2 |] l2]; cbn [snd] in S2.
      * destruct (form_alliance_step s r r2 l2) as [C3 S3].
        destruct (form_alliance s r r2 l2) as [s' l3]. cbn [fst snd] in C3, S3.
        destruct (IH s' l3) as [C S'].
        split.
        -- eapply calm_trans; [exact C3 | exact C].
        -- eapply same_source_trans; [exact S1 |].
           eapply same_source_trans; [exact S2 |].
           eapply same_source_trans; [exact S3 | exact S'].
      * destruct (IH s l2) as [C S'].
        split; [exact C |].
        eapply same_source_trans; [exact S1 |].
        eapply same_source_trans; [exact S2 | exact S'].
    + destruct (IH s l1) as [C S'].
      split; [exact C |]. eapply same_source_trans; [exact S1 | exact S'].
Qed.

Lemma update_alliance_list_source (al : list Alliance) :
  forall g : Rng, draws (snd (update_alliance_list al g)) = draws g.
Proof.
  induction al as [| a rest IH]; intros g; [reflexivity |].
  cbn [update_alliance_list].
  assert (H1 : draws (snd (update_alliance a g)) = draws g).
  { unfold update_alliance. destruct (broken a); [reflexivity |].
    unfold uniform, random. cbn [fst snd].
    destruct (Qltb _ (1 # 10)); [| reflexivity].
    destruct (Qltb _ 20); reflexivity. }
  destruct (update_alliance a g) as [[a' o1] g1]. cbn [snd] in H1.
  specialize (IH g1). destruct (update_alliance_list rest g1) as [[l' o2] g2].
  cbn [snd] in *. congruence.
Qed.

Lemma update_alliances_calm (s : Ship) (g : Rng) :
  calm s (fst (_update_alliances s g)) /\ draws (snd (_update_alliances s g)) = draws g.
Proof.
  unfold _update_alliances.
  pose proof (update_alliance_list_source (alliances s) g) as Hs.
  destruct (update_alliance_list (alliances s) g) as [[al out] g']. cbn [fst snd] in *.
  split; [| exact Hs]. split; [apply persons_refl | repeat split; cbn; lra].
Qed.

Lemma hear_persons (speakers : list nat) :
  forall cs : list Character, Forall2 same_person cs (hear speakers cs).
Proof.
  unfold hear. induction speakers as [| r rest IH]; intros cs; cbn [fold_left].
  - apply persons_refl.
  - eapply persons_trans; [| apply IH]. apply persons_alter. intros c. repeat split.
Qed.

Lemma discussion_calm (s : Ship) (l : Luck) :
  calm s (fst (fst (_philosophical_discussion s l))) /\
  same_source l (snd (fst (_philosophical_discussion s l))).
Proof.
  unfold _philosophical_discussion. cbn [choice sample].
  destruct (_ <? _)%nat; cbn [fst snd].
  - split; [apply calm_refl | repeat split].
  - unfold rand_uniform, uniform, random. cbn [fst snd].
    split; [| repeat split].
    split; [apply hear_persons | repeat split; cbn; lra].
Qed.

Lemma protest_calm (s : Ship) (l : Luck) :
  calm s (fst (fst (_organize_protest s l))) /\
  same_source l (snd (fst (_organize_protest s l))).
Proof.
  unfold _organize_protest.
  destruct (List.filter is_protester (characters s)) as [| p0 ps];
    [split; [apply calm_refl | apply same_source_refl] |].
  assert (Hs : same_source l (snd (_captain_makes_concessions (demands_of (p0 :: ps)) l))).
  { unfold _captain_makes_concessions. cbn [randint sample].
    destruct (_ <? 0)%Z; repeat split. }
  destruct (_captain_makes_concessions (demands_of (p0 :: ps)) l) as [[cs | ex] l1];
    cbn [fst snd] in *; [| split; [apply calm_refl | exact Hs]].
  split; [| exact Hs].
  set (s1 := match cs with [] => s | _ :: _ => _ end).
  assert (C1 : calm s s1).
  { subst s1. destruct cs as [| c0 crest]; [apply calm_refl |].
    split; [| repeat split; cbn; lra]. cbn [characters set_characters].
    apply persons_map. intros c. destruct (is_protester c);
      [apply grant_person | apply same_person_refl]. }
  eapply calm_trans; [exact C1 |].
  split; [| repeat split; cbn; lra]. cbn [characters set_characters].
  destruct (first_position is_steward (characters s1)); [| apply persons_refl].
  apply persons_alter. intros c. repeat split.
Qed.

Lemma loyal_persons (cs cs' : list Character) :
  Forall2 same_person cs cs' -> loyal cs -> loyal cs'.
Proof.
  unfold loyal. induction 1 as [| c c' l l' Hp Hl IH]; intros H; [constructor |].
  inversion H as [| ? ? Hc Hrest]; subst. constructor; [| now apply IH].
  destruct Hp as (_ & _ & Hr & _ & _ & Ht & _).
  unfold is_supporter, is_captain in *. now rewrite Ht, Hr.
Qed.

Lemma loyal_mutiny_fails (s : Ship) :
  loyal (characters s) ->
  calm s (fst (_attempt_mutiny s)) /\ snd (_attempt_mutiny s) = Returned tt.
Proof.
  intros Hl. unfold _attempt_mutiny, support_count.
  cbn [characters print].
  assert (H0 : List.filter is_supporter (characters s) = []).
  { apply filter_nil_Forall. exact Hl. }
  rewrite H0. cbn [length].
  assert (Hh : Qltb (inject_Z (Z.of_nat (length (characters s))) / 2)
                    (inject_Z (Z.of_nat 0)) = false).
  { apply Qltb_ge. change (inject_Z (Z.of_nat 0)) with 0.
    apply Qle_shift_div_l; [lra |].
    assert (0 <= inject_Z (Z.of_nat (length (characters s)))).
    { change 0 with (inject_Z 0). rewrite <- Zle_Qle. lia. }
    lra. }
  rewrite Hh. cbn [fst snd]. split; [| reflexivity].
  split; [| repeat split; cbn; lra]. cbn [characters set_characters print].
  apply persons_map. intros c. destruct (is_mutineer c);
    [repeat split | apply same_person_refl].
Qed.

Lemma protest_check_none (s : Ship) :
  _check_protest_conditions s = None <-> characters s = [].
Proof.
  unfold _check_protest_conditions. cbv zeta.
  destruct (characters s); split; try reflexivity; discriminate.
Qed.

Lemma discussion_returns (s : Ship) (l : Luck) :
  enough_speakers (characters s) ->
  snd (_philosophical_discussion s l) = Returned tt.
Proof.
  unfold enough_speakers, _philosophical_discussion. cbn [choice sample].
  rewrite <- (positions_of_length _ (characters s) 0). intros H.
  destruct (Nat.ltb_spec (length (positions_of (fun c => Qltb 40 (speaking_ability c)) 0
                                               (characters s)))
                         (Nat.min 3 (length (characters s)))) as [Hlt | _]; [lia |].
  unfold rand_uniform, uniform, random. reflexivity.
Qed.

Lemma protest_returns (s : Ship) (l : Luck) :
  fair l -> snd (_organize_protest s l) = Returned tt.
Proof.
  intros Hf. unfold _organize_protest.
  destruct (List.filter is_protester (characters s)) as [| p0 ps]; [reflexivity |].
  destruct (concessions_fair (demands_of (p0 :: ps)) l Hf) as (cs & Hcs & _).
  destruct (_captain_makes_concessions (demands_of (p0 :: ps)) l) as [res l1].
  cbn [fst] in Hcs. subst res. reflexivity.
Qed.

Lemma enough_speakers_persons (cs cs' : list Character) :
  Forall2 same_person cs cs' -> enough_speakers cs -> enough_speakers cs'.
Proof.
  intros H. unfold enough_speakers.
  rewrite <- (Forall2_length _ _ _ H).
  replace (length (List.filter (fun c => Qltb 40 (speaking_ability c)) cs'))
    with (length (List.filter (fun c => Qltb 40 (speaking_ability c)) cs)); [tauto |].
  induction H as [| c c' l l' Hp Hl IH]; [reflexivity |]. simpl.
  destruct Hp as (_ & _ & _ & _ & _ & _ & Hsp). rewrite Hsp.
  destruct (Qltb 40 (speaking_ability c)); simpl; now rewrite IH.
Qed.

(** What a day does to a ship whose crew is loyal: after the step north
    everything is calm up to the last statement, which advances the day
    when the ship goes on. *)
Lemma simulate_day_calm (v : Voyage) (l : Luck) :
  loyal (characters (ship v)) ->
  exists s7 : Ship,
    calm (sail_north (ship v)) s7 /\
    same_source l (snd (fst (simulate_day v l))) /\
    ship (fst (fst (simulate_day v l))) =
      match snd (simulate_day v l) with
      | Continues => set_day s7 (day s7 + 1)
      | _ => s7
      end /\
    (fair l -> characters (ship v) <> [] -> enough_speakers (characters (ship v)) ->
     snd (simulate_day v l) = Continues \/ snd (simulate_day v l) = Sank) /\
    (characters (ship v) = [] -> snd (simulate_day v l) = Crashed ZeroDivisionError).
Proof.
  intros Hloyal. unfold simulate_day.
  set (s0 := sail_north (ship v)).
  assert (P0 : Forall2 same_person (characters (ship v)) (characters s0))
    by apply persons_refl.
  pose proof (env_calm s0) as C1.
  set (s1 := _apply_environmental_effects s0) in *.
  destruct (daily_events_calm (with_ship v s1) l) as [C2 S2].
  destruct (_generate_daily_events (with_ship v s1) l) as [v2 l2].
  cbn [fst snd ship with_ship] in C2, S2.
  destruct (interactions_calm (seq 0 (length (characters (ship v2)))) (ship v2) l2)
    as [C3 S3].
  unfold _character_interactions.
  destruct (interactions (seq 0 (length (characters (ship v2)))) (ship v2) l2)
    as [s3 l3]. cbn [fst snd] in C3, S3.
  destruct (update_alliances_calm s3 (rng l3)) as [C4 S4].
  destruct (_update_alliances s3 (rng l3)) as [s4 g4]. cbn [fst snd] in C4, S4.
  set (l4 := with_rng l3 g4).
  assert (S04 : same_source l l4).
  { eapply same_source_trans; [exact S2 |].
    eapply same_source_trans; [exact S3 |].
    destruct l3. subst l4. repeat split. exact S4. }
  assert (C04 : calm s0 s4).
  { eapply calm_trans; [exact C1 |]. eapply calm_trans; [exact C2 |].
    eapply calm_trans; [exact C3 | exact C4]. }
  clear C1 C2 C3 C4 S2 S3 S4.
  destruct (rand l4) as [x l5] eqn:Er.
  assert (S05 : same_source l l5).
  { unfold rand, random in Er. injection Er as _ <-.
    eapply same_source_trans; [exact S04 |]. repeat split. }
  clear Er.
  set (discussion := if Qltb x (3 # 10)
                     then _philosophical_discussion s4 l5 else (s4, l5, Returned tt)).
  assert (Hdisc : calm s4 (fst (fst discussion)) /\
                  same_source l5 (snd (fst discussion)) /\
                  (enough_speakers (characters s4) -> snd discussion = Returned tt)).
  { subst discussion. destruct (Qltb _ (3 # 10)).
    - destruct (discussion_calm s4 l5) as [C S']. split; [exact C |].
      split; [exact S' |]. apply discussion_returns.
    - cbn [fst snd]. split; [apply calm_refl |].
      split; [apply same_source_refl | reflexivity]. }
  destruct discussion as [[s5 l6] res5]. cbn [fst snd] in Hdisc.
  destruct Hdisc as (C5 & S5 & R5).
  assert (C05 : calm s0 s5) by (eapply calm_trans; eauto).
  assert (S06 : same_source l l6) by (eapply same_source_trans; eauto).
  assert (P05 : Forall2 same_person (characters (ship v)) (characters s5)).
  { eapply persons_trans; [exact P0 | apply C05]. }
  assert (P04 : Forall2 same_person (characters (ship v)) (characters s4)).
  { eapply persons_trans; [exact P0 | apply C04]. }
  destruct res5 as [[] | ex5].
  2:{ exists s5. cbn [fst snd ship with_ship]. split; [exact C05 |].
      split; [exact S06 |]. split; [reflexivity |]. split.
      - intros _ _ He. specialize (R5 (enough_speakers_persons _ _ P04 He)).
        discriminate R5.
      - intros He. exfalso.
        assert (H4 : characters s4 = []).
        { apply Forall2_length in P04. rewrite He in P04.
          destruct (characters s4); [reflexivity | discriminate P04]. }
        assert (Hen : enough_speakers (characters s4))
          by (rewrite H4; unfold enough_speakers; simpl; lia).
        specialize (R5 Hen). discriminate R5. }
  destruct (_check_protest_conditions s5) as [protest |] eqn:Ep.
  2:{ exists s5. cbn [fst snd ship with_ship]. split; [exact C05 |].
      split; [exact S06 |]. split; [reflexivity |]. split; [| reflexivity].
      intros _ Hne _. exfalso.
      apply (proj1 (protest_check_none s5)) in Ep.
      apply Hne. apply Forall2_length in P05. rewrite Ep in P05.
      destruct (characters (ship v)); [reflexivity | discriminate P05]. }
  assert (Hfull : characters (ship v) <> []).
  { intros He. apply Forall2_length in P05. rewrite He in P05.
    assert (H5 : characters s5 = [])
      by (destruct (characters s5); [reflexivity | discriminate P05]).
    apply (proj2 (protest_check_none s5)) in H5. congruence. }
  set (protested := if protest then _organize_protest s5 l6 else (s5, l6, Returned tt)).
  assert (Hprot : calm s5 (fst (fst protested)) /\
                  same_source l6 (snd (fst protested)) /\
                  (fair l6 -> snd protested = Returned tt)).
  { subst protested. destruct protest.
    - destruct (protest_calm s5 l6) as [C S']. split; [exact C |].
      split; [exact S' |]. apply protest_returns.
    - cbn [fst snd]. split; [apply calm_refl |].
      split; [apply same_source_refl | reflexivity]. }
  destruct protested as [[s6 l7] res6]. cbn [fst snd] in Hprot.
  destruct Hprot as (C6 & S6 & R6).
  assert (C06 : calm s0 s6) by (eapply calm_trans; eauto).
  assert (S07 : same_source l l7) by (eapply same_source_trans; eauto).
  destruct res6 as [[] | ex6].
  2:{ exists s6. cbn [fst snd ship with_ship]. split; [exact C06 |].
      split; [exact S07 |]. split; [reflexivity |]. split; [| contradiction].
      intros Hf _ _. specialize (R6 (fair_source _ _ S06 Hf)). discriminate R6. }
  assert (L6 : loyal (characters s6)).
  { eapply loyal_persons; [| exact Hloyal].
    eapply persons_trans; [exact P0 | apply C06]. }
  set (mutinied := if _check_mutiny_conditions s6 then _attempt_mutiny s6
                   else (s6, Returned tt)).
  assert (Hmut : calm s6 (fst mutinied) /\ snd mutinied = Returned tt).
  { subst mutinied. destruct (_check_mutiny_conditions s6).
    - now apply loyal_mutiny_fails.
    - split; [apply calm_refl | reflexivity]. }
  destruct mutinied as [s7 res7]. cbn [fst snd] in Hmut. destruct Hmut as [C7 R7].
  subst res7.
  assert (C07 : calm s0 s7) by (eapply calm_trans; eauto).
  exists s7. split; [exact C07 |].
  destruct (Qltb 90 (danger_level s7)).
  - destruct (rand l7) as [y l8] eqn:Er.
    assert (S08 : same_source l l8).
    { unfold rand, random in Er. injection Er as _ <-.
      eapply same_source_trans; [exact S07 |]. repeat split. }
    destruct (Qltb y (3 # 10)); cbn [fst snd ship with_ship].
    + split; [exact S08 |]. split; [reflexivity |].
      split; [intros; now right | contradiction].
    + split; [exact S08 |]. split; [reflexivity |].
      split; [intros; now left | contradiction].
  - cbn [fst snd ship with_ship]. split; [exact S07 |].
    split; [reflexivity |]. split; [intros; now left | contradiction].
Qed.

(** One day, seen from outside. *)
Lemma day_step (v : Voyage) (l : Luck) :
  loyal (characters (ship v)) ->
  let v' := fst (fst (simulate_day v l)) in
  Forall2 same_person (characters (ship v)) (characters (ship v')) /\
  heading (ship v') = py_max 0 (heading (ship v) - 2) /\
  danger_level (ship v') = danger_level (sail_north (ship v)) /\
  temperature (ship v') = temperature (sail_north (ship v)) /\
  captain_authority (ship v') <= captain_authority (ship v) /\
  (snd (simulate_day v l) = Continues -> day (ship v') = (day (ship v) + 1)%Z) /\
  same_source l (snd (fst (simulate_day v l))) /\
  (fair l -> characters (ship v) <> [] -> enough_speakers (characters (ship v)) ->
   snd (simulate_day v l) = Continues \/ snd (simulate_day v l) = Sank) /\
  (characters (ship v) = [] -> snd (simulate_day v l) = Crashed ZeroDivisionError).
Proof.
  intros Hl v'. subst v'.
  destruct (simulate_day_calm v l Hl) as (s7 & C & S & E & R & Z0).
  destruct C as (P & H & D & T & Y & A).
  assert (Hc : characters (ship (fst (fst (simulate_day v l)))) = characters s7
               /\ heading (ship (fst (fst (simulate_day v l)))) = heading s7
               /\ danger_level (ship (fst (fst (simulate_day v l)))) = danger_level s7
               /\ temperature (ship (fst (fst (simulate_day v l)))) = temperature s7
               /\ captain_authority (ship (fst (fst (simulate_day v l))))
                  = captain_authority s7).
  { rewrite E. destruct (snd (simulate_day v l)); repeat split. }
  destruct Hc as (Hc1 & Hc2 & Hc3 & Hc4 & Hc5).
  rewrite Hc1, Hc2, Hc3, Hc4, Hc5.
  split; [exact P |]. split; [rewrite H; reflexivity |].
  split; [exact D |]. split; [exact T |].
  split; [exact A |]. split.
  - intros Hst. rewrite E, Hst. cbn [day set_day]. rewrite Y. reflexivity.
  - split; [exact S |]. split; [exact R | exact Z0].
Qed.

(** X19.  A ship without characters cannot sail a day: whatever the
    luck, [simulate_day] raises [ZeroDivisionError], from the average
    stress that [_check_protest_conditions] computes. *)
Theorem X19_an_empty_ship_cannot_sail :
  forall (v : Voyage) (l : Luck),
    characters (ship v) = [] ->
    snd (simulate_day v l) = Crashed ZeroDivisionError.
Proof.
  intros v l He. apply day_step; [| exact He].
  unfold loyal. rewrite He. constructor.
Qed.

Lemma X19_witness :
  snd (simulate_day {| ship := Ship_init; events := [] |} plain_luck)
  = Crashed ZeroDivisionError.
Proof.
  apply (X19_an_empty_ship_cannot_sail {| ship := Ship_init; events := [] |} plain_luck).
  reflexivity.
Defined.


Lemma north_again (h H : Q) (k : Z) :
  0 <= h -> (0 <= k)%Z ->
  H == py_max 0 (h - 2 * inject_Z k) ->
  py_max 0 (H - 2) == py_max 0 (h - 2 * inject_Z (k + 1)) /\
  0 <= py_max 0 (H - 2) <= H.
Proof.
  intros Hh Hk HH. rewrite inject_Z_plus. change (inject_Z 1) with 1.
  assert (Hk' : 0 <= inject_Z k).
  { change 0 with (inject_Z 0). now rewrite <- Zle_Qle. }
  unfold py_max in *.
  destruct (Qltb 0 (h - 2 * inject_Z k)) eqn:E1;
    destruct (Qltb 0 (H - 2)) eqn:E2;
    destruct (Qltb 0 (h - 2 * (inject_Z k + 1))) eqn:E3;
    rewrite ?Qltb_lt, ?Qltb_ge in *; split; try split; lra.
Qed.

(** X20.  With a crew in which nobody but the captain has a trust in the
    captain below 30, no number of days and no luck turns the ship: a
    mutiny attempt cannot succeed, because no method ever changes
    anybody's trust or role.  Whatever way the days end, the heading
    (from a non-negative one) never grows and stays non-negative, the
    captain's authority never grows, and every character keeps its id,
    name, role, groups, ideology, trust and speaking ability; if all [n]
    days were sailed the day counter moved by [n] and the heading is the
    old one less 2 per day, floored at 0. *)
Theorem X20_a_loyal_crew_never_turns_the_ship :
  forall (n : nat) (v : Voyage) (l : Luck),
    loyal (characters (ship v)) ->
    0 <= heading (ship v) ->
    let v' := fst (fst (sail n v l)) in
    Forall2 same_person (characters (ship v)) (characters (ship v')) /\
    0 <= heading (ship v') <= heading (ship v) /\
    captain_authority (ship v') <= captain_authority (ship v) /\
    (snd (sail n v l) = Continues ->
     day (ship v') = (day (ship v) + Z.of_nat n)%Z /\
     heading (ship v') == py_max 0 (heading (ship v) - 2 * inject_Z (Z.of_nat n))).
Proof.
  induction n as [| n IH]; intros v l Hl Hh v'; subst v'.
  - cbn [sail fst snd]. split; [apply persons_refl |]. split; [lra |].
    split; [lra |]. intros _. split; [lia |].
    change (inject_Z (Z.of_nat 0)) with 0. unfold py_max.
    destruct (Qltb 0 (heading (ship v) - 2 * 0)) eqn:E;
      rewrite ?Qltb_lt, ?Qltb_ge in E; lra.
  - cbn [sail].
    destruct (day_step v l Hl) as (P & H & _ & _ & A & Y & _).
    destruct (north_again (heading (ship v)) (heading (ship v)) 0 Hh) as [_ Hb];
      [lia | |].
    { change (inject_Z 0) with 0. unfold py_max.
      destruct (Qltb 0 (heading (ship v) - 2 * 0)) eqn:E;
        rewrite ?Qltb_lt, ?Qltb_ge in E; lra. }
    destruct (simulate_day v l) as [[v1 l1] st]. cbn [fst snd] in *.
    rewrite <- H in Hb.
    destruct st as [| | e]; cbn [fst snd].
    + destruct (IH v1 l1) as (P' & H' & A' & Y');
        [eapply loyal_persons; eauto | lra |].
      split; [eapply persons_trans; eauto |]. split; [lra |]. split; [lra |].
      intros Hst. destruct (Y' Hst) as [Yd Yh]. split; [rewrite Yd, Y by reflexivity; lia |].
      rewrite Yh, H. clear - Hh.
      rewrite Nat2Z.inj_succ. unfold Z.succ. rewrite inject_Z_plus.
      change (inject_Z 1) with 1.
      assert (Hn : 0 <= inject_Z (Z.of_nat n)).
      { change 0 with (inject_Z 0). rewrite <- Zle_Qle. lia. }
      unfold py_max.
      destruct (Qltb 0 (heading (ship v) - 2)) eqn:E1;
        destruct (Qltb 0 (heading (ship v) - 2 - 2 * inject_Z (Z.of_nat n))) eqn:E2;
        destruct (Qltb 0 (0 - 2 * inject_Z (Z.of_nat n))) eqn:E3;
        destruct (Qltb 0 (heading (ship v) - 2 * (inject_Z (Z.of_nat n) + 1))) eqn:E4;
        rewrite ?Qltb_lt, ?Qltb_ge in *; lra.
    + split; [exact P |]. split; [lra |]. split; [lra | discriminate].
    + split; [exact P |]. split; [lra |]. split; [lra | discriminate].
Qed.

Lemma X20_witness :
  0 <= heading (ship (fst (fst (sail 3 default_voyage plain_luck)))) <= 0.
Proof.
  destruct (X20_a_loyal_crew_never_turns_the_ship 3 default_voyage plain_luck)
    as (_ & H & _).
  - unfold loyal. repeat constructor.
  - simpl. lra.
  - exact H.
Defined.

Lemma sail_at_the_pole (n : nat) :
  forall (v : Voyage) (l : Luck),
    fair l ->
    loyal (characters (ship v)) -> characters (ship v) <> [] ->
    enough_speakers (characters (ship v)) -> heading (ship v) = 0 ->
    let r := sail n v l in
    (snd r = Continues \/ snd r = Sank) /\
    heading (ship (fst (fst r))) = 0 /\
    Forall2 same_person (characters (ship v)) (characters (ship (fst (fst r)))) /\
    captain_authority (ship (fst (fst r))) <= captain_authority (ship v) /\
    ((0 < n)%nat ->
     danger_level (ship (fst (fst r))) == 100 /\
     temperature (ship (fst (fst r))) == -5).
Proof.
  induction n as [| n IH]; intros v l Hf Hl Hne He Hh r; subst r.
  - cbn [sail fst snd]. split; [now left |]. split; [exact Hh |].
    split; [apply persons_refl |]. split; [lra | lia].
  - cbn [sail].
    destruct (day_step v l Hl) as (P & H & D & T & A & _ & S & R & _).
    specialize (R Hf Hne He).
    assert (H0 : py_max 0 (heading (ship v) - 2) = 0) by (rewrite Hh; reflexivity).
    assert (D0 : danger_level (sail_north (ship v)) == 100).
    { unfold sail_north, calculate_danger. cbn [danger_level heading set_heading].
      rewrite H0. reflexivity. }
    assert (T0 : temperature (sail_north (ship v)) == -5).
    { unfold sail_north, calculate_danger. cbn [temperature heading set_heading].
      rewrite H0. reflexivity. }
    destruct (simulate_day v l) as [[v1 l1] st]. cbn [fst snd] in *.
    rewrite H0 in H.
    destruct st as [| | e]; cbn [fst snd].
    + destruct (IH v1 l1) as (R' & H' & P' & A' & DT').
      * eapply fair_source; eauto.
      * eapply loyal_persons; eauto.
      * intros Hnil. apply Hne. apply Forall2_length in P. rewrite Hnil in P.
        destruct (characters (ship v)); [reflexivity | discriminate P].
      * eapply enough_speakers_persons; eauto.
      * exact H.
      * split; [exact R' |]. split; [exact H' |].
        split; [eapply persons_trans; eauto |]. split; [lra |].
        intros _. destruct n as [| n'].
        -- cbn [sail fst snd]. rewrite D, T. now split.
        -- apply DT'. lia.
    + split; [now right |]. split; [exact H |]. split; [exact P |].
      split; [exact A |]. intros _. rewrite D, T. now split.
    + destruct R as [R | R]; discriminate R.
Qed.

(** X21.  The voyage of [main], for any number of days and any luck the
    [random] module can give: no day raises an exception, so the voyage
    ends by sinking or by running out of days.  The heading is 0 on
    every day, so from the first day on the danger level is 100 and the
    temperature -5; the captain's authority never exceeds 100; the crew
    keeps its ten members, each with a trust in the captain of 70, so
    the mutiny never succeeds and the ship never turns south. *)
Theorem X21_the_default_voyage_never_turns_south :
  forall (n : nat) (l : Luck),
    fair l ->
    let r := sail n default_voyage l in
    (snd r = Continues \/ snd r = Sank) /\
    heading (ship (fst (fst r))) = 0 /\
    ((0 < n)%nat ->
     danger_level (ship (fst (fst r))) == 100 /\
     temperature (ship (fst (fst r))) == -5) /\
    captain_authority (ship (fst (fst r))) <= 100 /\
    length (characters (ship (fst (fst r)))) = 10%nat /\
    Forall (fun c => trust_in_captain c = 70) (characters (ship (fst (fst r)))).
Proof.
  intros n l Hf r. subst r.
  destruct (sail_at_the_pole n default_voyage l Hf) as (R & H & P & A & DT).
  - unfold loyal. repeat constructor.
  - discriminate.
  - unfold enough_speakers. vm_compute. lia.
  - reflexivity.
  - split; [exact R |]. split; [exact H |]. split; [exact DT |].
    split; [exact A |]. split.
    + rewrite <- (Forall2_length _ _ _ P). reflexivity.
    + assert (H70 : Forall (fun c => trust_in_captain c = 70)
                           (characters (ship default_voyage)))
        by (repeat constructor).
      revert H70 P. generalize (characters (ship default_voyage)).
      generalize (characters (ship (fst (fst (sail n default_voyage l))))).
      intros cs' cs H70 P. induction P as [| c c' k k' Hp Hk IHk]; [constructor |].
      inversion H70 as [| ? ? Hc Hrest]; subst. constructor; [| now apply IHk].
      destruct Hp as (_ & _ & _ & _ & _ & Ht & _). congruence.
Qed.

Lemma X21_witness :
  snd (sail 2 default_voyage plain_luck) = Continues \/
  snd (sail 2 default_voyage plain_luck) = Sank.
Proof.
  apply (X21_the_default_voyage_never_turns_south 2 plain_luck).
  exact plain_luck_fair.
Defined.

(** *** Memories *)

Lemma prefix_refl (s : string) : String.prefix s s = true.
Proof.
  induction s as [| a s IH]; [reflexivity |]. simpl.
  destruct (Ascii.ascii_dec a a); [exact IH | contradiction].
Qed.

Lemma contains_refl (s : string) : contains s s = true.
Proof. destruct s; cbn [contains]; rewrite prefix_refl; reflexivity. Qed.

Lemma contains_empty (s : string) : contains EmptyString s = true.
Proof. destruct s; reflexivity. Qed.

(** X22.  [recall_event] after [add_memory]: asked for the text of the
    event just remembered, a character recalls what it recalled before
    followed by the new memory; asked for the empty keyword it recalls
    every memory, in order; and it never recalls anything else than its
    own memories whose event text contains the keyword, letter case
    apart. *)
Theorem X22_a_new_memory_is_recalled_last :
  forall (c : Character) (d : Z) (event interpretation : string) (impact : Q)
         (witnesses : list Z),
    let m := {| mem_day := d; mem_event := event; mem_interpretation := interpretation;
                mem_emotional_impact := impact; mem_witnesses := witnesses |} in
    let c' := add_memory c d event interpretation impact witnesses in
    recall_event c' event = recall_event c event ++ [m] /\
    recall_event c' EmptyString = memories c ++ [m] /\
    (forall keyword x,
        In x (recall_event c' keyword) <->
        In x (memories c ++ [m]) /\
        contains (lower keyword) (lower (mem_event x)) = true).
Proof.
  intros c d event interpretation impact witnesses m c'. subst c'.
  unfold recall_event. cbn [memories add_memory]. fold m.
  split; [| split].
  - rewrite List.filter_app. cbn [List.filter mem_event m].
    now rewrite contains_refl.
  - cbn [lower].
    assert (H : forall l : list Memory,
               List.filter (fun x => contains EmptyString (lower (mem_event x))) l = l).
    { induction l as [| x l IH]; [reflexivity |]. simpl List.filter.
      rewrite contains_empty. now rewrite IH. }
    apply H.
  - intros keyword x. apply filter_In.
Qed.

End DayProperties.
